(** * Real-Time-Chat: the in-memory chat core of [backend/server.js] and
    [backend/server-secure.js]

    A shallow embedding of the two Socket.io servers.  The four global
    [Map]s of [storage] become one record of finite maps, every
    [StorageUtils] function becomes a function on that record, and every
    [socket.on(...)] handler becomes a function from the world before the
    event to the world after it together with the list of things the
    handler emitted, in the order it emitted them.

    Conventions.
    - A JavaScript string is a [string] whose characters are the code units
      of the JavaScript string; only code units below 256 are representable.
    - A JavaScript [Set] is a list without duplicates in insertion order
      ([Array.from] enumerates a [Set] in that order).
    - A JavaScript [Map] that is only read with [get]/[has] and written with
      [set]/[delete] is a [gmap].
    - A value that arrives from the wire is a [jsval]: the handlers test
      such values for truthiness and for being a string.  A number is an
      integer; a number with a fraction is truthy like every integer but
      zero.  Arrays and objects are [JObject].
    - [uuidv4()] and [new Date().toISOString()] are read from an [Oracle]
      that is handed to the handler: [uuidv4 o k] is what the [k]-th call of
      [uuidv4()] in this run of the handler returned, [now o k] what the
      [k]-th place of the handler that reads the clock was given.
    - An inbound event is given by the fields its handler takes out of the
      payload, as in [({ username, room }) => ...]; a field that is missing
      is [JUndefined], so a payload that is a number, a string or a boolean
      has every field [JUndefined].  An event that arrives without payload,
      or with [null] for it, is [WithoutPayload]: taking a field out of
      [undefined] or [null] throws a [TypeError], and the parameter list of
      a handler is outside its [try].
    - An emit is recorded with its audience.  The rooms of the Socket.io
      adapter are tracked to tell who is delivered an emit; the room every
      socket has under its own id is left out, so room names are taken to
      differ from socket ids.
    - An exception thrown inside a [try] is modelled by the outcome of its
      [catch].  An exception thrown outside every [try] is recorded as the
      action [Uncaught]: the handler has emitted nothing and changed nothing
      by then.  What Node does with an uncaught exception (by default it
      ends the process) is not modelled; the storage stays as the handler
      left it. *)

From Stdlib Require Import ZArith Ascii String.
From stdpp Require Import gmap strings list fin_maps.

Local Open Scope string_scope.
Local Open Scope list_scope.
Local Open Scope nat_scope.

(** ** Values received from a client *)

Inductive jsval :=
| JUndefined
| JNull
| JBool (b : bool)
| JNum (n : Z)
| JStr (s : string)
| JObject.

(** [!!v]. *)
Definition truthy (v : jsval) : bool :=
  match v with
  | JUndefined | JNull => false
  | JBool b => b
  | JNum n => negb (n =? 0)%Z
  | JStr s => negb (String.eqb s "")
  | JObject => true
  end.

(** [typeof v === 'string']. *)
Definition isString (v : jsval) : bool :=
  match v with JStr _ => true | _ => false end.

(** ** Strings *)

(** The white space and line terminator code units below 256 that
    [String.prototype.trim] removes and that [\s] matches:
    TAB, LF, VT, FF, CR, SP and NBSP. *)
Definition isWhiteSpace (c : ascii) : bool :=
  match N_of_ascii c with
  | 9 | 10 | 11 | 12 | 13 | 32 | 160 => true
  | _ => false
  end%N.

Fixpoint trimStart (s : string) : string :=
  match s with
  | EmptyString => EmptyString
  | String c s' => if isWhiteSpace c then trimStart s' else s
  end.

Definition trimEnd (s : string) : string :=
  String.rev (trimStart (String.rev s)).

(** [s.trim()]. *)
Definition trim (s : string) : string := trimEnd (trimStart s).

(** [s.substring(0, n)]. *)
Fixpoint substring0 (n : nat) (s : string) : string :=
  match n, s with
  | S n', String c s' => String c (substring0 n' s')
  | _, _ => EmptyString
  end.

Fixpoint allChars (p : ascii → bool) (s : string) : bool :=
  match s with
  | EmptyString => true
  | String c s' => p c && allChars p s'
  end.

(** The character class [[a-zA-Z0-9_\s]]. *)
Definition isNameChar (c : ascii) : bool :=
  let n := N_of_ascii c in
  ((97 <=? n) && (n <=? 122) || (65 <=? n) && (n <=? 90) ||
   (48 <=? n) && (n <=? 57) || (n =? 95))%N || isWhiteSpace c.

(** [/^[a-zA-Z0-9_\s]+$/.test(s)]. *)
Definition matchesName (s : string) : bool :=
  negb (String.eqb s "") && allChars isNameChar s.

(** ** A [Set] of strings, in insertion order *)

Definition set_add (x : string) (s : list string) : list string :=
  if decide (x ∈ s) then s else s ++ [x].

Definition set_delete (x : string) (s : list string) : list string :=
  filter (λ y, y ≠ x) s.

(** ** Arrays *)

(** [l.slice(-n)]: the last [n] elements; [-0] is [0], so [slice(-0)] is a
    copy of the whole array. *)
Definition slice_last {A} (n : nat) (l : list A) : list A :=
  match n with
  | O => l
  | S _ => drop (length l - n) l
  end.

(** ** Messages and what a handler emits *)

Inductive MsgType := user_msg | system_msg.

Record Message := mkMessage {
  m_id : string;
  m_username : string;
  m_message : string;
  m_timestamp : string;
  m_type : MsgType
}.

(** A log that holds messages of type ['user'] only. *)
Definition user_only (log : list Message) : Prop :=
  Forall (λ m, m_type m = user_msg) log.

(** The bodies of the messages of a log, oldest first. *)
Definition bodies (log : list Message) : list string := map m_message log.

(** Who an emit goes to: [socket.emit], [socket.to(room).emit] and
    [io.to(room).emit]. *)
Inductive Audience :=
| ToSocket (socketId : string)
| ToRoomExcept (room : string) (socketId : string)
| ToRoom (room : string).

(** An emit with its payload, [socket.disconnect()], or an exception that
    leaves the handler because it was thrown outside its [try]. *)
Inductive Action (P : Type) :=
| Emit (a : Audience) (p : P)
| DisconnectSocket (socketId : string)
| Uncaught.
Arguments Emit {P} a p.
Arguments DisconnectSocket {P} socketId.
Arguments Uncaught {P}.

(** The inbound events whose handler takes fields out of its payload:
    ['joinRoom'], ['sendMessage'] and ['typing']. *)
Inductive EventName := NameJoinRoom | NameSendMessage | NameTyping.

Record Oracle := mkOracle {
  uuidv4 : nat → string;
  now : nat → string
}.

(** The rooms of the Socket.io adapter: the pairs (socket, room) such that
    the socket has joined the room. *)
Definition sio_join (socketId room : string) (a : gset (string * string)) :
    gset (string * string) :=
  {[ (socketId, room) ]} ∪ a.

Definition sio_leave (socketId room : string) (a : gset (string * string)) :
    gset (string * string) :=
  a ∖ {[ (socketId, room) ]}.

(** Socket.io takes a socket out of all its rooms before it fires
    ['disconnect']. *)
Definition sio_leave_all (socketId : string) (a : gset (string * string)) :
    gset (string * string) :=
  filter (λ p, p.1 ≠ socketId) a.

(** Whether the socket [socketId] is delivered an emit with this audience. *)
Definition delivered (a : gset (string * string)) (to : Audience)
    (socketId : string) : bool :=
  match to with
  | ToSocket s => bool_decide (socketId = s)
  | ToRoomExcept r s =>
      bool_decide ((socketId, r) ∈ a) && bool_decide (socketId ≠ s)
  | ToRoom r => bool_decide ((socketId, r) ∈ a)
  end.

(** * The plain server, [backend/server.js] *)

Module Plain.

Record User := mkUser {
  u_id : string;
  u_username : string;
  u_room : string;
  u_socketId : string
}.

Record Room := mkRoom {
  r_users : list string;
  r_messages : list Message
}.

(** [storage]. *)
Record Storage := mkStorage {
  users : gmap string User;
  rooms : gmap string Room;
  sockets : gmap string string;
  typingUsers : gmap string (list string)
}.

Definition empty_storage : Storage :=
  {| users := ∅; rooms := ∅; sockets := ∅; typingUsers := ∅ |}.

(** [StorageUtils.addUser]. *)
Definition addUser (userId username room socketId : string) (st : Storage) :
    User * Storage :=
  let user := {| u_id := userId; u_username := username; u_room := room;
                 u_socketId := socketId |} in
  let rooms1 :=
    match rooms st !! room with
    | Some _ => rooms st
    | None => <[room := {| r_users := []; r_messages := [] |}]> (rooms st)
    end in
  let rooms2 :=
    alter (λ r, {| r_users := set_add userId (r_users r);
                   r_messages := r_messages r |}) room rooms1 in
  (user, {| users := <[userId := user]> (users st);
            rooms := rooms2;
            sockets := <[socketId := userId]> (sockets st);
            typingUsers := typingUsers st |}).

(** [StorageUtils.removeUser]. *)
Definition removeUser (socketId : string) (st : Storage) :
    option User * Storage :=
  match sockets st !! socketId with
  | None => (None, st)
  | Some userId =>
    if String.eqb userId "" then (None, st) else
    match users st !! userId with
    | None => (None, st)
    | Some user =>
      let '(rooms1, typing1) :=
        match rooms st !! u_room user with
        | Some room =>
            (<[u_room user := {| r_users := set_delete userId (r_users room);
                                 r_messages := r_messages room |}]> (rooms st),
             match typingUsers st !! u_room user with
             | Some typingInRoom =>
                 <[u_room user := set_delete userId typingInRoom]>
                   (typingUsers st)
             | None => typingUsers st
             end)
        | None => (rooms st, typingUsers st)
        end in
      (Some user, {| users := delete userId (users st);
                     rooms := rooms1;
                     sockets := delete socketId (sockets st);
                     typingUsers := typing1 |})
    end
  end.

(** [StorageUtils.getUserBySocketId]; [None] is [null] or [undefined]. *)
Definition getUserBySocketId (socketId : string) (st : Storage) : option User :=
  match sockets st !! socketId with
  | None => None
  | Some userId => if String.eqb userId "" then None else users st !! userId
  end.

(** [StorageUtils.getUsersInRoom]. *)
Definition getUsersInRoom (roomName : string) (st : Storage) : list User :=
  match rooms st !! roomName with
  | None => []
  | Some room => omap (λ userId, users st !! userId) (r_users room)
  end.

(** [StorageUtils.getRoomMessages]. *)
Definition getRoomMessages (roomName : string) (st : Storage) : list Message :=
  match rooms st !! roomName with
  | Some room => r_messages room
  | None => []
  end.

(** [StorageUtils.setTyping]; [isTyping] is tested for truthiness. *)
Definition setTyping (userId roomName : string) (isTyping : bool) (st : Storage) :
    list User * Storage :=
  let typing1 :=
    match typingUsers st !! roomName with
    | Some _ => typingUsers st
    | None => <[roomName := []]> (typingUsers st)
    end in
  let typing2 :=
    alter (if isTyping then set_add userId else set_delete userId)
          roomName typing1 in
  let st' := {| users := users st; rooms := rooms st; sockets := sockets st;
                typingUsers := typing2 |} in
  (omap (λ id, users st !! id) (default [] (typing2 !! roomName)), st').

(** What the plain server emits. *)
Inductive Payload :=
| EvMessage (m : Message)
| EvRoomHistory (messages : list Message)
| EvOnlineUsers (onlineUsers : list User)
| EvTyping (typing : list User)
| EvLeftRoom
| EvError (message : string).

(** The state of the process: [storage] and the rooms of the adapter. *)
Record World := mkWorld {
  storage : Storage;
  adapter : gset (string * string)
}.

Definition initial : World := {| storage := empty_storage; adapter := ∅ |}.

Inductive Event :=
| JoinRoom (username room : jsval)
| SendMessage (message : jsval)
| Typing (isTyping : jsval)
| Disconnect
| LeaveRoom
| WithoutPayload (name : EventName).

Definition systemMessage (id text timestamp : string) : Message :=
  {| m_id := id; m_username := "System"; m_message := text;
     m_timestamp := timestamp; m_type := system_msg |}.

(** [socket.on('joinRoom', ...)].  [username.trim()] and [room.trim()] throw
    a [TypeError] on a truthy value that is not a string; the [catch]
    answers it. *)
Definition onJoinRoom (socketId : string) (username room : jsval)
    (o : Oracle) (w : World) : World * list (Action Payload) :=
  if negb (truthy username) || negb (truthy room) then
    (w, [Emit (ToSocket socketId) (EvError "Username and room are required")])
  else
    let userId := uuidv4 o 0 in
    match username, room with
    | JStr username, JStr room =>
      let '(user, st1) :=
        addUser userId (trim username) (trim room) socketId (storage w) in
      let adapter1 := sio_join socketId room (adapter w) in
      let roomMessages := getRoomMessages room st1 in
      let onlineUsers := getUsersInRoom room st1 in
      ({| storage := st1; adapter := adapter1 |},
       [ Emit (ToSocket socketId)
           (EvMessage (systemMessage (uuidv4 o 1)
              ("Welcome to " +:+ room +:+ ", " +:+ username +:+ "!")
              (now o 0)));
         Emit (ToRoomExcept room socketId)
           (EvMessage (systemMessage (uuidv4 o 2)
              (username +:+ " has joined the chat") (now o 1)));
         Emit (ToSocket socketId) (EvRoomHistory roomMessages);
         Emit (ToRoom room) (EvOnlineUsers onlineUsers) ])
    | _, _ =>
      (w, [Emit (ToSocket socketId) (EvError "Failed to join room")])
    end.

(** [socket.on('typing', ...)]. *)
Definition onTyping (socketId : string) (isTyping : jsval) (w : World) :
    World * list (Action Payload) :=
  match getUserBySocketId socketId (storage w) with
  | None => (w, [])
  | Some user =>
    let '(typingUsers, st1) :=
      setTyping (u_id user) (u_room user) (truthy isTyping) (storage w) in
    ({| storage := st1; adapter := adapter w |},
     [ Emit (ToRoomExcept (u_room user) socketId)
         (EvTyping (filter (λ u, u_id u ≠ u_id user) typingUsers)) ])
  end.

Definition leftNotice (user : User) (o : Oracle) : Message :=
  systemMessage (uuidv4 o 0) (u_username user +:+ " has left the chat")
    (now o 0).

(** [socket.on('disconnect', ...)]. *)
Definition onDisconnect (socketId : string) (o : Oracle) (w : World) :
    World * list (Action Payload) :=
  let adapter1 := sio_leave_all socketId (adapter w) in
  match removeUser socketId (storage w) with
  | (Some user, st1) =>
    ({| storage := st1; adapter := adapter1 |},
     [ Emit (ToRoomExcept (u_room user) socketId)
         (EvMessage (leftNotice user o));
       Emit (ToRoomExcept (u_room user) socketId)
         (EvOnlineUsers (getUsersInRoom (u_room user) st1)) ])
  | (None, st1) => ({| storage := st1; adapter := adapter1 |}, [])
  end.

(** [socket.on('leaveRoom', ...)]. *)
Definition onLeaveRoom (socketId : string) (o : Oracle) (w : World) :
    World * list (Action Payload) :=
  match removeUser socketId (storage w) with
  | (Some user, st1) =>
    ({| storage := st1;
        adapter := sio_leave socketId (u_room user) (adapter w) |},
     [ Emit (ToRoomExcept (u_room user) socketId)
         (EvMessage (leftNotice user o));
       Emit (ToRoomExcept (u_room user) socketId)
         (EvOnlineUsers (getUsersInRoom (u_room user) st1));
       Emit (ToSocket socketId) EvLeftRoom ])
  | (None, st1) => ({| storage := st1; adapter := adapter w |}, [])
  end.

(** ['joinRoom'], ['sendMessage'] or ['typing'] without payload: the
    handler, [({ ... }) => { try { ... } catch ... }], throws a [TypeError]
    while it takes its parameter apart, before its [try]. *)
Definition onWithoutPayload (w : World) : World * list (Action Payload) :=
  (w, [Uncaught]).

(** ** Predicates on the storage and on events *)

(** The identity [userId] is in the typing set of [roomName]. *)
Definition isTypingIn (userId roomName : string) (st : Storage) : Prop :=
  userId ∈ default [] (typingUsers st !! roomName).

(** Every record of [users] is stored under its own [id]. *)
Definition ids_ok (st : Storage) : Prop :=
  ∀ userId user, users st !! userId = Some user → u_id user = userId.

(** Every session that [sockets] resolves names a registered identity that
    carries the session's socket id. *)
Definition registry_ok (st : Storage) : Prop :=
  ∀ socketId userId, sockets st !! socketId = Some userId →
    userId ≠ "" ∧
    ∃ user, users st !! userId = Some user ∧ u_id user = userId ∧
            u_socketId user = socketId.




(** What [uuidv4()] promises for the [userId] of a join: a non-empty id
    that no registered identity has. *)
Definition fresh_userId (e : Event) (o : Oracle) (st : Storage) : Prop :=
  match e with
  | JoinRoom _ _ => uuidv4 o 0 ≠ "" ∧ users st !! uuidv4 o 0 = None
  | _ => True
  end.

(** The room of every registered identity exists. *)
Definition rooms_exist (st : Storage) : Prop :=
  ∀ userId user, users st !! userId = Some user →
    is_Some (rooms st !! u_room user).

(** The events that take the sender out of a typing set: a ['typing'] with
    a falsy [isTyping], a ['leaveRoom'] and a ['disconnect']. *)
Definition stops_typing (e : Event) : Prop :=
  match e with
  | Typing isTyping => truthy isTyping = false
  | Disconnect | LeaveRoom => True
  | JoinRoom _ _ | SendMessage _ | WithoutPayload _ => False
  end.

(** An action is not a ['typing'] emit. *)
Definition not_typing_emit (a : Action Payload) : Prop :=
  match a with
  | Emit _ (EvTyping _) => False
  | _ => True
  end.

(** What an event does to [users] and [sockets]: a join that passes the
    checks registers, a leave or disconnect of a resolved session removes,
    everything else leaves both maps alone. *)
Inductive registry_change (socketId : string) (e : Event) (o : Oracle)
    (st st' : Storage) : Prop :=
| registry_same :
    users st' = users st → sockets st' = sockets st →
    registry_change socketId e o st st'
| registry_added username room rawUsername rawRoom :
    e = JoinRoom rawUsername rawRoom →
    users st' = <[uuidv4 o 0 :=
                   {| u_id := uuidv4 o 0; u_username := username;
                      u_room := room; u_socketId := socketId |}]> (users st) →
    sockets st' = <[socketId := uuidv4 o 0]> (sockets st) →
    registry_change socketId e o st st'
| registry_removed userId user :
    sockets st !! socketId = Some userId → users st !! userId = Some user →
    users st' = delete userId (users st) →
    sockets st' = delete socketId (sockets st) →
    registry_change socketId e o st st'.

Section Capacity.

(** The number of messages a room keeps; [100] in the source. *)
Variable capacity : nat.

(** [StorageUtils.addMessage]. *)
Definition addMessage (roomName : string) (message : Message) (st : Storage) :
    Storage :=
  match rooms st !! roomName with
  | Some room =>
    let pushed := r_messages room ++ [message] in
    let kept :=
      if capacity <? length pushed then slice_last capacity pushed
      else pushed in
    {| users := users st;
       rooms := <[roomName := {| r_users := r_users room;
                                 r_messages := kept |}]> (rooms st);
       sockets := sockets st;
       typingUsers := typingUsers st |}
  | None => st
  end.

(** [socket.on('sendMessage', ...)].  [message.trim()] throws a [TypeError]
    on a truthy value that is not a string. *)
Definition onSendMessage (socketId : string) (message : jsval) (o : Oracle)
    (w : World) : World * list (Action Payload) :=
  match getUserBySocketId socketId (storage w) with
  | None => (w, [Emit (ToSocket socketId) (EvError "User not found")])
  | Some user =>
    if negb (truthy message) then
      (w, [Emit (ToSocket socketId) (EvError "Message cannot be empty")])
    else
      match message with
      | JStr text =>
        if String.eqb (trim text) "" then
          (w, [Emit (ToSocket socketId) (EvError "Message cannot be empty")])
        else
          let messageObj :=
            {| m_id := uuidv4 o 0; m_username := u_username user;
               m_message := trim text; m_timestamp := now o 0;
               m_type := user_msg |} in
          ({| storage := addMessage (u_room user) messageObj (storage w);
              adapter := adapter w |},
           [Emit (ToRoom (u_room user)) (EvMessage messageObj)])
      | _ =>
        (w, [Emit (ToSocket socketId) (EvError "Failed to send message")])
      end
  end.

(** One inbound event of the socket [socketId], handled to completion. *)
Definition handle (socketId : string) (e : Event) (o : Oracle) (w : World) :
    World * list (Action Payload) :=
  match e with
  | JoinRoom username room => onJoinRoom socketId username room o w
  | SendMessage message => onSendMessage socketId message o w
  | Typing isTyping => onTyping socketId isTyping w
  | Disconnect => onDisconnect socketId o w
  | LeaveRoom => onLeaveRoom socketId o w
  | WithoutPayload _ => onWithoutPayload w
  end.

(** The events of a run, oldest first, and the world they leave. *)
Definition run (trace : list (string * Event * Oracle)) (w : World) : World :=
  fold_left (λ w '(socketId, e, o), (handle socketId e o w).1) trace w.

Inductive reachable : World → Prop :=
| reachable_initial : reachable initial
| reachable_handle w socketId e o :
    reachable w → reachable (handle socketId e o w).1.

(** The worlds reached when every join draws a fresh [userId]. *)
Inductive reachable_fresh : World → Prop :=
| reachable_fresh_initial : reachable_fresh initial
| reachable_fresh_handle w socketId e o :
    reachable_fresh w → fresh_userId e o (storage w) →
    reachable_fresh (handle socketId e o w).1.



(** Every join of the run draws a fresh [userId]. *)
Fixpoint fresh_trace (trace : list (string * Event * Oracle)) (w : World) :
    Prop :=
  match trace with
  | [] => True
  | (socketId, e, o) :: rest =>
    fresh_userId e o (storage w) ∧ fresh_trace rest (handle socketId e o w).1
  end.

(** Every room keeps at most [capacity] messages, all of type ['user']. *)
Definition log_ok (st : Storage) : Prop :=
  ∀ name room, rooms st !! name = Some room →
    length (r_messages room) ≤ capacity ∧ user_only (r_messages room).

(** *** Runs with a clock

    The server starts no timer and reads the clock only to stamp messages,
    so the world at time [t] is the world left by the events that arrived
    up to [t]. *)
Definition world_at (t : Z) (trace : list (Z * (string * Event * Oracle))) :
    World :=
  run (map snd (filter (λ x, (x.1 ≤ t)%Z) trace)) initial.

(** What the socket [me] is delivered during a run, with the time of the
    event that caused it.  Every handler changes the rooms of the adapter
    before its first emit, so the adapter that routes the emits of an event
    is the one the event leaves. *)
Fixpoint inbox (me : string) (trace : list (Z * (string * Event * Oracle)))
    (w : World) : list (Z * Payload) :=
  match trace with
  | [] => []
  | (t, (socketId, e, o)) :: rest =>
    let '(w', actions) := handle socketId e o w in
    omap (λ a, match a with
               | Emit to p =>
                   if delivered (adapter w') to me then Some (t, p) else None
               | DisconnectSocket _ | Uncaught => None
               end) actions
    ++ inbox me rest w'
  end.

End Capacity.

(** [room.messages.length > 100] and [slice(-100)]. *)
Definition MAX_MESSAGES : nat := 100.

(** The delay of the only typing timer of the repository, the one of the
    client ([setTimeout(..., 2000)] in [MessageInput.tsx]). *)
Definition TYPING_TIMEOUT : Z := 2000.

End Plain.

(** * The secure server, [backend/server-secure.js] *)

Module Secure.

Record User := mkUser {
  u_id : string;
  u_username : string;
  u_room : string;
  u_socketId : string;
  u_joinTime : string
}.

Record Room := mkRoom {
  r_users : list string;
  r_messages : list Message;
  r_createdAt : string
}.

(** [storage]. *)
Record Storage := mkStorage {
  users : gmap string User;
  rooms : gmap string Room;
  sockets : gmap string string;
  typingUsers : gmap string (list string);
  ipConnections : gmap string nat
}.

Definition empty_storage : Storage :=
  {| users := ∅; rooms := ∅; sockets := ∅; typingUsers := ∅;
     ipConnections := ∅ |}.

Inductive Payload :=
| EvMessage (m : Message)
| EvRoomHistory (messages : list Message)
| EvOnlineUsers (onlineUsers : list User)
| EvTyping (typing : list User)
| EvLeftRoom
| EvError (message : string).

Record World := mkWorld {
  storage : Storage;
  adapter : gset (string * string)
}.

Definition initial : World := {| storage := empty_storage; adapter := ∅ |}.

Inductive Event :=
| Connect
| JoinRoom (username room : jsval)
| SendMessage (message : jsval)
| Typing (isTyping : jsval)
| Disconnect
| LeaveRoom
| WithoutPayload (name : EventName).

Definition systemMessage (id text timestamp : string) : Message :=
  {| m_id := id; m_username := "System"; m_message := text;
     m_timestamp := timestamp; m_type := system_msg |}.

(** [trackConnection]; [get(ip) || 0]. *)
Definition trackConnection (ip : string) (st : Storage) : nat * Storage :=
  let current := default 0 (ipConnections st !! ip) in
  (current + 1,
   {| users := users st; rooms := rooms st; sockets := sockets st;
      typingUsers := typingUsers st;
      ipConnections := <[ip := current + 1]> (ipConnections st) |}).

(** [untrackConnection]; [get(ip) || 1]. *)
Definition untrackConnection (ip : string) (st : Storage) : Storage :=
  let current :=
    match ipConnections st !! ip with
    | Some (S n) => S n
    | _ => 1
    end in
  {| users := users st; rooms := rooms st; sockets := sockets st;
     typingUsers := typingUsers st;
     ipConnections :=
       if current <=? 1 then delete ip (ipConnections st)
       else <[ip := current - 1]> (ipConnections st) |}.

Definition MAX_CONNECTIONS_PER_IP : nat := 5.

(** [StorageUtils.removeUser]. *)
Definition removeUser (socketId : string) (st : Storage) :
    option User * Storage :=
  match sockets st !! socketId with
  | None => (None, st)
  | Some userId =>
    if String.eqb userId "" then (None, st) else
    match users st !! userId with
    | None => (None, st)
    | Some user =>
      let '(rooms1, typing1) :=
        match rooms st !! u_room user with
        | Some room =>
            (<[u_room user := {| r_users := set_delete userId (r_users room);
                                 r_messages := r_messages room;
                                 r_createdAt := r_createdAt room |}]>
               (rooms st),
             match typingUsers st !! u_room user with
             | Some typingInRoom =>
                 <[u_room user := set_delete userId typingInRoom]>
                   (typingUsers st)
             | None => typingUsers st
             end)
        | None => (rooms st, typingUsers st)
        end in
      (Some user, {| users := delete userId (users st);
                     rooms := rooms1;
                     sockets := delete socketId (sockets st);
                     typingUsers := typing1;
                     ipConnections := ipConnections st |})
    end
  end.

(** [StorageUtils.getUserBySocketId]. *)
Definition getUserBySocketId (socketId : string) (st : Storage) : option User :=
  match sockets st !! socketId with
  | None => None
  | Some userId => if String.eqb userId "" then None else users st !! userId
  end.

(** [StorageUtils.getUsersInRoom]. *)
Definition getUsersInRoom (roomName : string) (st : Storage) : list User :=
  match rooms st !! roomName with
  | None => []
  | Some room => omap (λ userId, users st !! userId) (r_users room)
  end.

(** [StorageUtils.getRoomMessages]. *)
Definition getRoomMessages (roomName : string) (st : Storage) : list Message :=
  match rooms st !! roomName with
  | Some room => r_messages room
  | None => []
  end.

(** [StorageUtils.setTyping]. *)
Definition setTyping (userId roomName : string) (isTyping : bool) (st : Storage) :
    list User * Storage :=
  let typing1 :=
    match typingUsers st !! roomName with
    | Some _ => typingUsers st
    | None => <[roomName := []]> (typingUsers st)
    end in
  let typing2 :=
    alter (if isTyping then set_add userId else set_delete userId)
          roomName typing1 in
  let st' := {| users := users st; rooms := rooms st; sockets := sockets st;
                typingUsers := typing2; ipConnections := ipConnections st |} in
  (omap (λ id, users st !! id) (default [] (typing2 !! roomName)), st').

(** [socket.on('typing', ...)]; [!!isTyping] is the truth value. *)
Definition onTyping (socketId : string) (isTyping : jsval) (w : World) :
    World * list (Action Payload) :=
  match getUserBySocketId socketId (storage w) with
  | None => (w, [])
  | Some user =>
    let '(typingUsers, st1) :=
      setTyping (u_id user) (u_room user) (truthy isTyping) (storage w) in
    ({| storage := st1; adapter := adapter w |},
     [ Emit (ToRoomExcept (u_room user) socketId)
         (EvTyping (filter (λ u, u_id u ≠ u_id user) typingUsers)) ])
  end.

Definition leftNotice (user : User) (o : Oracle) : Message :=
  systemMessage (uuidv4 o 0) (u_username user +:+ " has left the chat")
    (now o 0).

(** [socket.on('disconnect', ...)]. *)
Definition onDisconnect (socketId clientIP : string) (o : Oracle) (w : World) :
    World * list (Action Payload) :=
  let adapter1 := sio_leave_all socketId (adapter w) in
  let '(removed, st1) := removeUser socketId (storage w) in
  let st2 := untrackConnection clientIP st1 in
  match removed with
  | Some user =>
    ({| storage := st2; adapter := adapter1 |},
     [ Emit (ToRoomExcept (u_room user) socketId)
         (EvMessage (leftNotice user o));
       Emit (ToRoomExcept (u_room user) socketId)
         (EvOnlineUsers (getUsersInRoom (u_room user) st2)) ])
  | None => ({| storage := st2; adapter := adapter1 |}, [])
  end.

(** [socket.on('leaveRoom', ...)]. *)
Definition onLeaveRoom (socketId : string) (o : Oracle) (w : World) :
    World * list (Action Payload) :=
  match removeUser socketId (storage w) with
  | (Some user, st1) =>
    ({| storage := st1;
        adapter := sio_leave socketId (u_room user) (adapter w) |},
     [ Emit (ToRoomExcept (u_room user) socketId)
         (EvMessage (leftNotice user o));
       Emit (ToRoomExcept (u_room user) socketId)
         (EvOnlineUsers (getUsersInRoom (u_room user) st1));
       Emit (ToSocket socketId) EvLeftRoom ])
  | (None, st1) => ({| storage := st1; adapter := adapter w |}, [])
  end.

(** The body of [io.on('connection', ...)] before the handlers are
    registered. *)
Definition onConnection (socketId clientIP : string) (w : World) :
    World * list (Action Payload) :=
  let '(connectionsFromIP, st1) := trackConnection clientIP (storage w) in
  if MAX_CONNECTIONS_PER_IP <? connectionsFromIP then
    ({| storage := untrackConnection clientIP st1; adapter := adapter w |},
     [ Emit (ToSocket socketId) (EvError "Connection limit exceeded");
       DisconnectSocket socketId ])
  else ({| storage := st1; adapter := adapter w |}, []).

Section Profile.

(** The filter of the [xss] package. *)
Variable xss : string → string.

(** The number of messages a room keeps; [50] in the source. *)
Variable capacity : nat.

(** [sanitizeInput]. *)
Definition sanitizeInput (input : jsval) : string :=
  match input with
  | JStr s => xss (substring0 1000 (trim s))
  | _ => ""
  end.

(** [isValidUsername]. *)
Definition isValidUsername (username : jsval) : bool :=
  if negb (truthy username) || negb (isString username) then false
  else
    let sanitized := sanitizeInput username in
    (2 <=? String.length sanitized) && (String.length sanitized <=? 20)
    && matchesName sanitized.

(** [isValidRoomName]. *)
Definition isValidRoomName (room : jsval) : bool :=
  if negb (truthy room) || negb (isString room) then false
  else
    let sanitized := sanitizeInput room in
    (2 <=? String.length sanitized) && (String.length sanitized <=? 30)
    && matchesName sanitized.

(** [StorageUtils.addUser]; [joinTime] and [createdAt] are the two dates it
    reads. *)
Definition addUser (userId username room socketId joinTime createdAt : string)
    (st : Storage) : User * Storage :=
  let user := {| u_id := userId;
                 u_username := sanitizeInput (JStr username);
                 u_room := sanitizeInput (JStr room);
                 u_socketId := socketId;
                 u_joinTime := joinTime |} in
  let rooms1 :=
    match rooms st !! room with
    | Some _ => rooms st
    | None => <[room := {| r_users := []; r_messages := [];
                           r_createdAt := createdAt |}]> (rooms st)
    end in
  let rooms2 :=
    alter (λ r, {| r_users := set_add userId (r_users r);
                   r_messages := r_messages r;
                   r_createdAt := r_createdAt r |}) room rooms1 in
  (user, {| users := <[userId := user]> (users st);
            rooms := rooms2;
            sockets := <[socketId := userId]> (sockets st);
            typingUsers := typingUsers st;
            ipConnections := ipConnections st |}).

(** [StorageUtils.addMessage]. *)
Definition addMessage (roomName : string) (message : Message) (st : Storage) :
    Storage :=
  match rooms st !! roomName with
  | Some room =>
    let sanitizedMessage :=
      {| m_id := m_id message;
         m_username := sanitizeInput (JStr (m_username message));
         m_message := sanitizeInput (JStr (m_message message));
         m_timestamp := m_timestamp message;
         m_type := m_type message |} in
    let pushed := r_messages room ++ [sanitizedMessage] in
    let kept :=
      if capacity <? length pushed then slice_last capacity pushed
      else pushed in
    {| users := users st;
       rooms := <[roomName := {| r_users := r_users room;
                                 r_messages := kept;
                                 r_createdAt := r_createdAt room |}]>
                  (rooms st);
       sockets := sockets st;
       typingUsers := typingUsers st;
       ipConnections := ipConnections st |}
  | None => st
  end.

(** [socket.on('joinRoom', ...)].  The dates are numbered by the place that
    reads them: [joinTime], [createdAt], then the two notices. *)
Definition onJoinRoom (socketId : string) (username room : jsval)
    (o : Oracle) (w : World) : World * list (Action Payload) :=
  if negb (isValidUsername username) || negb (isValidRoomName room) then
    (w, [Emit (ToSocket socketId) (EvError "Invalid username or room name")])
  else
    let sanitizedUsername := sanitizeInput username in
    let sanitizedRoom := sanitizeInput room in
    let userId := uuidv4 o 0 in
    let '(user, st1) :=
      addUser userId sanitizedUsername sanitizedRoom socketId
        (now o 0) (now o 1) (storage w) in
    let adapter1 := sio_join socketId sanitizedRoom (adapter w) in
    let roomMessages := getRoomMessages sanitizedRoom st1 in
    let onlineUsers := getUsersInRoom sanitizedRoom st1 in
    ({| storage := st1; adapter := adapter1 |},
     [ Emit (ToSocket socketId)
         (EvMessage (systemMessage (uuidv4 o 1)
            ("Welcome to " +:+ sanitizedRoom +:+ ", " +:+ sanitizedUsername
             +:+ "!") (now o 2)));
       Emit (ToRoomExcept sanitizedRoom socketId)
         (EvMessage (systemMessage (uuidv4 o 2)
            (sanitizedUsername +:+ " has joined the chat") (now o 3)));
       Emit (ToSocket socketId) (EvRoomHistory roomMessages);
       Emit (ToRoom sanitizedRoom) (EvOnlineUsers onlineUsers) ]).

(** [socket.on('sendMessage', ...)]. *)
Definition onSendMessage (socketId : string) (message : jsval) (o : Oracle)
    (w : World) : World * list (Action Payload) :=
  match getUserBySocketId socketId (storage w) with
  | None => (w, [Emit (ToSocket socketId) (EvError "User not found")])
  | Some user =>
    if negb (truthy message) || negb (isString message) then
      (w, [Emit (ToSocket socketId) (EvError "Invalid message")])
    else
      let sanitizedMessage := sanitizeInput message in
      if (String.length sanitizedMessage =? 0)
         || (500 <? String.length sanitizedMessage) then
        (w, [Emit (ToSocket socketId) (EvError "Message length invalid")])
      else
        let messageObj :=
          {| m_id := uuidv4 o 0; m_username := u_username user;
             m_message := sanitizedMessage; m_timestamp := now o 0;
             m_type := user_msg |} in
        ({| storage := addMessage (u_room user) messageObj (storage w);
            adapter := adapter w |},
         [Emit (ToRoom (u_room user)) (EvMessage messageObj)])
  end.

(** ['joinRoom'], ['sendMessage'] or ['typing'] without payload: the
    handler throws a [TypeError] while it takes its parameter apart, before
    its [try]. *)
Definition onWithoutPayload (w : World) : World * list (Action Payload) :=
  (w, [Uncaught]).

(** One inbound event of the socket [socketId] connected from [clientIP],
    handled to completion. *)
Definition handle (socketId clientIP : string) (e : Event) (o : Oracle)
    (w : World) : World * list (Action Payload) :=
  match e with
  | Connect => onConnection socketId clientIP w
  | JoinRoom username room => onJoinRoom socketId username room o w
  | SendMessage message => onSendMessage socketId message o w
  | Typing isTyping => onTyping socketId isTyping w
  | Disconnect => onDisconnect socketId clientIP o w
  | LeaveRoom => onLeaveRoom socketId o w
  | WithoutPayload _ => onWithoutPayload w
  end.

Definition run (trace : list (string * string * Event * Oracle)) (w : World) :
    World :=
  fold_left (λ w '(socketId, clientIP, e, o),
               (handle socketId clientIP e o w).1) trace w.

Inductive reachable : World → Prop :=
| reachable_initial : reachable initial
| reachable_handle w socketId clientIP e o :
    reachable w → reachable (handle socketId clientIP e o w).1.

(** Every room keeps at most [capacity] messages, all of type ['user']. *)
Definition log_ok (st : Storage) : Prop :=
  ∀ name room, rooms st !! name = Some room →
    length (r_messages room) ≤ capacity ∧ user_only (r_messages room).

End Profile.

(** [room.messages.length > 50] and [slice(-50)]. *)
Definition MAX_MESSAGES : nat := 50.

End Secure.

(** What [trimStart] leaves starts with no white space. *)
Definition startsClean (s : string) : Prop :=
  match s with
  | "" => True
  | String c _ => isWhiteSpace c = false
  end.

(** * Invariants of the storage *)

Module PlainInvariants.
Import Plain.

(** Every registered identity is a member of its room. *)
Definition registered_are_members (st : Storage) : Prop :=
  ∀ userId user, users st !! userId = Some user →
    ∃ room, rooms st !! u_room user = Some room ∧ userId ∈ r_users room.

(** Every member of a room is a registered identity of that room. *)
Definition members_registered (st : Storage) : Prop :=
  ∀ name room userId, rooms st !! name = Some room → userId ∈ r_users room →
    ∃ user, users st !! userId = Some user ∧ u_room user = name.

(** Every identity of a typing set is a registered identity of that room. *)
Definition typing_registered (st : Storage) : Prop :=
  ∀ name userId, isTypingIn userId name st →
    ∃ user, users st !! userId = Some user ∧ u_room user = name.

(** The lists that stand for a [Set] hold no element twice. *)
Definition sets_nodup (st : Storage) : Prop :=
  (∀ name room, rooms st !! name = Some room → NoDup (r_users room))
  ∧ (∀ name typingInRoom, typingUsers st !! name = Some typingInRoom →
       NoDup typingInRoom).

(** Rooms are stored, and identities registered, under trimmed names. *)
Definition names_trimmed (st : Storage) : Prop :=
  (∀ name, is_Some (rooms st !! name) → trim name = name)
  ∧ (∀ userId user, users st !! userId = Some user →
       trim (u_room user) = u_room user
       ∧ trim (u_username user) = u_username user).

(** [app.get('/health', ...)]: the [stats] of the answer, in the order
    [totalUsers], [totalRooms], [connectedSockets]. *)
Definition health (st : Storage) : nat * nat * nat :=
  (size (users st), size (rooms st), size (sockets st)).

End PlainInvariants.

Module SecureInvariants.
Import Secure.

(** Every address that is tracked has between one and
    [MAX_CONNECTIONS_PER_IP] connections. *)
Definition counts_ok (st : Storage) : Prop :=
  ∀ ip n, ipConnections st !! ip = Some n →
    1 ≤ n ≤ MAX_CONNECTIONS_PER_IP.

End SecureInvariants.

(** * The client *)

(** ** [frontend/src/components/MessageInput.tsx]

    The component keeps the text of the input, the flag [isTyping] and the
    timer of [typingTimeoutRef]; a timer that is pending is its deadline.
    Every handler runs at a time [t], in milliseconds, and with the value
    the property [disabled] has then; it returns the calls it makes of
    [onTyping] and [onSendMessage], in order. *)
Module MessageInput.

Record State := mkState {
  message : string;
  isTyping : bool;
  typingTimeout : option Z
}.

Definition initial : State :=
  {| message := ""; isTyping := false; typingTimeout := None |}.

Inductive Call :=
| OnTyping (isTyping : bool)
| OnSendMessage (message : string).

(** [handleTypingIndicator]. *)
Definition handleTypingIndicator (disabled typing : bool) (t : Z) (s : State) :
    State * list Call :=
  if disabled then (s, [])
  else
    let started := typing && negb (isTyping s) in
    let calls := if started then [OnTyping true] else [] in
    let isTyping1 := if started then true else isTyping s in
    if typing then
      ({| message := message s; isTyping := isTyping1;
          typingTimeout := Some (t + 2000)%Z |}, calls)
    else
      ({| message := message s; isTyping := false; typingTimeout := None |},
       calls ++ [OnTyping false]).

(** The callback of the timer, which runs no earlier than its deadline. *)
Definition timeoutFires (t : Z) (s : State) : State * list Call :=
  match typingTimeout s with
  | Some deadline =>
    if (deadline <=? t)%Z then
      ({| message := message s; isTyping := false; typingTimeout := None |},
       [OnTyping false])
    else (s, [])
  | None => (s, [])
  end.

(** [handleInputChange]. *)
Definition handleInputChange (disabled : bool) (value : string) (t : Z)
    (s : State) : State * list Call :=
  let s1 := {| message := value; isTyping := isTyping s;
               typingTimeout := typingTimeout s |} in
  if 0 <? String.length (trim value)
  then handleTypingIndicator disabled true t s1
  else handleTypingIndicator disabled false t s1.

(** [sendMessage]. *)
Definition sendMessage (disabled : bool) (t : Z) (s : State) :
    State * list Call :=
  if disabled then (s, [])
  else
    let trimmedMessage := trim (message s) in
    if String.length trimmedMessage =? 0 then (s, [])
    else
      let s1 := {| message := ""; isTyping := isTyping s;
                   typingTimeout := typingTimeout s |} in
      let '(s2, calls) := handleTypingIndicator disabled false t s1 in
      (s2, OnSendMessage trimmedMessage :: calls).

(** [handleKeyPress]. *)
Definition handleKeyPress (disabled : bool) (key : string) (shiftKey : bool)
    (t : Z) (s : State) : State * list Call :=
  if disabled then (s, [])
  else if String.eqb key "Enter" && negb shiftKey then sendMessage disabled t s
  else (s, []).

Inductive Event :=
| Change (value : string)
| KeyPress (key : string) (shiftKey : bool)
| Submit
| Timeout.

Definition step (disabled : bool) (t : Z) (e : Event) (s : State) :
    State * list Call :=
  match e with
  | Change value => handleInputChange disabled value t s
  | KeyPress key shiftKey => handleKeyPress disabled key shiftKey t s
  | Submit => sendMessage disabled t s
  | Timeout => timeoutFires t s
  end.

(** The state a run leaves and the calls it makes. *)
Fixpoint run (trace : list (bool * Z * Event)) (s : State) :
    State * list Call :=
  match trace with
  | [] => (s, [])
  | (disabled, t, e) :: rest =>
    let '(s1, calls1) := step disabled t e s in
    let '(s2, calls2) := run rest s1 in
    (s2, calls1 ++ calls2)
  end.

(** The arguments of the calls of [onTyping] among [calls], in order. *)
Definition signals (calls : list Call) : list bool :=
  omap (λ c, match c with
             | OnTyping b => Some b
             | OnSendMessage _ => None
             end) calls.

(** The argument of the last [onTyping], [false] when there is none. *)
Definition lastTyping (calls : list Call) : bool :=
  default false (last (signals calls)).

(** The texts of the calls of [onSendMessage] among [calls], in order. *)
Definition sent (calls : list Call) : list string :=
  omap (λ c, match c with
             | OnTyping _ => None
             | OnSendMessage text => Some text
             end) calls.

End MessageInput.

(** ** [frontend/src/services/socketService.ts]

    What each method puts on the wire when the service has a socket. *)
Module SocketService.

(** [sendMessage]: the field [message] of the payload. *)
Definition sendMessage (hasSocket : bool) (message : string) : option jsval :=
  if hasSocket && negb (String.eqb (trim message) "")
  then Some (JStr (trim message)) else None.

(** [joinRoom]: the fields [username] and [room] of the payload. *)
Definition joinRoom (hasSocket : bool) (username room : string) :
    option (jsval * jsval) :=
  if hasSocket then Some (JStr username, JStr room) else None.

(** [setTyping]: the field [isTyping] of the payload. *)
Definition setTyping (hasSocket : bool) (isTyping : bool) : option jsval :=
  if hasSocket then Some (JBool isTyping) else None.

(** *** The socket of the service and its listeners *)

(** The events of the server a listener can be attached for. *)
Inductive Inbound :=
| InMessage | InRoomHistory | InOnlineUsers | InTyping | InLeftRoom | InError.

(** A socket: the events it has a listener of the application for, in the
    order they were attached, and [socket.connected]. *)
Record Socket := mkSocket {
  listeners : list Inbound;
  connected : bool
}.

(** [this.socket]; [None] is [null]. *)
Definition Service : Type := option Socket.

(** [private socket: Socket | null = null]. *)
Definition initial : Service := None.

(** [connect]: [this.socket = io(...)], a new socket, which carries no
    listener of the application; [succeeds] tells whether the connection
    is made. *)
Definition connect (succeeds : bool) (svc : Service) : Service :=
  Some {| listeners := []; connected := succeeds |}.

(** [disconnect]. *)
Definition disconnect (svc : Service) : Service := None.

(** [onMessage], [onRoomHistory], [onOnlineUsers], [onTyping], [onLeftRoom]
    and [onError]: [if (this.socket) { this.socket.on(name, callback); }]. *)
Definition on (name : Inbound) (svc : Service) : Service :=
  match svc with
  | Some socket =>
    Some {| listeners := listeners socket ++ [name];
            connected := connected socket |}
  | None => None
  end.

(** [removeAllListeners]. *)
Definition removeAllListeners (svc : Service) : Service :=
  match svc with
  | Some socket => Some {| listeners := []; connected := connected socket |}
  | None => None
  end.

(** [isConnected]: [this.socket?.connected ?? false]. *)
Definition isConnected (svc : Service) : bool :=
  match svc with
  | Some socket => connected socket
  | None => false
  end.

(** The connection of the socket, if there is one, goes down or comes up. *)
Definition link (up : bool) (svc : Service) : Service :=
  match svc with
  | Some socket => Some {| listeners := listeners socket; connected := up |}
  | None => None
  end.

End SocketService.

(** ** The login form, [Login] *)
Module Login.

Record FormData := mkFormData {
  username : string;
  room : string
}.

(** The two tests of [validateForm]; [most] is 20 for the user name and 30
    for the room, and the result is the error text of the field. *)
Definition fieldError (label : string) (most : nat) (lengthText charsText : string)
    (value : string) : string :=
  if String.eqb (trim value) "" then label +:+ " is required"
  else if String.length (trim value) <? 2 then
    label +:+ " must be at least 2 characters"
  else if most <? String.length (trim value) then lengthText
  else if negb (matchesName (trim value)) then charsText
  else "".

Definition usernameError (value : string) : string :=
  fieldError "Username" 20 "Username must be less than 20 characters"
    "Username can only contain letters, numbers, underscores, and spaces"
    value.

Definition roomError (value : string) : string :=
  fieldError "Room name" 30 "Room name must be less than 30 characters"
    "Room name can only contain letters, numbers, underscores, and spaces"
    value.

(** [validateForm]: [!errors.username && !errors.room]. *)
Definition validateForm (formData : FormData) : bool :=
  String.eqb (usernameError (username formData)) ""
  && String.eqb (roomError (room formData)) "".

(** [handleSubmit]: the arguments of [onLogin], if it is called. *)
Definition handleSubmit (isLoading : bool) (formData : FormData) :
    option (string * string) :=
  if isLoading then None
  else if validateForm formData
       then Some (trim (username formData), trim (room formData))
       else None.

End Login.

(** ** The application, [App]

    The state of [App], which is the object of [useState<AppState>] and the
    flag [isLoading] of the second [useState], with the user records as the
    plain server sends them; and the socket service the application
    shares, with what the life of the component does to it. *)
Module App.

Record AppState := mkAppState {
  isConnected : bool;
  currentUser : option Plain.User;
  currentRoom : string;
  messages : list Message;
  onlineUsers : list Plain.User;
  typingUsers : list Plain.User;
  error : option string;
  isLoading : bool
}.

Definition initial : AppState :=
  {| isConnected := false; currentUser := None; currentRoom := "";
     messages := []; onlineUsers := []; typingUsers := []; error := None;
     isLoading := false |}.

(** The callbacks that [setupSocketListeners] hands to [socketService.onX],
    one for each event of the server: what each would do to the state if it
    ran.  Whether one is attached to a socket is decided by
    [SocketService.on]. *)
Definition callback (p : Plain.Payload) (s : AppState) : AppState :=
  match p with
  | Plain.EvMessage message =>
    {| isConnected := isConnected s; currentUser := currentUser s;
       currentRoom := currentRoom s; messages := messages s ++ [message];
       onlineUsers := onlineUsers s; typingUsers := typingUsers s;
       error := error s; isLoading := isLoading s |}
  | Plain.EvRoomHistory history =>
    {| isConnected := isConnected s; currentUser := currentUser s;
       currentRoom := currentRoom s; messages := history;
       onlineUsers := onlineUsers s; typingUsers := typingUsers s;
       error := error s; isLoading := isLoading s |}
  | Plain.EvOnlineUsers users =>
    {| isConnected := isConnected s; currentUser := currentUser s;
       currentRoom := currentRoom s; messages := messages s;
       onlineUsers := users; typingUsers := typingUsers s;
       error := error s; isLoading := isLoading s |}
  | Plain.EvTyping users =>
    {| isConnected := isConnected s; currentUser := currentUser s;
       currentRoom := currentRoom s; messages := messages s;
       onlineUsers := onlineUsers s; typingUsers := users;
       error := error s; isLoading := isLoading s |}
  | Plain.EvLeftRoom =>
    {| isConnected := isConnected s; currentUser := None;
       currentRoom := ""; messages := []; onlineUsers := [];
       typingUsers := []; error := error s; isLoading := isLoading s |}
  | Plain.EvError message =>
    {| isConnected := isConnected s; currentUser := currentUser s;
       currentRoom := currentRoom s; messages := messages s;
       onlineUsers := onlineUsers s; typingUsers := typingUsers s;
       error := Some message; isLoading := false |}
  end.

(** [setupSocketListeners]: the six calls of [socketService.onX], in the
    order of the source. *)
Definition setupSocketListeners (svc : SocketService.Service) :
    SocketService.Service :=
  SocketService.on SocketService.InError
    (SocketService.on SocketService.InLeftRoom
       (SocketService.on SocketService.InTyping
          (SocketService.on SocketService.InOnlineUsers
             (SocketService.on SocketService.InRoomHistory
                (SocketService.on SocketService.InMessage svc))))).

(** A listener attached under [name] is called for the event [p]. *)
Definition listensTo (name : SocketService.Inbound) (p : Plain.Payload) :
    bool :=
  match name, p with
  | SocketService.InMessage, Plain.EvMessage _
  | SocketService.InRoomHistory, Plain.EvRoomHistory _
  | SocketService.InOnlineUsers, Plain.EvOnlineUsers _
  | SocketService.InTyping, Plain.EvTyping _
  | SocketService.InLeftRoom, Plain.EvLeftRoom
  | SocketService.InError, Plain.EvError _ => true
  | _, _ => false
  end.

(** An event of the server arrives at the client: the socket of the
    service runs the listeners it has for that event, in the order they
    were attached; an event without listener changes nothing. *)
Definition dispatch (svc : SocketService.Service) (p : Plain.Payload)
    (s : AppState) : AppState :=
  match svc with
  | Some socket =>
    foldl (λ s name, if listensTo name p then callback p s else s) s
      (SocketService.listeners socket)
  | None => s
  end.

(** The events of a list arrive one after the other. *)
Definition dispatchAll (svc : SocketService.Service)
    (ps : list Plain.Payload) (s : AppState) : AppState :=
  foldl (λ s p, dispatch svc p s) s ps.

(** The component and the service it shares. *)
Record Client := mkClient {
  mounted : bool;
  service : SocketService.Service
}.

(** Before the component is mounted for the first time. *)
Definition unmounted : Client :=
  {| mounted := false; service := SocketService.initial |}.

(** What happens to the component: it is mounted, which runs the effect
    [useEffect(() => { setupSocketListeners(); return cleanup }, [])], or
    unmounted, which runs the cleanup; the user logs in, [connects] telling
    whether the connection is made, or logs out; the connection of the
    socket goes down or comes up. *)
Inductive Lifecycle :=
| Mount
| Unmount
| LogIn (connects : bool)
| LogOut
| Link (up : bool).

(** The effect runs when the component is mounted and its cleanup,
    [removeAllListeners(); disconnect()], when it is unmounted;
    [handleLogin] calls [connect] unless [isConnected()]; [handleLogout]
    emits ['leaveRoom'] and leaves the socket alone. *)
Definition lifecycle (ev : Lifecycle) (c : Client) : Client :=
  match ev with
  | Mount =>
    if mounted c then c
    else {| mounted := true; service := setupSocketListeners (service c) |}
  | Unmount =>
    if mounted c then
      {| mounted := false;
         service := SocketService.disconnect
                      (SocketService.removeAllListeners (service c)) |}
    else c
  | LogIn connects =>
    if mounted c then
      {| mounted := true;
         service := if SocketService.isConnected (service c)
                    then service c
                    else SocketService.connect connects (service c) |}
    else c
  | LogOut => c
  | Link up =>
    {| mounted := mounted c; service := SocketService.link up (service c) |}
  end.

(** The client after the events of [trace], oldest first. *)
Definition lifecycles (trace : list Lifecycle) (c : Client) : Client :=
  foldl (λ c ev, lifecycle ev c) c trace.

(** [handleLogin] when the connection succeeds: the state it leaves once it
    has emitted ['joinRoom']; [socketId] is [socketService.getSocketId() || '']. *)
Definition handleLogin (username room socketId : string) (s : AppState) :
    AppState :=
  {| isConnected := true;
     currentUser := Some {| Plain.u_id := ""; Plain.u_username := username;
                            Plain.u_room := room;
                            Plain.u_socketId := socketId |};
     currentRoom := room; messages := []; onlineUsers := [];
     typingUsers := []; error := None; isLoading := false |}.

(** [clearError]. *)
Definition clearError (s : AppState) : AppState :=
  {| isConnected := isConnected s; currentUser := currentUser s;
     currentRoom := currentRoom s; messages := messages s;
     onlineUsers := onlineUsers s; typingUsers := typingUsers s;
     error := None; isLoading := isLoading s |}.

(** [disabled={!!error}], the property [ChatRoom] gives the message input. *)
Definition inputDisabled (s : AppState) : bool :=
  match error s with
  | Some text => negb (String.eqb text "")
  | None => false
  end.

(** What the socket [me] is delivered of the actions of one event, routed
    by the adapter the event leaves. *)
Definition deliveries (a : gset (string * string)) (me : string)
    (actions : list (Action Plain.Payload)) : list Plain.Payload :=
  omap (λ act, match act with
               | Emit to p => if delivered a to me then Some p else None
               | DisconnectSocket _ | Uncaught => None
               end) actions.

End App.

(** * Concrete runs *)

(** An oracle whose [uuidv4()] returns the ids of [ids] in turn and whose
    clock reads [t]. *)
Definition oracle (ids : list string) (t : string) : Oracle :=
  {| uuidv4 := λ k, default "" (ids !! k); now := λ _, t |}.

(** Scenario D: J1 joins "general" and sends "a", "b" and "c". *)
Definition scenarioD : list (string * Plain.Event * Oracle) :=
  [ ("s1", Plain.JoinRoom (JStr "J1") (JStr "general"),
     oracle ["u1"; "m1"; "m2"] "t0");
    ("s1", Plain.SendMessage (JStr "a"), oracle ["m3"] "t1");
    ("s1", Plain.SendMessage (JStr "b"), oracle ["m4"] "t2");
    ("s1", Plain.SendMessage (JStr "c"), oracle ["m5"] "t3") ].

(** The same on the secure server, with a filter that changes nothing. *)
Definition scenarioD_secure : list (string * string * Secure.Event * Oracle) :=
  [ ("s1", "10.0.0.1", Secure.Connect, oracle [] "t0");
    ("s1", "10.0.0.1", Secure.JoinRoom (JStr "J1") (JStr "general"),
     oracle ["u1"; "m1"; "m2"] "t0");
    ("s1", "10.0.0.1", Secure.SendMessage (JStr "a"), oracle ["m3"] "t1");
    ("s1", "10.0.0.1", Secure.SendMessage (JStr "b"), oracle ["m4"] "t2");
    ("s1", "10.0.0.1", Secure.SendMessage (JStr "c"), oracle ["m5"] "t3") ].

(** Scenario A with a clock: J1 and then J2 join "general". *)
Definition scenarioA : list (Z * (string * Plain.Event * Oracle)) :=
  [ (0%Z, ("s1", Plain.JoinRoom (JStr "J1") (JStr "general"),
           oracle ["u1"; "m1"; "m2"] "t0"));
    (1%Z, ("s2", Plain.JoinRoom (JStr "J2") (JStr "general"),
           oracle ["u2"; "m3"; "m4"] "t1")) ].

Definition J1 : Plain.User :=
  {| Plain.u_id := "u1"; Plain.u_username := "J1";
     Plain.u_room := "general"; Plain.u_socketId := "s1" |}.

Definition J2 : Plain.User :=
  {| Plain.u_id := "u2"; Plain.u_username := "J2";
     Plain.u_room := "general"; Plain.u_socketId := "s2" |}.

Definition J3 : Plain.User :=
  {| Plain.u_id := "u3"; Plain.u_username := "J3";
     Plain.u_room := "general"; Plain.u_socketId := "s3" |}.

(** Scenario C with a third member: after scenario A, J3 joins; J1 signals
    at time 10 that it types and sends no stop; J3 signals at time 15 that
    it types. *)
Definition scenarioC : list (Z * (string * Plain.Event * Oracle)) :=
  scenarioA ++
  [ (2%Z, ("s3", Plain.JoinRoom (JStr "J3") (JStr "general"),
           oracle ["u3"; "m5"; "m6"] "t2"));
    (10%Z, ("s1", Plain.Typing (JBool true), oracle [] "t3"));
    (15%Z, ("s3", Plain.Typing (JBool true), oracle [] "t4")) ].

(** Scenario C, J1 staying connected and silent: J3 signals again at time
    5000. *)
Definition scenarioC_late : list (Z * (string * Plain.Event * Oracle)) :=
  scenarioC ++
  [ (5000%Z, ("s3", Plain.Typing (JBool true), oracle [] "t5")) ].

(** Scenario C, J1 disconnecting at time 20 without a stop. *)
Definition scenarioC_disconnect : list (Z * (string * Plain.Event * Oracle)) :=
  scenarioC ++ [ (20%Z, ("s1", Plain.Disconnect, oracle ["m7"] "t5")) ].

(** One session joins twice. *)
Definition scenario_rejoin : list (string * Plain.Event * Oracle) :=
  [ ("s1", Plain.JoinRoom (JStr "J1") (JStr "general"),
     oracle ["u1"; "m1"; "m2"] "t0");
    ("s1", Plain.JoinRoom (JStr "J1") (JStr "general"),
     oracle ["u2"; "m3"; "m4"] "t1") ].

(** J1 joins "general" and says hello; J2 then joins with the room name
    typed with a blank on either side. *)
Definition scenario_untrimmed : list (Z * (string * Plain.Event * Oracle)) :=
  [ (0%Z, ("s1", Plain.JoinRoom (JStr "J1") (JStr "general"),
           oracle ["u1"; "m1"; "m2"] "t0"));
    (1%Z, ("s1", Plain.SendMessage (JStr "hello"), oracle ["m3"] "t1"));
    (2%Z, ("s2", Plain.JoinRoom (JStr "J2") (JStr " general "),
           oracle ["u2"; "m4"; "m5"] "t2")) ].

(** Six connections from one address. *)
Definition scenario_six_connections :
    list (string * string * Secure.Event * Oracle) :=
  (λ socketId, (socketId, "10.0.0.1", Secure.Connect, oracle [] "t0"))
  <$> ["s1"; "s2"; "s3"; "s4"; "s5"; "s6"].

(** * Properties *)

(** ** Arrays kept to a capacity *)

Lemma slice_last_drop {A} (n : nat) (l : list A) :
  1 ≤ n → slice_last n l = drop (length l - n) l.
Proof. destruct n; [lia | done]. Qed.

(** Pushing and then keeping the last [capacity] entries drops a prefix. *)
Lemma kept_is_suffix {A} (capacity : nat) (pushed : list A) :
  1 ≤ capacity →
  (if capacity <? length pushed then slice_last capacity pushed else pushed)
  = drop (length pushed - capacity) pushed.
Proof.
  intros Hcap. destruct (Nat.ltb_spec capacity (length pushed)) as [Hlt|Hge].
  - by apply slice_last_drop.
  - by replace (length pushed - capacity) with 0 by lia.
Qed.

Lemma kept_length {A} (capacity : nat) (pushed : list A) :
  1 ≤ capacity →
  length (if capacity <? length pushed then slice_last capacity pushed
          else pushed) ≤ capacity.
Proof.
  intros Hcap. rewrite kept_is_suffix by done. rewrite length_drop. lia.
Qed.

Lemma kept_Forall {A} (P : A → Prop) (capacity : nat) (pushed : list A) :
  Forall P pushed →
  Forall P (if capacity <? length pushed then slice_last capacity pushed
            else pushed).
Proof.
  intros H. destruct (capacity <? length pushed); [|done].
  destruct capacity; simpl; [done|]. by apply Forall_drop.
Qed.

(** On a log within its capacity a push evicts nothing while there is room
    and the single oldest entry once the log is full. *)
Lemma kept_fifo {A} (capacity : nat) (log : list A) (x : A) :
  1 ≤ capacity → length log ≤ capacity →
  (if capacity <? length (log ++ [x]) then slice_last capacity (log ++ [x])
   else log ++ [x])
  = if length log <? capacity then log ++ [x] else drop 1 log ++ [x].
Proof.
  intros Hcap Hlen. rewrite kept_is_suffix by done.
  rewrite length_app. simpl.
  destruct (Nat.ltb_spec (length log) capacity) as [Hlt|Hge].
  - by replace (length log + 1 - capacity) with 0 by lia.
  - replace (length log + 1 - capacity) with 1 by lia.
    rewrite drop_app_le; [done|lia].
Qed.

(** ** The message logs of the plain server *)

Section PlainLog.
Import Plain.
Variable capacity : nat.
Hypothesis capacity_pos : 1 ≤ capacity.

Lemma plain_addUser_log userId username room socketId st :
  log_ok capacity st →
  log_ok capacity (addUser userId username room socketId st).2.
Proof.
  intros Hok name r. simpl. rewrite lookup_alter.
  case_decide as Heq; [subst name|].
  - destruct (rooms st !! room) as [r0|] eqn:Hr.
    + rewrite Hr. simpl. intros [= <-]. simpl. by eapply Hok.
    + rewrite lookup_insert_eq. simpl. intros [= <-]. simpl.
      split; [lia | constructor].
  - destruct (rooms st !! room); [|rewrite lookup_insert_ne by done];
      intros Hl; by eapply Hok.
Qed.

Lemma plain_removeUser_log socketId st :
  log_ok capacity st → log_ok capacity (removeUser socketId st).2.
Proof.
  intros Hok. unfold removeUser.
  destruct (sockets st !! socketId) as [userId|]; [|done].
  destruct (String.eqb userId ""); [done|].
  destruct (users st !! userId) as [user|]; [|done].
  destruct (rooms st !! u_room user) as [room|] eqn:Hr; simpl; [|done].
  intros name r. simpl. rewrite lookup_insert. case_decide.
  - intros [= <-]. simpl. by eapply Hok.
  - intros Hl. by eapply Hok.
Qed.

Lemma plain_addMessage_log roomName message st :
  m_type message = user_msg →
  log_ok capacity st → log_ok capacity (addMessage capacity roomName message st).
Proof.
  intros Hty Hok. unfold addMessage.
  destruct (rooms st !! roomName) as [room|] eqn:Hr; [|done].
  intros name r. simpl. rewrite lookup_insert. case_decide.
  - intros [= <-]. simpl. split.
    + by apply kept_length.
    + apply kept_Forall, Forall_app. split; [by eapply Hok|].
      by constructor.
  - intros Hl. by eapply Hok.
Qed.

Lemma plain_handle_log socketId e o w :
  log_ok capacity (storage w) →
  log_ok capacity (storage (handle capacity socketId e o w).1).
Proof.
  intros Hok. destruct e as [username room|message|isTyping| | |evName]; simpl.
  - unfold onJoinRoom.
    destruct (negb (truthy username) || negb (truthy room)); [done|].
    destruct username; try done. destruct room; try done.
    simpl. by apply plain_addUser_log.
  - unfold onSendMessage.
    destruct (getUserBySocketId socketId (storage w)) as [user|]; [|done].
    destruct (negb (truthy message)); [done|].
    destruct message; try done.
    destruct (String.eqb (trim s) ""); [done|].
    simpl. by apply plain_addMessage_log.
  - unfold onTyping.
    destruct (getUserBySocketId socketId (storage w)) as [user|]; done.
  - unfold onDisconnect.
    pose proof (plain_removeUser_log socketId _ Hok) as H.
    destruct (removeUser socketId (storage w)) as [[user|] st1]; done.
  - unfold onLeaveRoom.
    pose proof (plain_removeUser_log socketId _ Hok) as H.
    destruct (removeUser socketId (storage w)) as [[user|] st1]; done.
  - done.
Qed.

Lemma plain_reachable_log w :
  reachable capacity w → log_ok capacity (storage w).
Proof.
  induction 1 as [|w socketId e o _ IH].
  - intros name room. simpl. by rewrite lookup_empty.
  - by apply plain_handle_log.
Qed.

Lemma plain_addMessage_fifo name room message st :
  rooms st !! name = Some room → length (r_messages room) ≤ capacity →
  getRoomMessages name (addMessage capacity name message st)
  = if length (r_messages room) <? capacity
    then r_messages room ++ [message]
    else drop 1 (r_messages room) ++ [message].
Proof.
  intros Hr Hlen. unfold getRoomMessages, addMessage. rewrite Hr. simpl.
  rewrite lookup_insert_eq. simpl. by apply kept_fifo.
Qed.

End PlainLog.

(** ** The message logs of the secure server *)

Section SecureLog.
Import Secure.
Variable xss : string → string.
Variable capacity : nat.
Hypothesis capacity_pos : 1 ≤ capacity.

Lemma secure_addUser_log userId username room socketId joinTime createdAt st :
  log_ok capacity st →
  log_ok capacity
    (addUser xss userId username room socketId joinTime createdAt st).2.
Proof.
  intros Hok name r. simpl. rewrite lookup_alter.
  case_decide as Heq; [subst name|].
  - destruct (rooms st !! room) as [r0|] eqn:Hr.
    + rewrite Hr. simpl. intros [= <-]. simpl. by eapply Hok.
    + rewrite lookup_insert_eq. simpl. intros [= <-]. simpl.
      split; [lia | constructor].
  - destruct (rooms st !! room); [|rewrite lookup_insert_ne by done];
      intros Hl; by eapply Hok.
Qed.

Lemma secure_removeUser_log socketId st :
  log_ok capacity st → log_ok capacity (removeUser socketId st).2.
Proof.
  intros Hok. unfold removeUser.
  destruct (sockets st !! socketId) as [userId|]; [|done].
  destruct (String.eqb userId ""); [done|].
  destruct (users st !! userId) as [user|]; [|done].
  destruct (rooms st !! u_room user) as [room|] eqn:Hr; simpl; [|done].
  intros name r. simpl. rewrite lookup_insert. case_decide.
  - intros [= <-]. simpl. by eapply Hok.
  - intros Hl. by eapply Hok.
Qed.

Lemma secure_addMessage_log roomName message st :
  m_type message = user_msg →
  log_ok capacity st →
  log_ok capacity (addMessage xss capacity roomName message st).
Proof.
  intros Hty Hok. unfold addMessage.
  destruct (rooms st !! roomName) as [room|] eqn:Hr; [|done].
  intros name r. simpl. rewrite lookup_insert. case_decide.
  - intros [= <-]. simpl. split.
    + by apply kept_length.
    + apply kept_Forall, Forall_app. split; [by eapply Hok|].
      by constructor.
  - intros Hl. by eapply Hok.
Qed.

Lemma secure_handle_log socketId clientIP e o w :
  log_ok capacity (storage w) →
  log_ok capacity (storage (handle xss capacity socketId clientIP e o w).1).
Proof.
  intros Hok. destruct e as [|username room|message|isTyping| | |evName]; simpl.
  - unfold onConnection. simpl.
    by destruct (MAX_CONNECTIONS_PER_IP <? _).
  - unfold onJoinRoom.
    destruct (negb (isValidUsername xss username)
              || negb (isValidRoomName xss room)); [done|].
    simpl. by apply secure_addUser_log.
  - unfold onSendMessage.
    destruct (getUserBySocketId socketId (storage w)) as [user|]; [|done].
    destruct (negb (truthy message) || negb (isString message)); [done|].
    destruct (_ || _); [done|].
    simpl. by apply secure_addMessage_log.
  - unfold onTyping.
    destruct (getUserBySocketId socketId (storage w)) as [user|]; done.
  - unfold onDisconnect.
    pose proof (secure_removeUser_log socketId _ Hok) as H.
    destruct (removeUser socketId (storage w)) as [[user|] st1]; done.
  - unfold onLeaveRoom.
    pose proof (secure_removeUser_log socketId _ Hok) as H.
    destruct (removeUser socketId (storage w)) as [[user|] st1]; done.
  - done.
Qed.

Lemma secure_reachable_log w :
  reachable xss capacity w → log_ok capacity (storage w).
Proof.
  induction 1 as [|w socketId clientIP e o _ IH].
  - intros name room. simpl. by rewrite lookup_empty.
  - by apply secure_handle_log.
Qed.

Lemma secure_addMessage_fifo name room message st :
  rooms st !! name = Some room → length (r_messages room) ≤ capacity →
  getRoomMessages name (addMessage xss capacity name message st)
  = let sanitizedMessage :=
      {| m_id := m_id message;
         m_username := sanitizeInput xss (JStr (m_username message));
         m_message := sanitizeInput xss (JStr (m_message message));
         m_timestamp := m_timestamp message;
         m_type := m_type message |} in
    if length (r_messages room) <? capacity
    then r_messages room ++ [sanitizedMessage]
    else drop 1 (r_messages room) ++ [sanitizedMessage].
Proof.
  intros Hr Hlen. unfold getRoomMessages, addMessage. rewrite Hr. simpl.
  rewrite lookup_insert_eq. simpl. by apply kept_fifo.
Qed.

End SecureLog.

(** ** Runs stay among the reachable worlds *)

Lemma plain_run_reachable capacity trace w :
  Plain.reachable capacity w → Plain.reachable capacity (Plain.run capacity trace w).
Proof.
  revert w. induction trace as [|[[socketId e] o] trace IH]; intros w Hw.
  - done.
  - simpl. apply IH. by constructor.
Qed.

Lemma secure_run_reachable xss capacity trace w :
  Secure.reachable xss capacity w →
  Secure.reachable xss capacity (Secure.run xss capacity trace w).
Proof.
  revert w.
  induction trace as [|[[[socketId clientIP] e] o] trace IH]; intros w Hw.
  - done.
  - simpl. apply IH. by constructor.
Qed.

(** ** Events that are not [sendMessage] leave every log as it is *)

Lemma plain_addUser_messages userId username room socketId st name :
  Plain.getRoomMessages name (Plain.addUser userId username room socketId st).2
  = Plain.getRoomMessages name st.
Proof.
  unfold Plain.getRoomMessages. simpl. rewrite lookup_alter.
  case_decide as Heq; [subst name|].
  - destruct (Plain.rooms st !! room) as [r0|] eqn:Hr.
    + by rewrite Hr.
    + by rewrite lookup_insert_eq.
  - destruct (Plain.rooms st !! room); [done|].
    by rewrite lookup_insert_ne.
Qed.

Lemma plain_removeUser_messages socketId st name :
  Plain.getRoomMessages name (Plain.removeUser socketId st).2
  = Plain.getRoomMessages name st.
Proof.
  unfold Plain.getRoomMessages, Plain.removeUser.
  destruct (Plain.sockets st !! socketId) as [userId|]; [|done].
  destruct (String.eqb userId ""); [done|].
  destruct (Plain.users st !! userId) as [user|]; [|done].
  destruct (Plain.rooms st !! Plain.u_room user) as [room|] eqn:Hr;
    simpl; [|done].
  rewrite lookup_insert. case_decide; [subst name|done]. by rewrite Hr.
Qed.

Lemma plain_notices_not_logged capacity socketId e o w name :
  (∀ message, e ≠ Plain.SendMessage message) →
  Plain.getRoomMessages name
    (Plain.storage (Plain.handle capacity socketId e o w).1)
  = Plain.getRoomMessages name (Plain.storage w).
Proof.
  intros Hne. destruct e as [username room|message|isTyping| | |evName]; simpl.
  - unfold Plain.onJoinRoom.
    destruct (negb (truthy username) || negb (truthy room)); [done|].
    destruct username; try done. destruct room; try done.
    simpl. apply plain_addUser_messages.
  - by destruct (Hne message).
  - unfold Plain.onTyping.
    destruct (Plain.getUserBySocketId socketId (Plain.storage w)); done.
  - unfold Plain.onDisconnect.
    pose proof (plain_removeUser_messages socketId (Plain.storage w) name) as H.
    destruct (Plain.removeUser socketId (Plain.storage w)) as [[user|] st1];
      done.
  - unfold Plain.onLeaveRoom.
    pose proof (plain_removeUser_messages socketId (Plain.storage w) name) as H.
    destruct (Plain.removeUser socketId (Plain.storage w)) as [[user|] st1];
      done.
  - done.
Qed.

Lemma plain_history_user_only w name :
  Plain.reachable Plain.MAX_MESSAGES w →
  user_only (Plain.getRoomMessages name (Plain.storage w)).
Proof.
  intros Hw. unfold Plain.getRoomMessages.
  destruct (Plain.rooms (Plain.storage w) !! name) as [room|] eqn:Hr.
  - eapply plain_reachable_log; [|done|done]. unfold Plain.MAX_MESSAGES. lia.
  - constructor.
Qed.

(** The only ['roomHistory'] emit is the one of a join, and it carries the
    log of a room of the world the join leaves. *)
Lemma plain_roomHistory_is_a_log socketId e o w to messages :
  Emit to (Plain.EvRoomHistory messages)
    ∈ (Plain.handle Plain.MAX_MESSAGES socketId e o w).2 →
  ∃ name, messages = Plain.getRoomMessages name
    (Plain.storage (Plain.handle Plain.MAX_MESSAGES socketId e o w).1).
Proof.
  destruct e as [username room|message|isTyping| | |evName]; simpl.
  - unfold Plain.onJoinRoom.
    destruct (negb (truthy username) || negb (truthy room)).
    { intros [=]%list_elem_of_singleton. }
    destruct username; try by intros [=]%list_elem_of_singleton.
    destruct room; try by intros [=]%list_elem_of_singleton.
    simpl. rewrite !elem_of_cons, elem_of_nil.
    intros [[=]|[[=]|[[= -> ->]|[[=]|[]]]]]. eauto.
  - unfold Plain.onSendMessage.
    destruct (Plain.getUserBySocketId _ _) as [user|];
      [|by intros [=]%list_elem_of_singleton].
    destruct (negb (truthy message)); [by intros [=]%list_elem_of_singleton|].
    destruct message; try by intros [=]%list_elem_of_singleton.
    destruct (String.eqb (trim s) ""); by intros [=]%list_elem_of_singleton.
  - unfold Plain.onTyping.
    destruct (Plain.getUserBySocketId _ _) as [user|]; simpl.
    + by intros [=]%list_elem_of_singleton.
    + by intros ?%elem_of_nil.
  - unfold Plain.onDisconnect.
    destruct (Plain.removeUser _ _) as [[user|] st1]; simpl.
    + rewrite !elem_of_cons, elem_of_nil. by intros [[=]|[[=]|[]]].
    + by intros ?%elem_of_nil.
  - unfold Plain.onLeaveRoom.
    destruct (Plain.removeUser _ _) as [[user|] st1]; simpl.
    + rewrite !elem_of_cons, elem_of_nil. by intros [[=]|[[=]|[[=]|[]]]].
    + by intros ?%elem_of_nil.
  - by intros [=]%list_elem_of_singleton.
Qed.

(** Whenever an event emits a message of type ['system'], no log changes. *)
Lemma plain_system_message_not_logged capacity socketId e o w to m name :
  Emit to (Plain.EvMessage m) ∈ (Plain.handle capacity socketId e o w).2 →
  m_type m = system_msg →
  Plain.getRoomMessages name
    (Plain.storage (Plain.handle capacity socketId e o w).1)
  = Plain.getRoomMessages name (Plain.storage w).
Proof.
  intros Hin Hsys.
  assert ((∃ message, e = Plain.SendMessage message)
          ∨ ∀ message, e ≠ Plain.SendMessage message) as [[message ->]|Hne]
    by (destruct e; eauto).
  - revert Hin. simpl. unfold Plain.onSendMessage.
    destruct (Plain.getUserBySocketId _ _) as [user|];
      [|by intros [=]%list_elem_of_singleton].
    destruct (negb (truthy message)); [by intros [=]%list_elem_of_singleton|].
    destruct message; try by intros [=]%list_elem_of_singleton.
    destruct (String.eqb (trim s) ""); [by intros [=]%list_elem_of_singleton|].
    simpl. intros [= _ ->]%list_elem_of_singleton. done.
  - by apply plain_notices_not_logged.
Qed.

Lemma secure_addUser_messages xss userId username room socketId joinTime
    createdAt st name :
  Secure.getRoomMessages name
    (Secure.addUser xss userId username room socketId joinTime createdAt st).2
  = Secure.getRoomMessages name st.
Proof.
  unfold Secure.getRoomMessages. simpl. rewrite lookup_alter.
  case_decide as Heq; [subst name|].
  - destruct (Secure.rooms st !! room) as [r0|] eqn:Hr.
    + by rewrite Hr.
    + by rewrite lookup_insert_eq.
  - destruct (Secure.rooms st !! room); [done|].
    by rewrite lookup_insert_ne.
Qed.

Lemma secure_removeUser_messages socketId st name :
  Secure.getRoomMessages name (Secure.removeUser socketId st).2
  = Secure.getRoomMessages name st.
Proof.
  unfold Secure.getRoomMessages, Secure.removeUser.
  destruct (Secure.sockets st !! socketId) as [userId|]; [|done].
  destruct (String.eqb userId ""); [done|].
  destruct (Secure.users st !! userId) as [user|]; [|done].
  destruct (Secure.rooms st !! Secure.u_room user) as [room|] eqn:Hr;
    simpl; [|done].
  rewrite lookup_insert. case_decide; [subst name|done]. by rewrite Hr.
Qed.

Lemma secure_notices_not_logged xss capacity socketId clientIP e o w name :
  (∀ message, e ≠ Secure.SendMessage message) →
  Secure.getRoomMessages name
    (Secure.storage (Secure.handle xss capacity socketId clientIP e o w).1)
  = Secure.getRoomMessages name (Secure.storage w).
Proof.
  intros Hne. destruct e as [|username room|message|isTyping| | |evName]; simpl.
  - unfold Secure.onConnection. simpl.
    by destruct (Secure.MAX_CONNECTIONS_PER_IP <? _).
  - unfold Secure.onJoinRoom.
    destruct (negb (Secure.isValidUsername xss username)
              || negb (Secure.isValidRoomName xss room)); [done|].
    simpl. apply secure_addUser_messages.
  - by destruct (Hne message).
  - unfold Secure.onTyping.
    destruct (Secure.getUserBySocketId socketId (Secure.storage w)); done.
  - unfold Secure.onDisconnect.
    pose proof (secure_removeUser_messages socketId (Secure.storage w) name)
      as H.
    destruct (Secure.removeUser socketId (Secure.storage w))
      as [[user|] st1]; done.
  - unfold Secure.onLeaveRoom.
    pose proof (secure_removeUser_messages socketId (Secure.storage w) name)
      as H.
    destruct (Secure.removeUser socketId (Secure.storage w))
      as [[user|] st1]; done.
  - done.
Qed.

Lemma secure_history_user_only xss w name :
  Secure.reachable xss Secure.MAX_MESSAGES w →
  user_only (Secure.getRoomMessages name (Secure.storage w)).
Proof.
  intros Hw. unfold Secure.getRoomMessages.
  destruct (Secure.rooms (Secure.storage w) !! name) as [room|] eqn:Hr.
  - eapply secure_reachable_log; [|done|done]. unfold Secure.MAX_MESSAGES. lia.
  - constructor.
Qed.

(** ** Sets in insertion order *)

Lemma elem_of_set_add x y s : y ∈ set_add x s ↔ y = x ∨ y ∈ s.
Proof.
  unfold set_add. case_decide as Hin.
  - split; [auto|]. by intros [->|].
  - rewrite elem_of_app, list_elem_of_singleton. tauto.
Qed.

Lemma elem_of_set_delete x y s : y ∈ set_delete x s ↔ y ∈ s ∧ y ≠ x.
Proof. unfold set_delete. rewrite list_elem_of_filter. tauto. Qed.

Lemma set_delete_absent x s : x ∉ set_delete x s.
Proof. rewrite elem_of_set_delete. tauto. Qed.

(** ** The registry of the plain server *)

Section PlainRegistry.
Import Plain.
Variable capacity : nat.

Lemma getUserBySocketId_Some socketId st user :
  getUserBySocketId socketId st = Some user ↔
  ∃ userId, sockets st !! socketId = Some userId ∧ userId ≠ "" ∧
            users st !! userId = Some user.
Proof.
  unfold getUserBySocketId.
  destruct (sockets st !! socketId) as [userId|].
  - destruct (String.eqb_spec userId "") as [->|Hne]; split.
    + done.
    + by intros (? & [= <-] & ? & ?).
    + intros Hu. by exists userId.
    + by intros (? & [= <-] & _ & ?).
  - split; [done|]. by intros (? & [=] & _).
Qed.

(** [removeUser] answers [null] exactly when the session resolves to no
    identity, and then it changes nothing. *)
Lemma removeUser_None socketId st :
  getUserBySocketId socketId st = None →
  removeUser socketId st = (None, st).
Proof.
  unfold getUserBySocketId, removeUser.
  destruct (sockets st !! socketId) as [userId|]; [|done].
  destruct (String.eqb userId ""); [done|]. by intros ->.
Qed.

(** After [removeUser] the session resolves to no identity. *)
Lemma removeUser_forgets socketId st :
  getUserBySocketId socketId (removeUser socketId st).2 = None.
Proof.
  destruct (getUserBySocketId socketId st) as [user|] eqn:Hget.
  - unfold getUserBySocketId, removeUser in *.
    destruct (sockets st !! socketId) as [userId|]; [|done].
    destruct (String.eqb userId ""); [done|]. rewrite Hget.
    destruct (rooms st !! u_room user); simpl; by rewrite lookup_delete_eq.
  - by rewrite removeUser_None.
Qed.

Lemma removeUser_resolved socketId st userId user :
  sockets st !! socketId = Some userId → userId ≠ "" →
  users st !! userId = Some user →
  (removeUser socketId st).1 = Some user ∧
  users (removeUser socketId st).2 = delete userId (users st) ∧
  sockets (removeUser socketId st).2 = delete socketId (sockets st).
Proof.
  intros Hs Hne Hu. unfold removeUser. rewrite Hs.
  destruct (String.eqb_spec userId ""); [done|]. rewrite Hu.
  by destruct (rooms st !! u_room user).
Qed.

Lemma plain_addMessage_registry roomName message st :
  users (addMessage capacity roomName message st) = users st ∧
  sockets (addMessage capacity roomName message st) = sockets st ∧
  typingUsers (addMessage capacity roomName message st) = typingUsers st.
Proof. unfold addMessage. by destruct (rooms st !! roomName). Qed.

Lemma plain_handle_registry_change socketId e o w :
  registry_change socketId e o (storage w)
    (storage (handle capacity socketId e o w).1).
Proof.
  destruct e as [username room|message|isTyping| | |evName]; simpl.
  - unfold onJoinRoom.
    destruct (negb (truthy username) || negb (truthy room));
      [by apply registry_same|].
    destruct username; try by apply registry_same.
    destruct room; try by apply registry_same.
    simpl. by eapply registry_added.
  - unfold onSendMessage.
    destruct (getUserBySocketId socketId (storage w)) as [user|];
      [|by apply registry_same].
    destruct (negb (truthy message)); [by apply registry_same|].
    destruct message; try by apply registry_same.
    destruct (String.eqb (trim s) ""); [by apply registry_same|].
    simpl. apply registry_same; apply plain_addMessage_registry.
  - unfold onTyping.
    destruct (getUserBySocketId socketId (storage w)) as [user|];
      by apply registry_same.
  - unfold onDisconnect.
    destruct (getUserBySocketId socketId (storage w)) as [user|] eqn:Hget.
    + apply getUserBySocketId_Some in Hget as (userId & Hs & Hne & Hu).
      destruct (removeUser_resolved _ _ _ _ Hs Hne Hu) as (H1 & H2 & H3).
      destruct (removeUser socketId (storage w)) as [[user'|] st1];
        simpl in *; [|done].
      by eapply registry_removed.
    + rewrite (removeUser_None _ _ Hget). simpl. by apply registry_same.
  - unfold onLeaveRoom.
    destruct (getUserBySocketId socketId (storage w)) as [user|] eqn:Hget.
    + apply getUserBySocketId_Some in Hget as (userId & Hs & Hne & Hu).
      destruct (removeUser_resolved _ _ _ _ Hs Hne Hu) as (H1 & H2 & H3).
      destruct (removeUser socketId (storage w)) as [[user'|] st1];
        simpl in *; [|done].
      by eapply registry_removed.
    + rewrite (removeUser_None _ _ Hget). simpl. by apply registry_same.
  - by apply registry_same.
Qed.

Lemma registry_change_ids socketId e o st st' :
  registry_change socketId e o st st' → ids_ok st → ids_ok st'.
Proof.
  intros [Hu _|username room ? ? _ Hu _|userId0 user0 _ _ Hu _] Hok userId user;
    rewrite Hu.
  - apply Hok.
  - rewrite lookup_insert. case_decide as Heq.
    + by intros [= <-].
    + apply Hok.
  - rewrite lookup_delete. case_decide; [done|apply Hok].
Qed.

Lemma registry_change_registry socketId e o st st' :
  registry_change socketId e o st st' → fresh_userId e o st →
  registry_ok st → registry_ok st'.
Proof.
  intros [Hu Hs|username room ? ? -> Hu Hs|userId0 user0 Hs0 Hu0 Hu Hs]
    Hfresh Hok socketId' userId'; rewrite Hs, Hu.
  - apply Hok.
  - destruct Hfresh as [Hne Hnone]. rewrite lookup_insert.
    case_decide as Heq.
    + intros [= <-]. split; [done|]. eexists. rewrite lookup_insert_eq.
      by subst socketId'.
    + intros Hl. destruct (Hok _ _ Hl) as (Hne' & user & Hl' & Hid & Hsock).
      split; [done|]. exists user. rewrite lookup_insert_ne; [done|].
      intros <-. by rewrite Hnone in Hl'.
  - rewrite lookup_delete. case_decide as Heq; [done|].
    intros Hl. destruct (Hok _ _ Hl) as (Hne' & user & Hl' & Hid & Hsock).
    split; [done|]. exists user. rewrite lookup_delete_ne; [done|].
    intros <-. destruct (Hok _ _ Hs0) as (_ & user1 & Hl1 & _ & Hsock1).
    congruence.
Qed.

Lemma plain_reachable_ids w : reachable capacity w → ids_ok (storage w).
Proof.
  induction 1 as [|w socketId e o _ IH].
  - intros userId user. simpl. by rewrite lookup_empty.
  - eapply registry_change_ids; [apply plain_handle_registry_change|done].
Qed.

Lemma reachable_fresh_reachable w :
  reachable_fresh capacity w → reachable capacity w.
Proof. induction 1; by constructor. Qed.

Lemma plain_reachable_registry w :
  reachable_fresh capacity w → registry_ok (storage w).
Proof.
  induction 1 as [|w socketId e o _ IH Hfresh].
  - intros socketId userId. simpl. by rewrite lookup_empty.
  - eapply registry_change_registry;
      [apply plain_handle_registry_change|done|done].
Qed.

Lemma plain_run_reachable_fresh trace w :
  reachable_fresh capacity w → fresh_trace capacity trace w →
  reachable_fresh capacity (run capacity trace w).
Proof.
  revert w. induction trace as [|[[socketId e] o] trace IH]; intros w Hw Hf.
  - done.
  - destruct Hf as [Hf1 Hf2]. simpl. apply IH; [|done]. by constructor.
Qed.





End PlainRegistry.

(** ** The typing sets of the plain server *)

Section PlainTyping.
Import Plain.
Variable capacity : nat.

Lemma removeUser_typing_kept socketId st userId roomName :
  isTypingIn userId roomName st →
  ¬ isTypingIn userId roomName (removeUser socketId st).2 →
  sockets st !! socketId = Some userId.
Proof.
  unfold isTypingIn, removeUser. intros Hin Hout.
  destruct (sockets st !! socketId) as [userId0|]; [|done].
  destruct (String.eqb userId0 ""); [done|].
  destruct (users st !! userId0) as [user|]; [|done].
  destruct (rooms st !! u_room user) as [room|]; [|done].
  destruct (typingUsers st !! u_room user) as [typingInRoom|] eqn:Ht;
    [|done].
  simpl in Hout. rewrite lookup_insert in Hout.
  case_decide as Heq; [subst roomName|done].
  rewrite Ht in Hin. simpl in *.
  destruct (decide (userId = userId0)) as [->|Hne]; [done|].
  destruct Hout. by apply elem_of_set_delete.
Qed.

Lemma setTyping_lookup userId roomName isTyping st name :
  default [] (typingUsers (setTyping userId roomName isTyping st).2 !! name)
  = if decide (roomName = name)
    then (if isTyping then set_add userId else set_delete userId)
           (default [] (typingUsers st !! name))
    else default [] (typingUsers st !! name).
Proof.
  simpl. rewrite lookup_alter. case_decide as Heq; [subst name|].
  - destruct (typingUsers st !! roomName) as [t|] eqn:Ht.
    + by rewrite Ht.
    + rewrite lookup_insert_eq. simpl. by destruct isTyping.
  - destruct (typingUsers st !! roomName); [done|].
    by rewrite lookup_insert_ne.
Qed.

Lemma setTyping_kept userId0 roomName0 isTyping st userId roomName :
  isTypingIn userId roomName st →
  ¬ isTypingIn userId roomName (setTyping userId0 roomName0 isTyping st).2 →
  userId = userId0 ∧ isTyping = false.
Proof.
  unfold isTypingIn. rewrite setTyping_lookup. intros Hin Hout.
  case_decide; [|done]. destruct isTyping.
  - destruct Hout. apply elem_of_set_add. by right.
  - split; [|done]. destruct (decide (userId = userId0)); [done|].
    destruct Hout. by apply elem_of_set_delete.
Qed.

(** An entry of a typing set survives every event but a stop, a leave or a
    disconnect of the session that resolves to it. *)
Lemma plain_typing_kept socketId e o w userId roomName :
  ids_ok (storage w) →
  isTypingIn userId roomName (storage w) →
  ¬ isTypingIn userId roomName (storage (handle capacity socketId e o w).1) →
  sockets (storage w) !! socketId = Some userId ∧ stops_typing e.
Proof.
  intros Hids Hin.
  destruct e as [username room|message|isTyping| | |evName]; simpl.
  - unfold onJoinRoom.
    destruct (negb (truthy username) || negb (truthy room)); [done|].
    destruct username; try done. by destruct room.
  - unfold onSendMessage.
    destruct (getUserBySocketId socketId (storage w)) as [user|]; [|done].
    destruct (negb (truthy message)); [done|].
    destruct message; try done.
    destruct (String.eqb (trim s) ""); [done|].
    simpl. unfold isTypingIn in *.
    by destruct (plain_addMessage_registry capacity (u_room user)
      {| m_id := uuidv4 o 0; m_username := u_username user;
         m_message := trim s; m_timestamp := now o 0; m_type := user_msg |}
      (storage w)) as (_ & _ & ->).
  - unfold onTyping.
    destruct (getUserBySocketId socketId (storage w)) as [user|] eqn:Hget;
      [|done].
    simpl. intros Hout.
    destruct (setTyping_kept _ _ _ _ _ _ Hin Hout) as [-> Hfalse].
    split; [|done].
    apply getUserBySocketId_Some in Hget as (userId & Hs & _ & Hu).
    by rewrite (Hids _ _ Hu).
  - unfold onDisconnect. intros Hout. split; [|done].
    apply (removeUser_typing_kept socketId (storage w) userId roomName Hin).
    by destruct (removeUser socketId (storage w)) as [[user|] st1].
  - unfold onLeaveRoom. intros Hout. split; [|done].
    apply (removeUser_typing_kept socketId (storage w) userId roomName Hin).
    by destruct (removeUser socketId (storage w)) as [[user|] st1].
  - done.
Qed.

Lemma onTyping_storage socketId isTyping w user :
  getUserBySocketId socketId (storage w) = Some user →
  storage (onTyping socketId isTyping w).1
  = (setTyping (u_id user) (u_room user) (truthy isTyping) (storage w)).2.
Proof. intros Hget. unfold onTyping. by rewrite Hget. Qed.

(** A stop takes the sender out of the typing set of its room. *)
Lemma plain_typing_stop socketId isTyping w user :
  getUserBySocketId socketId (storage w) = Some user →
  truthy isTyping = false →
  ¬ isTypingIn (u_id user) (u_room user)
      (storage (onTyping socketId isTyping w).1).
Proof.
  intros Hget Hfalse. rewrite (onTyping_storage _ _ _ _ Hget), Hfalse.
  unfold isTypingIn. rewrite setTyping_lookup.
  rewrite decide_True by done. apply set_delete_absent.
Qed.

(** [removeUser] takes the identity out of the typing set of its room when
    the room exists. *)
Lemma removeUser_typing_removed socketId st userId user :
  sockets st !! socketId = Some userId → userId ≠ "" →
  users st !! userId = Some user → is_Some (rooms st !! u_room user) →
  ¬ isTypingIn userId (u_room user) (removeUser socketId st).2.
Proof.
  intros Hs Hne Hu [room Hr]. unfold isTypingIn, removeUser. rewrite Hs.
  destruct (String.eqb_spec userId ""); [done|]. rewrite Hu, Hr.
  destruct (typingUsers st !! u_room user) as [t|] eqn:Ht; simpl.
  - rewrite lookup_insert_eq. apply set_delete_absent.
  - rewrite Ht. simpl. apply not_elem_of_nil.
Qed.

Lemma removeUser_rooms_exist socketId st :
  rooms_exist st → rooms_exist (removeUser socketId st).2.
Proof.
  intros Hok. unfold removeUser.
  destruct (sockets st !! socketId) as [userId0|]; [|done].
  destruct (String.eqb userId0 ""); [done|].
  destruct (users st !! userId0) as [user0|] eqn:Hu0; [|done].
  destruct (rooms st !! u_room user0) as [room|] eqn:Hr; simpl.
  - intros userId user. simpl. rewrite lookup_delete.
    case_decide; [done|]. intros Hu. rewrite lookup_insert.
    case_decide; [by eexists|]. by eapply Hok.
  - intros userId user. simpl. rewrite lookup_delete.
    case_decide; [done|]. by eapply Hok.
Qed.

Lemma plain_handle_rooms_exist socketId e o w :
  rooms_exist (storage w) →
  rooms_exist (storage (handle capacity socketId e o w).1).
Proof.
  intros Hok. destruct e as [username room|message|isTyping| | |evName]; simpl.
  - unfold onJoinRoom.
    destruct (negb (truthy username) || negb (truthy room)); [done|].
    destruct username; try done. destruct room; try done.
    simpl. intros userId user. simpl. rewrite lookup_insert, lookup_alter.
    case_decide as Heq.
    + intros [= <-]. simpl. rewrite decide_True by done.
      destruct (rooms (storage w) !! trim s0) eqn:Hr.
      * rewrite Hr. by eexists.
      * rewrite lookup_insert_eq. by eexists.
    + intros Hu. destruct (Hok _ _ Hu) as [r Hr].
      case_decide as Heq2.
      * rewrite Heq2, Hr. simpl. by rewrite Hr; eexists.
      * destruct (rooms (storage w) !! trim s0); [by eexists|].
        rewrite lookup_insert_ne by done. by eexists.
  - unfold onSendMessage.
    destruct (getUserBySocketId socketId (storage w)) as [user|]; [|done].
    destruct (negb (truthy message)); [done|].
    destruct message; try done.
    destruct (String.eqb (trim s) ""); [done|].
    simpl. intros userId user0. unfold addMessage.
    destruct (rooms (storage w) !! u_room user) as [room|] eqn:Hr;
      [|apply Hok].
    simpl. intros Hu. rewrite lookup_insert. case_decide; [by eexists|].
    by eapply Hok.
  - unfold onTyping.
    destruct (getUserBySocketId socketId (storage w)) as [user|]; done.
  - unfold onDisconnect.
    pose proof (removeUser_rooms_exist socketId _ Hok) as H.
    by destruct (removeUser socketId (storage w)) as [[user|] st1].
  - unfold onLeaveRoom.
    pose proof (removeUser_rooms_exist socketId _ Hok) as H.
    by destruct (removeUser socketId (storage w)) as [[user|] st1].
  - done.
Qed.

Lemma plain_reachable_rooms_exist w :
  reachable capacity w → rooms_exist (storage w).
Proof.
  induction 1 as [|w socketId e o _ IH].
  - intros userId user. simpl. by rewrite lookup_empty.
  - by apply plain_handle_rooms_exist.
Qed.

End PlainTyping.

(** ** Trimming *)

Lemma trimStart_whitespace s :
  allChars isWhiteSpace s = true → trimStart s = "".
Proof.
  induction s as [|c s IH]; simpl; [done|].
  intros [Hc Hs]%andb_prop. rewrite Hc. by apply IH.
Qed.

Lemma trim_whitespace s : allChars isWhiteSpace s = true → trim s = "".
Proof. intros H. unfold trim. by rewrite trimStart_whitespace. Qed.

Lemma truthy_JStr s : s ≠ "" → truthy (JStr s) = true.
Proof. simpl. by destruct (String.eqb_spec s ""). Qed.

(** ** Joining the plain server *)

Section PlainJoin.
Import Plain.
Variable capacity : nat.

(** A join with two non-empty strings registers and emits four times. *)
Lemma plain_join_emits socketId username room o w :
  username ≠ "" → room ≠ "" →
  onJoinRoom socketId (JStr username) (JStr room) o w
  = let st1 := (addUser (uuidv4 o 0) (trim username) (trim room) socketId
                  (storage w)).2 in
    ({| storage := st1; adapter := sio_join socketId room (adapter w) |},
     [ Emit (ToSocket socketId)
         (EvMessage (systemMessage (uuidv4 o 1)
            ("Welcome to " +:+ room +:+ ", " +:+ username +:+ "!")
            (now o 0)));
       Emit (ToRoomExcept room socketId)
         (EvMessage (systemMessage (uuidv4 o 2)
            (username +:+ " has joined the chat") (now o 1)));
       Emit (ToSocket socketId) (EvRoomHistory (getRoomMessages room st1));
       Emit (ToRoom room) (EvOnlineUsers (getUsersInRoom room st1)) ]).
Proof.
  intros Hu Hr. unfold onJoinRoom.
  by rewrite (truthy_JStr _ Hu), (truthy_JStr _ Hr).
Qed.

Lemma plain_addUser_registered userId username room socketId st :
  users (addUser userId username room socketId st).2 !! userId
  = Some {| u_id := userId; u_username := username; u_room := room;
            u_socketId := socketId |}.
Proof. simpl. by rewrite lookup_insert_eq. Qed.

(** The new identity is a member of the room it was registered in. *)
Lemma plain_addUser_member userId username room socketId st :
  ∃ r, rooms (addUser userId username room socketId st).2 !! room = Some r ∧
       userId ∈ r_users r.
Proof.
  simpl. rewrite lookup_alter, decide_True by done.
  destruct (rooms st !! room) as [r0|] eqn:Hr.
  - rewrite Hr. simpl. eexists. split; [done|]. simpl.
    apply elem_of_set_add. by left.
  - rewrite lookup_insert_eq. simpl. eexists. split; [done|]. simpl.
    apply elem_of_set_add. by left.
Qed.

Lemma plain_addUser_online userId username room socketId st :
  {| u_id := userId; u_username := username; u_room := room;
     u_socketId := socketId |}
  ∈ getUsersInRoom room (addUser userId username room socketId st).2.
Proof.
  destruct (plain_addUser_member userId username room socketId st)
    as (r & Hr & Hin).
  unfold getUsersInRoom. rewrite Hr. apply list_elem_of_omap.
  exists userId. split; [done|]. apply plain_addUser_registered.
Qed.

(** In a room that did not exist the new identity is alone. *)
Lemma plain_addUser_fresh_room userId username room socketId st :
  rooms st !! room = None →
  getUsersInRoom room (addUser userId username room socketId st).2
  = [ {| u_id := userId; u_username := username; u_room := room;
         u_socketId := socketId |} ].
Proof.
  intros Hr. unfold getUsersInRoom. simpl.
  rewrite lookup_alter, decide_True by done. rewrite Hr.
  rewrite lookup_insert_eq. simpl. unfold set_add. simpl.
  by rewrite lookup_insert_eq.
Qed.

(** A session that never joins is never resolved. *)
Lemma plain_never_joined socketId trace w :
  sockets (storage w) !! socketId = None →
  (∀ username room o, (socketId, JoinRoom username room, o) ∉ trace) →
  sockets (storage (run capacity trace w)) !! socketId = None.
Proof.
  revert w. induction trace as [|[[socketId' e] o] trace IH]; intros w Hw Hno.
  - done.
  - simpl. apply IH.
    + destruct (plain_handle_registry_change capacity socketId' e o w)
        as [_ ->|? ? ? ? -> _ ->|? ? _ _ _ ->].
      * done.
      * rewrite lookup_insert_ne; [done|]. intros ->.
        eapply Hno. by left.
      * rewrite lookup_delete. by case_decide.
    + intros username room o' Hin. eapply Hno. by right.
Qed.

End PlainJoin.

(** ** The validation of the secure server *)

(** Both validators follow one pattern; [bound] is 20 for a user name and
    30 for a room name. *)
Lemma secure_isValid_spec xss value bound :
  (if negb (truthy value) || negb (isString value) then false
   else (2 <=? String.length (Secure.sanitizeInput xss value))
        && (String.length (Secure.sanitizeInput xss value) <=? bound)
        && matchesName (Secure.sanitizeInput xss value)) = true ↔
  ∃ s, value = JStr s ∧ s ≠ ""
       ∧ 2 ≤ String.length (Secure.sanitizeInput xss value) ≤ bound
       ∧ Secure.sanitizeInput xss value ≠ ""
       ∧ allChars isNameChar (Secure.sanitizeInput xss value) = true.
Proof.
  generalize (Secure.sanitizeInput xss value). intros sanitized.
  unfold matchesName.
  destruct value as [| |b|n|s|]; cbn [truthy isString negb orb];
    rewrite ?orb_true_r;
    try (split; [done|by intros (? & [=] & _)]).
  destruct (String.eqb_spec s "") as [->|Hne]; cbn [negb orb].
  { split; [done|]. by intros (? & [= <-] & ? & _). }
  destruct (String.eqb_spec sanitized "") as [Hs|Hs]; cbn [negb andb].
  { rewrite andb_false_r. split; [done|]. by intros (? & _ & _ & _ & ? & _). }
  split.
  - intros [[H1 H2]%andb_prop H3]%andb_prop.
    apply Nat.leb_le in H1, H2. by exists s.
  - intros (s' & _ & _ & [H1 H2] & _ & H4).
    apply Nat.leb_le in H1, H2. by rewrite H1, H2, H4.
Qed.

(** * The properties of the specification *)

(** C1. A room never keeps more messages than the capacity constant, [100]
    on the plain server and [50] on the secure one, in any world the
    servers can reach; in such a world [addMessage] on an existing room
    appends at the end and, once the log is full, drops the single oldest
    entry and nothing else, leaving the rest in order; and with capacity 2
    a joined user who sends "a", "b" and "c" leaves the history
    ["b"; "c"]. *)
Theorem message_log_bounded_fifo :
  (∀ w name, Plain.reachable Plain.MAX_MESSAGES w →
     length (Plain.getRoomMessages name (Plain.storage w))
     ≤ Plain.MAX_MESSAGES)
  ∧ (∀ xss w name, Secure.reachable xss Secure.MAX_MESSAGES w →
       length (Secure.getRoomMessages name (Secure.storage w))
       ≤ Secure.MAX_MESSAGES)
  ∧ (∀ w name room message, Plain.reachable Plain.MAX_MESSAGES w →
       Plain.rooms (Plain.storage w) !! name = Some room →
       Plain.getRoomMessages name
         (Plain.addMessage Plain.MAX_MESSAGES name message (Plain.storage w))
       = if length (Plain.r_messages room) <? Plain.MAX_MESSAGES
         then Plain.r_messages room ++ [message]
         else drop 1 (Plain.r_messages room) ++ [message])
  ∧ (∀ xss w name room message, Secure.reachable xss Secure.MAX_MESSAGES w →
       Secure.rooms (Secure.storage w) !! name = Some room →
       let sanitizedMessage :=
         {| m_id := m_id message;
            m_username :=
              Secure.sanitizeInput xss (JStr (m_username message));
            m_message := Secure.sanitizeInput xss (JStr (m_message message));
            m_timestamp := m_timestamp message;
            m_type := m_type message |} in
       Secure.getRoomMessages name
         (Secure.addMessage xss Secure.MAX_MESSAGES name message
            (Secure.storage w))
       = if length (Secure.r_messages room) <? Secure.MAX_MESSAGES
         then Secure.r_messages room ++ [sanitizedMessage]
         else drop 1 (Secure.r_messages room) ++ [sanitizedMessage])
  ∧ bodies (Plain.getRoomMessages "general"
              (Plain.storage (Plain.run 2 scenarioD Plain.initial)))
    = ["b"; "c"]
  ∧ bodies (Secure.getRoomMessages "general"
              (Secure.storage
                 (Secure.run (λ s, s) 2 scenarioD_secure Secure.initial)))
    = ["b"; "c"].
Proof.
  assert (1 ≤ Plain.MAX_MESSAGES) as Hp by (unfold Plain.MAX_MESSAGES; lia).
  assert (1 ≤ Secure.MAX_MESSAGES) as Hs by (unfold Secure.MAX_MESSAGES; lia).
  split_and!.
  - intros w name Hw. unfold Plain.getRoomMessages.
    destruct (Plain.rooms (Plain.storage w) !! name) as [room|] eqn:Hr.
    + by eapply (plain_reachable_log _ Hp w Hw).
    + simpl. lia.
  - intros xss w name Hw. unfold Secure.getRoomMessages.
    destruct (Secure.rooms (Secure.storage w) !! name) as [room|] eqn:Hr.
    + by eapply (secure_reachable_log xss _ Hs w Hw).
    + simpl. lia.
  - intros w name room message Hw Hr.
    apply plain_addMessage_fifo; [done|done|].
    by eapply (plain_reachable_log _ Hp w Hw).
  - intros xss w name room message Hw Hr.
    apply (secure_addMessage_fifo xss _ Hs name room); [done|].
    by eapply (secure_reachable_log xss _ Hs w Hw).
  - by vm_compute.
  - by vm_compute.
Qed.

(** The bound on the world scenario D leaves. *)
Lemma message_log_bounded_fifo_witness :
  length (Plain.getRoomMessages "general"
            (Plain.storage
               (Plain.run Plain.MAX_MESSAGES scenarioD Plain.initial)))
  ≤ Plain.MAX_MESSAGES.
Proof.
  apply (proj1 message_log_bounded_fifo).
  apply plain_run_reachable, Plain.reachable_initial.
Defined.

(** A ['leaveRoom'] and a ['disconnect'] emit no ['typing']. *)
Lemma plain_removal_emits_no_typing capacity socketId o w :
  Forall Plain.not_typing_emit
    (Plain.handle capacity socketId Plain.Disconnect o w).2
  ∧ Forall Plain.not_typing_emit
      (Plain.handle capacity socketId Plain.LeaveRoom o w).2.
Proof.
  simpl. unfold Plain.onDisconnect, Plain.onLeaveRoom.
  destruct (Plain.removeUser socketId (Plain.storage w))
    as [[user'|] st1]; simpl; split; by repeat constructor.
Qed.

(** C2, as stated, fails.  J1 signals at time 10 that it types and sends
    nothing more.  Its entry is in the typing set at time 10, at time
    10 + 2000 and at time 5000, and the ['typing'] J2 is sent at time 5000
    still names J1.  When J1 instead disconnects at time 20, J2, who was
    told at time 15 that J1 types, is sent the leave notice and the online
    users and no ['typing'] at all. *)
Lemma typing_entry_outlives_timeout :
  Plain.isTypingIn "u1" "general"
    (Plain.storage (Plain.world_at Plain.MAX_MESSAGES 10 scenarioC_late))
  ∧ Plain.isTypingIn "u1" "general"
      (Plain.storage
         (Plain.world_at Plain.MAX_MESSAGES (10 + Plain.TYPING_TIMEOUT)
            scenarioC_late))
  ∧ Plain.isTypingIn "u1" "general"
      (Plain.storage (Plain.world_at Plain.MAX_MESSAGES 5000 scenarioC_late))
  ∧ filter (λ x, (10 ≤ x.1)%Z)
      (Plain.inbox Plain.MAX_MESSAGES "s2" scenarioC_late Plain.initial)
    = [ (10%Z, Plain.EvTyping []); (15%Z, Plain.EvTyping [J1]);
        (5000%Z, Plain.EvTyping [J1]) ]
  ∧ filter (λ x, (10 ≤ x.1)%Z)
      (Plain.inbox Plain.MAX_MESSAGES "s2" scenarioC_disconnect Plain.initial)
    = [ (10%Z, Plain.EvTyping []); (15%Z, Plain.EvTyping [J1]);
        (20%Z, Plain.EvMessage
                 (Plain.systemMessage "m7" "J1 has left the chat" "t5"));
        (20%Z, Plain.EvOnlineUsers [J2; J3]) ].
Proof.
  split_and!.
  - vm_compute. apply list_elem_of_here.
  - vm_compute. apply list_elem_of_here.
  - vm_compute. apply list_elem_of_here.
  - by vm_compute.
  - by vm_compute.
Qed.

(** C2, amended.  The server runs no typing timer.  In every reachable
    world an identity leaves a typing set only through a ['typing'] with a
    falsy [isTyping], a ['leaveRoom'] or a ['disconnect'] of the session
    that resolves to it, and each of these takes the sender out of the
    typing set of its room; and while no event arrives the world does not
    change. *)
Theorem typing_entry_removed_only_by_stop_or_removal
    (capacity : nat) (w : Plain.World) :
  Plain.reachable capacity w →
  (∀ socketId e o userId roomName,
     Plain.isTypingIn userId roomName (Plain.storage w) →
     ¬ Plain.isTypingIn userId roomName
         (Plain.storage (Plain.handle capacity socketId e o w).1) →
     Plain.sockets (Plain.storage w) !! socketId = Some userId
     ∧ Plain.stops_typing e)
  ∧ (∀ socketId e o user,
       Plain.getUserBySocketId socketId (Plain.storage w) = Some user →
       Plain.stops_typing e →
       ¬ Plain.isTypingIn (Plain.u_id user) (Plain.u_room user)
           (Plain.storage (Plain.handle capacity socketId e o w).1))
  ∧ (∀ trace t t',
       (∀ x, x ∈ trace → ¬ (t < x.1 ≤ t')%Z) → (t ≤ t')%Z →
       Plain.world_at capacity t' trace = Plain.world_at capacity t trace).
Proof.
  intros Hw.
  pose proof (plain_reachable_ids capacity w Hw) as Hids.
  pose proof (plain_reachable_rooms_exist capacity w Hw) as Hrooms.
  split_and!.
  - intros socketId e o userId roomName. by apply plain_typing_kept.
  - intros socketId e o user Hget Hstop.
    pose proof Hget as (userId & Hs & Hne & Hu)%getUserBySocketId_Some.
    pose proof (Hids _ _ Hu) as Hid.
    pose proof (removeUser_typing_removed socketId (Plain.storage w)
                  userId user Hs Hne Hu (Hrooms _ _ Hu)) as Hrm.
    destruct e as [username room|message|isTyping| | |evName]; simpl in *;
      try done.
    + by apply plain_typing_stop.
    + unfold Plain.onDisconnect. rewrite Hid.
      by destruct (Plain.removeUser socketId (Plain.storage w))
        as [[user'|] st1].
    + unfold Plain.onLeaveRoom. rewrite Hid.
      by destruct (Plain.removeUser socketId (Plain.storage w))
        as [[user'|] st1].
  - intros trace t t' Hnone Hle. unfold Plain.world_at. f_equal. f_equal.
    induction trace as [|x trace IH]; [done|].
    rewrite !filter_cons.
    rewrite IH by (intros y Hy; apply Hnone; by right).
    specialize (Hnone x (list_elem_of_here _ _)).
    repeat case_decide; try done; lia.
Qed.

(** A stop from J1 at last takes it out of the typing set. *)
Lemma typing_entry_removed_only_by_stop_or_removal_witness :
  ¬ Plain.isTypingIn "u1" "general"
      (Plain.storage
         (Plain.handle Plain.MAX_MESSAGES "s1" (Plain.Typing (JBool false))
            (oracle [] "t9")
            (Plain.world_at Plain.MAX_MESSAGES 5000 scenarioC_late)).1).
Proof.
  apply (proj1 (proj2 (typing_entry_removed_only_by_stop_or_removal
                         Plain.MAX_MESSAGES
                         (Plain.world_at Plain.MAX_MESSAGES 5000
                            scenarioC_late)
                         (plain_run_reachable _ _ _ (Plain.reachable_initial _))))
           "s1" (Plain.Typing (JBool false)) (oracle [] "t9") J1).
  - by vm_compute.
  - reflexivity.
Defined.

Lemma scenario_rejoin_reachable :
  Plain.reachable_fresh Plain.MAX_MESSAGES
    (Plain.run Plain.MAX_MESSAGES scenario_rejoin Plain.initial).
Proof.
  apply plain_run_reachable_fresh; [constructor|].
  vm_compute. by repeat split.
Qed.





(** C4. A second [removeUser] for the same socket answers [null] and leaves
    the storage as the first call left it; and when the socket resolves to
    an identity, the first call answers that identity and takes it out of
    [users], [sockets], the member set of its room and, the room existing,
    the typing set of its room. *)
Theorem removeUser_idempotent (socketId : string) (st : Plain.Storage) :
  Plain.removeUser socketId (Plain.removeUser socketId st).2
  = (None, (Plain.removeUser socketId st).2)
  ∧ ∀ userId user,
      Plain.sockets st !! socketId = Some userId → userId ≠ "" →
      Plain.users st !! userId = Some user →
      let st1 := (Plain.removeUser socketId st).2 in
      (Plain.removeUser socketId st).1 = Some user
      ∧ Plain.users st1 !! userId = None
      ∧ Plain.sockets st1 !! socketId = None
      ∧ (∀ room, Plain.rooms st1 !! Plain.u_room user = Some room →
           userId ∉ Plain.r_users room)
      ∧ (is_Some (Plain.rooms st !! Plain.u_room user) →
           ¬ Plain.isTypingIn userId (Plain.u_room user) st1).
Proof.
  split.
  - apply removeUser_None, removeUser_forgets.
  - intros userId user Hs Hne Hu st1.
    destruct (removeUser_resolved _ _ _ _ Hs Hne Hu) as (H1 & H2 & H3).
    split_and!; [done| | | |].
    + subst st1. rewrite H2. apply lookup_delete_eq.
    + subst st1. rewrite H3. apply lookup_delete_eq.
    + subst st1. unfold Plain.removeUser. rewrite Hs.
      destruct (String.eqb_spec userId ""); [done|]. rewrite Hu.
      destruct (Plain.rooms st !! Plain.u_room user) as [room0|] eqn:Hr;
        simpl.
      * rewrite lookup_insert_eq. intros room [= <-]. simpl.
        apply set_delete_absent.
      * intros room. by rewrite Hr.
    + intros Hroom. by apply removeUser_typing_removed.
Qed.

(** Removing J1 after scenario D. *)
Lemma removeUser_idempotent_witness :
  (Plain.removeUser "s1"
     (Plain.storage (Plain.run 2 scenarioD Plain.initial))).1
  = Some J1.
Proof.
  apply (proj2 (removeUser_idempotent "s1"
                  (Plain.storage (Plain.run 2 scenarioD Plain.initial)))
           "u1" J1).
  - by vm_compute.
  - discriminate.
  - by vm_compute.
Defined.

(** C5. In every world the servers can reach the history of every room
    holds messages of type ['user'] only; an event other than
    [sendMessage], so a join, a leave or a disconnect with its notices,
    leaves every log as it was, and so does every event that emits a
    message of type ['system']; and the ['roomHistory'] a joining client is
    sent holds messages of type ['user'] only. *)
Theorem history_holds_user_messages_only :
  (∀ w name, Plain.reachable Plain.MAX_MESSAGES w →
     user_only (Plain.getRoomMessages name (Plain.storage w)))
  ∧ (∀ capacity socketId e o w name,
       (∀ message, e ≠ Plain.SendMessage message) →
       Plain.getRoomMessages name
         (Plain.storage (Plain.handle capacity socketId e o w).1)
       = Plain.getRoomMessages name (Plain.storage w))
  ∧ (∀ capacity socketId e o w to m name,
       Emit to (Plain.EvMessage m)
         ∈ (Plain.handle capacity socketId e o w).2 →
       m_type m = system_msg →
       Plain.getRoomMessages name
         (Plain.storage (Plain.handle capacity socketId e o w).1)
       = Plain.getRoomMessages name (Plain.storage w))
  ∧ (∀ socketId e o w to messages,
       Plain.reachable Plain.MAX_MESSAGES w →
       Emit to (Plain.EvRoomHistory messages)
         ∈ (Plain.handle Plain.MAX_MESSAGES socketId e o w).2 →
       user_only messages)
  ∧ (∀ xss w name, Secure.reachable xss Secure.MAX_MESSAGES w →
       user_only (Secure.getRoomMessages name (Secure.storage w)))
  ∧ (∀ xss capacity socketId clientIP e o w name,
       (∀ message, e ≠ Secure.SendMessage message) →
       Secure.getRoomMessages name
         (Secure.storage
            (Secure.handle xss capacity socketId clientIP e o w).1)
       = Secure.getRoomMessages name (Secure.storage w)).
Proof.
  split_and!.
  - intros w name Hw. by apply plain_history_user_only.
  - intros. by apply plain_notices_not_logged.
  - intros. by eapply plain_system_message_not_logged.
  - intros socketId e o w to messages Hw Hin.
    destruct (plain_roomHistory_is_a_log _ _ _ _ _ _ Hin) as [name ->].
    apply plain_history_user_only. by constructor.
  - intros xss w name Hw. by apply (secure_history_user_only xss).
  - intros. by apply secure_notices_not_logged.
Qed.

(** The history scenario D leaves. *)
Lemma history_holds_user_messages_only_witness :
  user_only (Plain.getRoomMessages "general"
               (Plain.storage
                  (Plain.run Plain.MAX_MESSAGES scenarioD Plain.initial))).
Proof.
  apply (proj1 history_holds_user_messages_only).
  apply plain_run_reachable, Plain.reachable_initial.
Defined.

(** ** A [sendMessage] from a session without identity

    A [sendMessage] that carries a payload, whatever its field [message],
    from a session that resolves to no identity changes nothing, emits one
    ['error'] ("User not found") to that socket alone and does not
    disconnect it; a session that has not joined resolves to no identity,
    and neither does a session after its disconnect. *)
Lemma sendMessage_with_payload_is_rejected_without_identity :
  (∀ capacity socketId message o w,
     Plain.getUserBySocketId socketId (Plain.storage w) = None →
     Plain.handle capacity socketId (Plain.SendMessage message) o w
     = (w, [Emit (ToSocket socketId) (Plain.EvError "User not found")]))
  ∧ (∀ capacity socketId trace,
       (∀ username room o,
          (socketId, Plain.JoinRoom username room, o) ∉ trace) →
       Plain.getUserBySocketId socketId
         (Plain.storage (Plain.run capacity trace Plain.initial)) = None)
  ∧ (∀ capacity socketId o w,
       Plain.getUserBySocketId socketId
         (Plain.storage
            (Plain.handle capacity socketId Plain.Disconnect o w).1) = None)
  ∧ (∀ xss capacity socketId clientIP message o w,
       Secure.getUserBySocketId socketId (Secure.storage w) = None →
       Secure.handle xss capacity socketId clientIP
         (Secure.SendMessage message) o w
       = (w, [Emit (ToSocket socketId) (Secure.EvError "User not found")])).
Proof.
  split_and!.
  - intros capacity socketId message o w Hget. simpl.
    unfold Plain.onSendMessage. by rewrite Hget.
  - intros capacity socketId trace Hno. unfold Plain.getUserBySocketId.
    by rewrite plain_never_joined.
  - intros capacity socketId o w. simpl. unfold Plain.onDisconnect.
    pose proof (removeUser_forgets socketId (Plain.storage w)) as H.
    by destruct (Plain.removeUser socketId (Plain.storage w))
      as [[user|] st1].
  - intros xss capacity socketId clientIP message o w Hget. simpl.
    unfold Secure.onSendMessage. by rewrite Hget.
Qed.

(** A socket that never joined sends a message after scenario D. *)
Lemma sendMessage_with_payload_after_scenarioD :
  Plain.handle Plain.MAX_MESSAGES "s9" (Plain.SendMessage (JStr "hello"))
    (oracle ["m9"] "t9") (Plain.run Plain.MAX_MESSAGES scenarioD Plain.initial)
  = (Plain.run Plain.MAX_MESSAGES scenarioD Plain.initial,
     [Emit (ToSocket "s9") (Plain.EvError "User not found")]).
Proof.
  apply (proj1 sendMessage_with_payload_is_rejected_without_identity).
  by vm_compute.
Qed.

(** C6, at the input where the code departs from it.  A socket that has
    not joined emits ['sendMessage'] with no payload.  On both servers the
    handler throws while it takes [message] out of the payload, before its
    [try] and before it looks the session up: the action list holds the
    uncaught exception and no emit, so the socket is sent no ['error'];
    the storage is as it was. *)
Theorem sendMessage_without_payload_is_not_answered :
  let w := Plain.run Plain.MAX_MESSAGES scenarioD Plain.initial in
  let ws := Secure.run (λ s, s) Secure.MAX_MESSAGES scenarioD_secure
              Secure.initial in
  Plain.getUserBySocketId "s9" (Plain.storage w) = None
  ∧ Plain.handle Plain.MAX_MESSAGES "s9"
      (Plain.WithoutPayload NameSendMessage) (oracle ["m9"] "t9") w
    = (w, [Uncaught])
  ∧ Secure.getUserBySocketId "s9" (Secure.storage ws) = None
  ∧ Secure.handle (λ s, s) Secure.MAX_MESSAGES "s9" "10.0.0.9"
      (Secure.WithoutPayload NameSendMessage) (oracle ["m9"] "t9") ws
    = (ws, [Uncaught])
  ∧ (∀ capacity socketId name o w' to p,
       Emit to p
       ∉ (Plain.handle capacity socketId (Plain.WithoutPayload name) o w').2)
  ∧ (∀ xss capacity socketId clientIP name o w' to p,
       Emit to p
       ∉ (Secure.handle xss capacity socketId clientIP
            (Secure.WithoutPayload name) o w').2).
Proof.
  intros w ws. split_and!; try by vm_compute.
  - intros capacity socketId name o w' to p. cbn.
    by intros [=]%list_elem_of_singleton.
  - intros xss capacity socketId clientIP name o w' to p. cbn.
    by intros [=]%list_elem_of_singleton.
Qed.

(** C7, as stated, fails on the plain server.  The name "<b>" has a
    character outside the allowed set, and the validation of the secure
    server refuses it; the plain server registers it and emits the welcome,
    the notice, the history and the online users, and no ['error']. *)
Lemma plain_join_accepts_malformed_name :
  matchesName "<b>" = false
  ∧ Secure.isValidUsername (λ s, s) (JStr "<b>") = false
  ∧ let result :=
      Plain.handle Plain.MAX_MESSAGES "s1"
        (Plain.JoinRoom (JStr "<b>") (JStr "general"))
        (oracle ["u1"; "m1"; "m2"] "t0") Plain.initial in
    let user := {| Plain.u_id := "u1"; Plain.u_username := "<b>";
                   Plain.u_room := "general"; Plain.u_socketId := "s1" |} in
    Plain.getUserBySocketId "s1" (Plain.storage result.1) = Some user
    ∧ result.2
      = [ Emit (ToSocket "s1")
            (Plain.EvMessage
               (Plain.systemMessage "m1" "Welcome to general, <b>!" "t0"));
          Emit (ToRoomExcept "general" "s1")
            (Plain.EvMessage
               (Plain.systemMessage "m2" "<b> has joined the chat" "t0"));
          Emit (ToSocket "s1") (Plain.EvRoomHistory []);
          Emit (ToRoom "general") (Plain.EvOnlineUsers [user]) ].
Proof. split_and!; by vm_compute. Qed.

(** C7, amended.  A [joinRoom] that the validation of the server refuses is
    answered by one ['error'] to that socket alone and changes nothing: no
    identity, no session mapping and no room is created, and the socket is
    not disconnected.  The plain server refuses a [username] or [room] that
    is falsy (missing or empty) and answers a truthy one that is not a
    string from its [catch]; it knows no length bound and no character set,
    and registers every pair of non-empty strings.  The secure server
    refuses what [isValidUsername] or [isValidRoomName] refuses: a value
    that is not a non-empty string, or whose sanitized form is shorter than
    2, longer than 20 (30 for a room), or has a character outside
    [[a-zA-Z0-9_\s]]. *)
Theorem invalid_join_is_rejected :
  (∀ capacity socketId username room o w,
     truthy username = false ∨ truthy room = false →
     Plain.handle capacity socketId (Plain.JoinRoom username room) o w
     = (w, [Emit (ToSocket socketId)
              (Plain.EvError "Username and room are required")]))
  ∧ (∀ capacity socketId username room o w,
       truthy username = true → truthy room = true →
       isString username = false ∨ isString room = false →
       Plain.handle capacity socketId (Plain.JoinRoom username room) o w
       = (w, [Emit (ToSocket socketId)
                (Plain.EvError "Failed to join room")]))
  ∧ (∀ capacity socketId username room o w,
       username ≠ "" → room ≠ "" →
       Plain.users
         (Plain.storage
            (Plain.handle capacity socketId
               (Plain.JoinRoom (JStr username) (JStr room)) o w).1)
         !! uuidv4 o 0
       = Some {| Plain.u_id := uuidv4 o 0;
                 Plain.u_username := trim username;
                 Plain.u_room := trim room;
                 Plain.u_socketId := socketId |})
  ∧ (∀ xss capacity socketId clientIP username room o w,
       Secure.isValidUsername xss username = false
       ∨ Secure.isValidRoomName xss room = false →
       Secure.handle xss capacity socketId clientIP
         (Secure.JoinRoom username room) o w
       = (w, [Emit (ToSocket socketId)
                (Secure.EvError "Invalid username or room name")]))
  ∧ (∀ xss value,
       (Secure.isValidUsername xss value = true ↔
        ∃ s, value = JStr s ∧ s ≠ ""
             ∧ 2 ≤ String.length (Secure.sanitizeInput xss value) ≤ 20
             ∧ Secure.sanitizeInput xss value ≠ ""
             ∧ allChars isNameChar (Secure.sanitizeInput xss value) = true)
       ∧ (Secure.isValidRoomName xss value = true ↔
          ∃ s, value = JStr s ∧ s ≠ ""
               ∧ 2 ≤ String.length (Secure.sanitizeInput xss value) ≤ 30
               ∧ Secure.sanitizeInput xss value ≠ ""
               ∧ allChars isNameChar (Secure.sanitizeInput xss value)
                 = true)).
Proof.
  split_and!.
  - intros capacity socketId username room o w H. simpl.
    unfold Plain.onJoinRoom.
    destruct H as [-> | ->]; [done|]. by rewrite orb_true_r.
  - intros capacity socketId username room o w Hu Hr H. simpl.
    unfold Plain.onJoinRoom. rewrite Hu, Hr. simpl.
    destruct H as [H|H].
    + by destruct username.
    + destruct username; try done. by destruct room.
  - intros capacity socketId username room o w Hu Hr. unfold Plain.handle.
    rewrite plain_join_emits by done. apply plain_addUser_registered.
  - intros xss capacity socketId clientIP username room o w H. simpl.
    unfold Secure.onJoinRoom.
    destruct H as [-> | ->]; [done|]. by rewrite orb_true_r.
  - intros xss value. split.
    + apply secure_isValid_spec.
    + apply secure_isValid_spec.
Qed.

(** The secure server refuses the one-letter name J. *)
Lemma invalid_join_is_rejected_witness :
  Secure.handle (λ s, s) Secure.MAX_MESSAGES "s1" "10.0.0.1"
    (Secure.JoinRoom (JStr "J") (JStr "general")) (oracle ["u1"] "t0")
    Secure.initial
  = (Secure.initial,
     [Emit (ToSocket "s1") (Secure.EvError "Invalid username or room name")]).
Proof.
  apply (proj1 (proj2 (proj2 (proj2 invalid_join_is_rejected)))).
  left. by vm_compute.
Defined.

(** ** Joins whose room name needs no trimming *)

(** A join with a room name that [trim] leaves alone emits the welcome to
    the sender, the notice to the room but the sender, the history the room
    had to the sender, and to the whole room, the sender included, the online
    users, among them the new identity; in a room that did not exist the
    history is empty and the new identity is alone. *)
Lemma plain_join_trimmed_room capacity socketId username room o w :
  username ≠ "" → room ≠ "" → trim room = room →
  let user := {| Plain.u_id := uuidv4 o 0;
                 Plain.u_username := trim username;
                 Plain.u_room := room; Plain.u_socketId := socketId |} in
  let result := Plain.handle capacity socketId
                  (Plain.JoinRoom (JStr username) (JStr room)) o w in
  ∃ onlineUsers,
    result.2
    = [ Emit (ToSocket socketId)
          (Plain.EvMessage (Plain.systemMessage (uuidv4 o 1)
             ("Welcome to " +:+ room +:+ ", " +:+ username +:+ "!")
             (now o 0)));
        Emit (ToRoomExcept room socketId)
          (Plain.EvMessage (Plain.systemMessage (uuidv4 o 2)
             (username +:+ " has joined the chat") (now o 1)));
        Emit (ToSocket socketId)
          (Plain.EvRoomHistory
             (Plain.getRoomMessages room (Plain.storage w)));
        Emit (ToRoom room) (Plain.EvOnlineUsers onlineUsers) ]
    ∧ user ∈ onlineUsers
    ∧ delivered (Plain.adapter result.1) (ToRoom room) socketId = true
    ∧ (Plain.rooms (Plain.storage w) !! room = None →
       Plain.getRoomMessages room (Plain.storage w) = []
       ∧ onlineUsers = [user]).
Proof.
  intros Hu Hr Htrim user result. subst result. unfold Plain.handle.
  rewrite plain_join_emits by done. rewrite Htrim.
  cbn [fst snd Plain.adapter Plain.storage].
  eexists. split_and!.
  - by rewrite (plain_addUser_messages (uuidv4 o 0) (trim username) room
                  socketId (Plain.storage w) room).
  - apply plain_addUser_online.
  - apply bool_decide_eq_true. unfold sio_join. set_solver.
  - intros Hnone. split.
    + unfold Plain.getRoomMessages. by rewrite Hnone.
    + by apply plain_addUser_fresh_room.
Qed.

(** Scenario A: what J1 and J2 are delivered. *)
Lemma scenarioA_inboxes :
  Plain.inbox Plain.MAX_MESSAGES "s1" scenarioA Plain.initial
  = [ (0%Z, Plain.EvMessage
              (Plain.systemMessage "m1" "Welcome to general, J1!" "t0"));
      (0%Z, Plain.EvRoomHistory []);
      (0%Z, Plain.EvOnlineUsers [J1]);
      (1%Z, Plain.EvMessage
              (Plain.systemMessage "m4" "J2 has joined the chat" "t1"));
      (1%Z, Plain.EvOnlineUsers [J1; J2]) ]
  ∧ Plain.inbox Plain.MAX_MESSAGES "s2" scenarioA Plain.initial
    = [ (1%Z, Plain.EvMessage
                (Plain.systemMessage "m3" "Welcome to general, J2!" "t1"));
        (1%Z, Plain.EvRoomHistory []);
        (1%Z, Plain.EvOnlineUsers [J1; J2]) ].
Proof. split; by vm_compute. Qed.

(** C8, on a room name that needs trimming.  The first client of the
    plain server joins the room " general ": it is registered in the room
    "general", and the online users it is sent are those of the room
    " general ", which does not exist, so the list is empty.  When J2 joins
    " general " after J1 joined "general" and said hello, J2 is sent an
    empty history and an empty list of online users, and J1 is sent
    nothing. *)
Theorem join_untrimmed_room_reports_nobody_online :
  let result :=
    Plain.handle Plain.MAX_MESSAGES "s1"
      (Plain.JoinRoom (JStr "J1") (JStr " general "))
      (oracle ["u1"; "m1"; "m2"] "t0") Plain.initial in
  Plain.getUserBySocketId "s1" (Plain.storage result.1) = Some J1
  ∧ Plain.getUsersInRoom "general" (Plain.storage result.1) = [J1]
  ∧ result.2
    = [ Emit (ToSocket "s1")
          (Plain.EvMessage
             (Plain.systemMessage "m1" "Welcome to  general , J1!" "t0"));
        Emit (ToRoomExcept " general " "s1")
          (Plain.EvMessage
             (Plain.systemMessage "m2" "J1 has joined the chat" "t0"));
        Emit (ToSocket "s1") (Plain.EvRoomHistory []);
        Emit (ToRoom " general ") (Plain.EvOnlineUsers []) ]
  ∧ bodies (Plain.getRoomMessages "general"
              (Plain.storage
                 (Plain.world_at Plain.MAX_MESSAGES 2 scenario_untrimmed)))
    = ["hello"]
  ∧ Plain.getUsersInRoom "general"
      (Plain.storage (Plain.world_at Plain.MAX_MESSAGES 2 scenario_untrimmed))
    = [J1; J2]
  ∧ filter (λ x, (2 ≤ x.1)%Z)
      (Plain.inbox Plain.MAX_MESSAGES "s2" scenario_untrimmed Plain.initial)
    = [ (2%Z, Plain.EvMessage
                (Plain.systemMessage "m4" "Welcome to  general , J2!" "t2"));
        (2%Z, Plain.EvRoomHistory []);
        (2%Z, Plain.EvOnlineUsers []) ]
  ∧ filter (λ x, (2 ≤ x.1)%Z)
      (Plain.inbox Plain.MAX_MESSAGES "s1" scenario_untrimmed Plain.initial)
    = [].
Proof. split_and!; by vm_compute. Qed.

(** C9. On the plain server a [joinRoom] whose [username] is a non-empty
    string of white space only, with any non-empty [room], passes the check,
    registers an identity whose [username] is the empty string, and emits
    the welcome, the join notice, the history and the online users as every
    join does. *)
Theorem whitespace_username_registers_empty_name
    (capacity : nat) (socketId username room : string) (o : Oracle)
    (w : Plain.World) :
  username ≠ "" → allChars isWhiteSpace username = true → room ≠ "" →
  let user := {| Plain.u_id := uuidv4 o 0; Plain.u_username := "";
                 Plain.u_room := trim room;
                 Plain.u_socketId := socketId |} in
  let st1 := (Plain.addUser (uuidv4 o 0) "" (trim room) socketId
                (Plain.storage w)).2 in
  Plain.handle capacity socketId
    (Plain.JoinRoom (JStr username) (JStr room)) o w
  = ({| Plain.storage := st1;
        Plain.adapter := sio_join socketId room (Plain.adapter w) |},
     [ Emit (ToSocket socketId)
         (Plain.EvMessage (Plain.systemMessage (uuidv4 o 1)
            ("Welcome to " +:+ room +:+ ", " +:+ username +:+ "!")
            (now o 0)));
       Emit (ToRoomExcept room socketId)
         (Plain.EvMessage (Plain.systemMessage (uuidv4 o 2)
            (username +:+ " has joined the chat") (now o 1)));
       Emit (ToSocket socketId)
         (Plain.EvRoomHistory (Plain.getRoomMessages room st1));
       Emit (ToRoom room)
         (Plain.EvOnlineUsers (Plain.getUsersInRoom room st1)) ])
  ∧ Plain.users st1 !! uuidv4 o 0 = Some user
  ∧ Plain.getUserBySocketId socketId st1
    = (if String.eqb (uuidv4 o 0) "" then None else Some user).
Proof.
  intros Hne Hws Hroom user st1. split_and!.
  - simpl. rewrite plain_join_emits by done.
    by rewrite (trim_whitespace _ Hws).
  - apply plain_addUser_registered.
  - unfold Plain.getUserBySocketId. subst st1. simpl.
    rewrite lookup_insert_eq. by rewrite lookup_insert_eq.
Qed.

(** A user name of three blanks. *)
Lemma whitespace_username_registers_empty_name_witness :
  Plain.users
    (Plain.addUser "u1" "" "general" "s1" (Plain.storage Plain.initial)).2
    !! "u1"
  = Some {| Plain.u_id := "u1"; Plain.u_username := "";
            Plain.u_room := "general"; Plain.u_socketId := "s1" |}.
Proof.
  apply (whitespace_username_registers_empty_name Plain.MAX_MESSAGES
           "s1" "   " "general" (oracle ["u1"; "m1"; "m2"] "t0")
           Plain.initial).
  - discriminate.
  - reflexivity.
  - discriminate.
Defined.

(** ** A ['typing'] from a session without identity

    A ['typing'] that carries a payload, whatever its field [isTyping],
    from a session that resolves to no identity changes nothing and emits
    nothing on either server, where a [sendMessage] with a payload in the
    same condition is answered by an ['error']. *)
Lemma typing_with_payload_is_dropped_without_identity :
  (∀ capacity socketId isTyping o w,
     Plain.getUserBySocketId socketId (Plain.storage w) = None →
     Plain.handle capacity socketId (Plain.Typing isTyping) o w = (w, []))
  ∧ (∀ xss capacity socketId clientIP isTyping o w,
       Secure.getUserBySocketId socketId (Secure.storage w) = None →
       Secure.handle xss capacity socketId clientIP
         (Secure.Typing isTyping) o w = (w, []))
  ∧ (∀ capacity socketId message o w,
       Plain.getUserBySocketId socketId (Plain.storage w) = None →
       (Plain.handle capacity socketId (Plain.SendMessage message) o w).2
       = [Emit (ToSocket socketId) (Plain.EvError "User not found")]).
Proof.
  split_and!.
  - intros capacity socketId isTyping o w Hget. simpl.
    unfold Plain.onTyping. by rewrite Hget.
  - intros xss capacity socketId clientIP isTyping o w Hget. simpl.
    unfold Secure.onTyping. by rewrite Hget.
  - intros capacity socketId message o w Hget. simpl.
    unfold Plain.onSendMessage. by rewrite Hget.
Qed.

(** A socket that never joined signals that it types. *)
Lemma typing_with_payload_after_scenarioD :
  Plain.handle Plain.MAX_MESSAGES "s9" (Plain.Typing (JBool true))
    (oracle [] "t9") (Plain.run Plain.MAX_MESSAGES scenarioD Plain.initial)
  = (Plain.run Plain.MAX_MESSAGES scenarioD Plain.initial, []).
Proof.
  apply (proj1 typing_with_payload_is_dropped_without_identity).
  by vm_compute.
Qed.

(** C10, at the input where the code departs from it.  A socket that has
    not joined emits ['typing'] with no payload.  On both servers the
    handler throws while it takes [isTyping] out of the payload, before its
    [try] and before it looks the session up: the event is not dropped in
    silence, the exception leaves the handler uncaught.  The ['sendMessage']
    the claim contrasts it with does the same without payload, and emits no
    ['error']. *)
Theorem typing_without_payload_is_not_dropped :
  let w := Plain.run Plain.MAX_MESSAGES scenarioD Plain.initial in
  let ws := Secure.run (λ s, s) Secure.MAX_MESSAGES scenarioD_secure
              Secure.initial in
  Plain.getUserBySocketId "s9" (Plain.storage w) = None
  ∧ Plain.handle Plain.MAX_MESSAGES "s9"
      (Plain.WithoutPayload NameTyping) (oracle [] "t9") w
    = (w, [Uncaught])
  ∧ Plain.handle Plain.MAX_MESSAGES "s9"
      (Plain.WithoutPayload NameTyping) (oracle [] "t9") w
    ≠ (w, [])
  ∧ Secure.getUserBySocketId "s9" (Secure.storage ws) = None
  ∧ Secure.handle (λ s, s) Secure.MAX_MESSAGES "s9" "10.0.0.9"
      (Secure.WithoutPayload NameTyping) (oracle [] "t9") ws
    = (ws, [Uncaught])
  ∧ (Plain.handle Plain.MAX_MESSAGES "s9"
       (Plain.WithoutPayload NameSendMessage) (oracle ["m9"] "t9") w).2
    ≠ [Emit (ToSocket "s9") (Plain.EvError "User not found")].
Proof.
  intros w ws. split_and!; by vm_compute.
Qed.

(** * Further properties of the code *)

(** ** Reversing and trimming strings *)

Lemma string_app_cons c s1 s2 : String c s1 +:+ s2 = String c (s1 +:+ s2).
Proof. done. Qed.

Lemma string_app_empty_r s : s +:+ "" = s.
Proof.
  induction s as [|c s IH]; [done|]. by rewrite string_app_cons, IH.
Qed.

Lemma string_app_assoc s1 s2 s3 : (s1 +:+ s2) +:+ s3 = s1 +:+ (s2 +:+ s3).
Proof.
  induction s1 as [|c s1 IH]; [done|]. by rewrite !string_app_cons, IH.
Qed.

Lemma rev_app_rev_app s1 s2 s3 :
  String.rev_app (String.rev_app s1 s2) s3 = String.rev_app s2 (s1 +:+ s3).
Proof.
  revert s2 s3. induction s1 as [|c s1 IH]; intros s2 s3; [done|].
  simpl. by rewrite IH.
Qed.

Lemma string_rev_involutive s : String.rev (String.rev s) = s.
Proof.
  unfold String.rev. rewrite rev_app_rev_app. simpl.
  apply string_app_empty_r.
Qed.

Lemma rev_app_app s1 s2 : String.rev_app s1 s2 = String.rev s1 +:+ s2.
Proof.
  unfold String.rev. revert s2.
  induction s1 as [|c s1 IH]; intros s2; [done|]. simpl.
  rewrite IH, (IH (String c "")). by rewrite string_app_assoc.
Qed.

Lemma string_rev_app s1 s2 :
  String.rev (s1 +:+ s2) = String.rev s2 +:+ String.rev s1.
Proof.
  induction s1 as [|c s1 IH].
  - by rewrite string_app_empty_r.
  - rewrite string_app_cons. unfold String.rev at 1 3. simpl.
    rewrite !(rev_app_app _ (String c "")), IH.
    by rewrite string_app_assoc.
Qed.

Lemma trimStart_idempotent s : trimStart (trimStart s) = trimStart s.
Proof.
  induction s as [|c s IH]; simpl; [done|].
  destruct (isWhiteSpace c) eqn:Hc; [done|]. simpl. by rewrite Hc.
Qed.

(** [trimStart] drops a prefix of white space. *)
Lemma trimStart_split s :
  ∃ blank, allChars isWhiteSpace blank = true ∧ s = blank +:+ trimStart s.
Proof.
  induction s as [|c s (blank & Hblank & IH)]; simpl.
  - by exists "".
  - destruct (isWhiteSpace c) eqn:Hc.
    + exists (String c blank). simpl. rewrite Hc, Hblank. split; [done|].
      by rewrite string_app_cons, <- IH.
    + by exists "".
Qed.

Lemma trimStart_startsClean s : startsClean (trimStart s).
Proof.
  induction s as [|c s IH]; simpl; [done|].
  by destruct (isWhiteSpace c) eqn:Hc.
Qed.

Lemma startsClean_trimStart s : startsClean s → trimStart s = s.
Proof. destruct s as [|c s]; simpl; [done|]. by intros ->. Qed.

Lemma startsClean_prefix s1 s2 :
  startsClean (s1 +:+ s2) → s1 ≠ "" → startsClean s1.
Proof. by destruct s1. Qed.

Lemma rev_blank blank :
  allChars isWhiteSpace blank = true →
  allChars isWhiteSpace (String.rev blank) = true.
Proof.
  assert (∀ s1 s2, allChars isWhiteSpace (s1 +:+ s2)
                   = allChars isWhiteSpace s1 && allChars isWhiteSpace s2)
    as Happ.
  { intros s1 s2. induction s1 as [|c s1 IH]; [done|].
    rewrite string_app_cons. simpl. by rewrite IH, andb_assoc. }
  induction blank as [|c blank IH]; simpl; [done|].
  intros [Hc Hb]%andb_prop. unfold String.rev. simpl.
  rewrite rev_app_app, Happ, IH by done. simpl. by rewrite Hc.
Qed.

(** Trimming what is trimmed changes nothing. *)
Lemma trim_idempotent s : trim (trim s) = trim s.
Proof.
  unfold trim, trimEnd.
  set (a := trimStart s).
  destruct (trimStart_split (String.rev a)) as (blank & Hblank & Hsplit).
  set (t := trimStart (String.rev a)) in *.
  assert (a = String.rev t +:+ String.rev blank) as Ha.
  { rewrite <- string_rev_app, <- Hsplit. by rewrite string_rev_involutive. }
  assert (trimStart (String.rev t) = String.rev t) as Hclean.
  { apply startsClean_trimStart.
    destruct (decide (String.rev t = "")) as [->|Hne]; [done|].
    apply (startsClean_prefix _ (String.rev blank)); [|done].
    rewrite <- Ha. apply trimStart_startsClean. }
  rewrite Hclean, string_rev_involutive. subst t.
  by rewrite trimStart_idempotent.
Qed.

Lemma trim_empty : trim "" = "".
Proof. done. Qed.

(** ** What an event does to the storage of the plain server *)

Section PlainSteps.
Import Plain PlainInvariants.
Variable capacity : nat.

(** Every event leaves the storage alone or applies one [StorageUtils]
    function to it. *)
Lemma plain_handle_storage socketId e o w :
  let st := storage w in
  let st' := storage (handle capacity socketId e o w).1 in
  st' = st
  ∨ (∃ username room,
       e = JoinRoom (JStr username) (JStr room) ∧ username ≠ "" ∧ room ≠ ""
       ∧ st' = (addUser (uuidv4 o 0) (trim username) (trim room) socketId
                  st).2)
  ∨ (∃ user text,
       e = SendMessage (JStr text) ∧ trim text ≠ ""
       ∧ getUserBySocketId socketId st = Some user
       ∧ st' = addMessage capacity (u_room user)
                 {| m_id := uuidv4 o 0; m_username := u_username user;
                    m_message := trim text; m_timestamp := now o 0;
                    m_type := user_msg |} st)
  ∨ (∃ user isTyping,
       e = Typing isTyping ∧ getUserBySocketId socketId st = Some user
       ∧ st' = (setTyping (u_id user) (u_room user) (truthy isTyping) st).2)
  ∨ ((e = Disconnect ∨ e = LeaveRoom) ∧ st' = (removeUser socketId st).2).
Proof.
  destruct e as [username room|message|isTyping| | |evName]; simpl.
  - unfold onJoinRoom.
    destruct (negb (truthy username) || negb (truthy room)) eqn:Hv;
      [by left|].
    destruct username as [| | | |username|]; try by left.
    destruct room as [| | | |room|]; try by left.
    right. left. exists username, room. simpl in Hv.
    apply orb_false_elim in Hv as [Hu Hr].
    destruct (String.eqb_spec username ""); [done|].
    destruct (String.eqb_spec room ""); done.
  - unfold onSendMessage.
    destruct (getUserBySocketId socketId (storage w)) as [user|] eqn:Hget;
      [|by left].
    destruct (negb (truthy message)); [by left|].
    destruct message as [| | | |text|]; try by left.
    destruct (String.eqb_spec (trim text) ""); [by left|].
    right. right. left. by exists user, text.
  - unfold onTyping.
    destruct (getUserBySocketId socketId (storage w)) as [user|] eqn:Hget;
      [|by left].
    right. right. right. left. by exists user, isTyping.
  - unfold onDisconnect. right. right. right. right.
    split; [by left|].
    by destruct (removeUser socketId (storage w)) as [[user|] st1].
  - unfold onLeaveRoom. right. right. right. right.
    split; [by right|].
    by destruct (removeUser socketId (storage w)) as [[user|] st1].
  - by left.
Qed.

(** ** Members and identities *)

Lemma addUser_rooms_lookup userId username room socketId st name :
  rooms (addUser userId username room socketId st).2 !! name
  = if decide (room = name)
    then Some {| r_users :=
                   set_add userId
                     (default [] (r_users <$> rooms st !! room));
                 r_messages :=
                   default [] (r_messages <$> rooms st !! room) |}
    else rooms st !! name.
Proof.
  simpl. rewrite lookup_alter. case_decide as Heq; [subst name|].
  - destruct (rooms st !! room) as [r|] eqn:Hr.
    + by rewrite Hr.
    + by rewrite lookup_insert_eq.
  - destruct (rooms st !! room); [done|]. by rewrite lookup_insert_ne.
Qed.

(** What [removeUser] leaves when the session resolves to an identity whose
    room exists. *)
Lemma removeUser_storage socketId st userId user room :
  sockets st !! socketId = Some userId → userId ≠ "" →
  users st !! userId = Some user → rooms st !! u_room user = Some room →
  (removeUser socketId st).2
  = {| users := delete userId (users st);
       rooms := <[u_room user :=
                   {| r_users := set_delete userId (r_users room);
                      r_messages := r_messages room |}]> (rooms st);
       sockets := delete socketId (sockets st);
       typingUsers :=
         match typingUsers st !! u_room user with
         | Some typingInRoom =>
             <[u_room user := set_delete userId typingInRoom]>
               (typingUsers st)
         | None => typingUsers st
         end |}.
Proof.
  intros Hs Hne Hu Hr. unfold removeUser. rewrite Hs.
  destruct (String.eqb_spec userId ""); [done|]. by rewrite Hu, Hr.
Qed.

(** [removeUser] changes the storage only when the session resolves. *)
Lemma removeUser_cases socketId st :
  (removeUser socketId st).2 = st
  ∨ ∃ userId user, sockets st !! socketId = Some userId ∧ userId ≠ ""
                   ∧ users st !! userId = Some user.
Proof.
  unfold removeUser.
  destruct (sockets st !! socketId) as [userId|]; [|by left].
  destruct (String.eqb_spec userId ""); [by left|].
  destruct (users st !! userId) as [user|] eqn:Hu; [|by left].
  right. by exists userId, user.
Qed.

Lemma NoDup_set_add x s : NoDup s → NoDup (set_add x s).
Proof.
  intros Hs. unfold set_add. case_decide as Hin; [done|].
  apply NoDup_app. split_and!; [done| |apply NoDup_singleton].
  intros y Hy ->%list_elem_of_singleton. done.
Qed.

Lemma NoDup_set_delete x s : NoDup s → NoDup (set_delete x s).
Proof. apply NoDup_filter. Qed.

Lemma set_delete_absent_id x s : x ∉ s → set_delete x s = s.
Proof.
  intros Hx. unfold set_delete. induction s as [|y s IH]; [done|].
  rewrite filter_cons. apply not_elem_of_cons in Hx as [Hne Hx].
  rewrite decide_True by done. by rewrite IH.
Qed.

Lemma set_delete_add x s : x ∉ s → set_delete x (set_add x s) = s.
Proof.
  intros Hx. unfold set_add. rewrite decide_False by done.
  unfold set_delete. rewrite filter_app, filter_cons, filter_nil.
  rewrite decide_False by tauto. rewrite app_nil_r.
  by apply set_delete_absent_id.
Qed.

Lemma set_add_idempotent x s : set_add x (set_add x s) = set_add x s.
Proof.
  unfold set_add at 1. rewrite decide_True; [done|].
  apply elem_of_set_add. by left.
Qed.

End PlainSteps.

Section PlainInvariantProofs.
Import Plain PlainInvariants.
Variable capacity : nat.

Lemma addMessage_rooms_after roomName message st name r :
  rooms st !! name = Some r →
  ∃ r', rooms (addMessage capacity roomName message st) !! name = Some r'
        ∧ r_users r' = r_users r.
Proof.
  intros Hn. unfold addMessage.
  destruct (rooms st !! roomName) as [room|] eqn:Hr; [|by exists r].
  simpl. rewrite lookup_insert. case_decide; [subst name|by exists r].
  rewrite Hn in Hr. injection Hr as <-. by eexists.
Qed.

Lemma addMessage_rooms_before roomName message st name r' :
  rooms (addMessage capacity roomName message st) !! name = Some r' →
  ∃ r, rooms st !! name = Some r ∧ r_users r' = r_users r.
Proof.
  unfold addMessage.
  destruct (rooms st !! roomName) as [room|] eqn:Hr; [|by exists r'].
  simpl. rewrite lookup_insert. case_decide; [subst name|by exists r'].
  intros [= <-]. by exists room.
Qed.

Lemma plain_handle_registered_are_members socketId e o w :
  rooms_exist (storage w) →
  registered_are_members (storage w) →
  registered_are_members (storage (handle capacity socketId e o w).1).
Proof.
  intros Hexist Hok.
  destruct (plain_handle_storage capacity socketId e o w)
    as [->|[(username & room & _ & _ & _ & ->)
       |[(user & text & _ & _ & _ & ->)
       |[(user & isTyping & _ & _ & ->)|[_ ->]]]]]; [done| | |done|].
  - intros userId u. rewrite addUser_rooms_lookup. simpl.
    rewrite lookup_insert. case_decide as Heq.
    + intros [= <-]. simpl. rewrite decide_True by done.
      eexists. split; [done|]. simpl. apply elem_of_set_add. by left.
    + intros Hu. destruct (Hok _ _ Hu) as (r & Hr & Hin).
      case_decide as Heq2.
      * eexists. split; [done|]. simpl. rewrite Heq2, Hr. simpl.
        apply elem_of_set_add. by right.
      * by exists r.
  - intros userId u Hu.
    destruct (plain_addMessage_registry capacity (u_room user)
      {| m_id := uuidv4 o 0; m_username := u_username user;
         m_message := trim text; m_timestamp := now o 0; m_type := user_msg |}
      (storage w)) as (Husers & _ & _).
    rewrite Husers in Hu. destruct (Hok _ _ Hu) as (r & Hr & Hin).
    destruct (addMessage_rooms_after (u_room user)
      {| m_id := uuidv4 o 0; m_username := u_username user;
         m_message := trim text; m_timestamp := now o 0; m_type := user_msg |}
      _ _ _ Hr) as (r' & Hr' & Heq).
    exists r'. by rewrite Heq.
  - destruct (removeUser_cases socketId (storage w))
      as [->|(userId0 & user0 & Hs & Hne & Hu0)]; [done|].
    destruct (Hexist _ _ Hu0) as [room0 Hr0].
    rewrite (removeUser_storage _ _ _ _ _ Hs Hne Hu0 Hr0).
    intros userId u. simpl. rewrite lookup_delete.
    case_decide as Heq; [done|]. intros Hu.
    destruct (Hok _ _ Hu) as (r & Hr & Hin).
    rewrite lookup_insert. case_decide as Heq2.
    + eexists. split; [done|]. simpl. rewrite Heq2, Hr in Hr0.
      injection Hr0 as <-. apply elem_of_set_delete. by split.
    + by exists r.
Qed.

Lemma plain_reachable_registered_are_members w :
  reachable capacity w → registered_are_members (storage w).
Proof.
  induction 1 as [|w socketId e o Hw IH].
  - intros userId user. simpl. by rewrite lookup_empty.
  - apply plain_handle_registered_are_members; [|done].
    by apply (plain_reachable_rooms_exist capacity).
Qed.

Lemma plain_handle_sets_nodup socketId e o w :
  rooms_exist (storage w) →
  sets_nodup (storage w) →
  sets_nodup (storage (handle capacity socketId e o w).1).
Proof.
  intros Hexist [Hrooms Htyping].
  destruct (plain_handle_storage capacity socketId e o w)
    as [->|[(username & room & _ & _ & _ & ->)
       |[(user & text & _ & _ & _ & ->)
       |[(user & isTyping & _ & _ & ->)|[_ ->]]]]]; [done| | | |].
  - split; [|done]. intros name r. rewrite addUser_rooms_lookup.
    case_decide; [|apply Hrooms]. intros [= <-]. simpl.
    apply NoDup_set_add.
    destruct (rooms (storage w) !! trim room) as [r0|] eqn:Hr0; simpl.
    + by eapply Hrooms.
    + constructor.
  - split.
    + intros name r Hr.
      destruct (addMessage_rooms_before _ _ _ _ _ Hr) as (r0 & Hr0 & ->).
      by eapply Hrooms.
    + unfold addMessage. by destruct (rooms (storage w) !! u_room user).
  - split; [done|]. intros name t. simpl. rewrite lookup_alter.
    case_decide as Heq; [subst name|].
    + destruct (typingUsers (storage w) !! u_room user) as [t0|] eqn:Ht0.
      * rewrite Ht0. simpl. intros [= <-].
        destruct (truthy isTyping);
          [apply NoDup_set_add|apply NoDup_set_delete]; by eapply Htyping.
      * rewrite lookup_insert_eq. simpl. intros [= <-].
        destruct (truthy isTyping);
          [apply NoDup_set_add|apply NoDup_set_delete]; constructor.
    + destruct (typingUsers (storage w) !! u_room user);
        [|rewrite lookup_insert_ne by done]; apply Htyping.
  - destruct (removeUser_cases socketId (storage w))
      as [->|(userId0 & user0 & Hs & Hne & Hu0)]; [done|].
    destruct (Hexist _ _ Hu0) as [room0 Hr0].
    rewrite (removeUser_storage _ _ _ _ _ Hs Hne Hu0 Hr0). split; simpl.
    + intros name r. rewrite lookup_insert. case_decide; [|apply Hrooms].
      intros [= <-]. simpl. apply NoDup_set_delete. by eapply Hrooms.
    + intros name t.
      destruct (typingUsers (storage w) !! u_room user0) as [t0|] eqn:Ht0;
        [|apply Htyping].
      rewrite lookup_insert. case_decide; [|apply Htyping].
      intros [= <-]. apply NoDup_set_delete. by eapply Htyping.
Qed.

Lemma plain_reachable_sets_nodup w :
  reachable capacity w → sets_nodup (storage w).
Proof.
  induction 1 as [|w socketId e o Hw IH].
  - split; intros ? ?; simpl; by rewrite lookup_empty.
  - apply plain_handle_sets_nodup; [|done].
    by apply (plain_reachable_rooms_exist capacity).
Qed.

Lemma plain_handle_members_registered socketId e o w :
  rooms_exist (storage w) → fresh_userId e o (storage w) →
  members_registered (storage w) →
  members_registered (storage (handle capacity socketId e o w).1).
Proof.
  intros Hexist Hfresh Hok.
  destruct (plain_handle_storage capacity socketId e o w)
    as [->|[(username & room & -> & _ & _ & ->)
       |[(user & text & _ & _ & _ & ->)
       |[(user & isTyping & _ & _ & ->)|[_ ->]]]]]; [done| | |done|].
  - destruct Hfresh as [_ Hnone].
    intros name r userId. rewrite addUser_rooms_lookup. simpl.
    assert (∀ r0, rooms (storage w) !! name = Some r0 → userId ∈ r_users r0 →
      ∃ u, <[uuidv4 o 0 := {| u_id := uuidv4 o 0; u_username := trim username;
                               u_room := trim room; u_socketId := socketId |}]>
             (users (storage w)) !! userId = Some u ∧ u_room u = name)
      as Hold.
    { intros r0 Hr0 Hin. destruct (Hok _ _ _ Hr0 Hin) as (u & Hu & Hroom).
      exists u. split; [|done]. rewrite lookup_insert_ne; [done|].
      intros <-. by rewrite Hnone in Hu. }
    case_decide as Heq; [subst name|by apply Hold].
    intros [= <-]. simpl. intros [->|Hin]%elem_of_set_add.
    + eexists. by rewrite lookup_insert_eq.
    + destruct (rooms (storage w) !! trim room) as [r0|] eqn:Hr0;
        simpl in Hin; [by eapply Hold|by apply elem_of_nil in Hin].
  - intros name r userId Hr Hin.
    destruct (plain_addMessage_registry capacity (u_room user)
      {| m_id := uuidv4 o 0; m_username := u_username user;
         m_message := trim text; m_timestamp := now o 0; m_type := user_msg |}
      (storage w)) as (-> & _ & _).
    destruct (addMessage_rooms_before _ _ _ _ _ Hr) as (r0 & Hr0 & Heq).
    rewrite Heq in Hin. by eapply Hok.
  - destruct (removeUser_cases socketId (storage w))
      as [->|(userId0 & user0 & Hs & Hne & Hu0)]; [done|].
    destruct (Hexist _ _ Hu0) as [room0 Hr0].
    rewrite (removeUser_storage _ _ _ _ _ Hs Hne Hu0 Hr0).
    intros name r userId. simpl. rewrite lookup_insert.
    case_decide as Heq.
    + subst name. intros [= <-]. simpl.
      intros [Hin Hne']%elem_of_set_delete.
      destruct (Hok _ _ _ Hr0 Hin) as (u & Hu & Hroom).
      exists u. by rewrite lookup_delete_ne.
    + intros Hr Hin. destruct (Hok _ _ _ Hr Hin) as (u & Hu & Hroom).
      exists u. split; [|done]. rewrite lookup_delete_ne; [done|].
      intros <-. rewrite Hu0 in Hu. injection Hu as <-. done.
Qed.

Lemma plain_reachable_members_registered w :
  reachable_fresh capacity w → members_registered (storage w).
Proof.
  induction 1 as [|w socketId e o Hw IH Hfresh].
  - intros name room userId. simpl. by rewrite lookup_empty.
  - apply plain_handle_members_registered; [|done|done].
    by apply (plain_reachable_rooms_exist capacity),
      reachable_fresh_reachable.
Qed.

Lemma plain_handle_typing_registered socketId e o w :
  ids_ok (storage w) → rooms_exist (storage w) →
  fresh_userId e o (storage w) →
  typing_registered (storage w) →
  typing_registered (storage (handle capacity socketId e o w).1).
Proof.
  intros Hids Hexist Hfresh Hok.
  destruct (plain_handle_storage capacity socketId e o w)
    as [->|[(username & room & -> & _ & _ & ->)
       |[(user & text & _ & _ & _ & ->)
       |[(user & isTyping & _ & Hget & ->)|[_ ->]]]]]; [done| | | |].
  - destruct Hfresh as [_ Hnone]. intros name userId Hin.
    destruct (Hok name userId Hin) as (u & Hu & Hroom).
    exists u. split; [|done]. simpl. rewrite lookup_insert_ne; [done|].
    intros <-. by rewrite Hnone in Hu.
  - intros name userId. unfold isTypingIn.
    destruct (plain_addMessage_registry capacity (u_room user)
      {| m_id := uuidv4 o 0; m_username := u_username user;
         m_message := trim text; m_timestamp := now o 0; m_type := user_msg |}
      (storage w)) as (-> & _ & ->).
    apply Hok.
  - intros name userId. unfold isTypingIn. rewrite setTyping_lookup.
    simpl users. apply getUserBySocketId_Some in Hget
      as (userId0 & _ & _ & Hu0).
    pose proof (Hids _ _ Hu0) as <-.
    case_decide as Heq; [subst name|apply Hok].
    destruct (truthy isTyping).
    + intros [->|Hin]%elem_of_set_add; [by exists user|by apply Hok].
    + intros [Hin _]%elem_of_set_delete. by apply Hok.
  - destruct (removeUser_cases socketId (storage w))
      as [->|(userId0 & user0 & Hs & Hne & Hu0)]; [done|].
    destruct (Hexist _ _ Hu0) as [room0 Hr0].
    rewrite (removeUser_storage _ _ _ _ _ Hs Hne Hu0 Hr0).
    intros name userId. unfold isTypingIn. simpl. intros Hin.
    assert (isTypingIn userId name (storage w) ∧
            (name = u_room user0 → userId ≠ userId0)) as [Hin0 Hne'].
    { unfold isTypingIn.
      destruct (typingUsers (storage w) !! u_room user0) as [t0|] eqn:Ht0.
      - rewrite lookup_insert in Hin. case_decide as Heq.
        + subst name. rewrite Ht0. simpl in *.
          by apply elem_of_set_delete in Hin as [? ?].
        + split; [done|]. by intros ->.
      - split; [done|]. intros ->. rewrite Ht0 in Hin. simpl in Hin.
        by apply elem_of_nil in Hin. }
    destruct (Hok _ _ Hin0) as (u & Hu & Hroom).
    exists u. split; [|done]. rewrite lookup_delete_ne; [done|].
    intros <-. rewrite Hu0 in Hu. injection Hu as <-. by apply Hne'.
Qed.

Lemma plain_reachable_typing_registered w :
  reachable_fresh capacity w → typing_registered (storage w).
Proof.
  induction 1 as [|w socketId e o Hw IH Hfresh].
  - intros name userId. unfold isTypingIn. simpl. rewrite lookup_empty.
    simpl. by intros ?%elem_of_nil.
  - pose proof (reachable_fresh_reachable capacity w Hw) as Hr.
    apply plain_handle_typing_registered; [| |done|done].
    + by apply (plain_reachable_ids capacity).
    + by apply (plain_reachable_rooms_exist capacity).
Qed.

End PlainInvariantProofs.

(** ** The online list and the member set *)

Lemma omap_resolved {A B} (f : A → option B) (g : B → A) (l : list A) :
  (∀ x, x ∈ l → ∃ y, f x = Some y ∧ g y = x) → g <$> omap f l = l.
Proof.
  induction l as [|x l IH]; intros Hall; [done|].
  destruct (Hall x) as (y & Hy & Hg); [by left|].
  change (omap f (x :: l))
    with (match f x with Some y => y :: omap f l | None => omap f l end).
  rewrite Hy, fmap_cons, Hg, IH; [done|].
  intros x' Hx'. apply Hall. by right.
Qed.

(** An identity that [omap] finds under an id of the list carries that id
    when every record is stored under its own id. *)
Lemma omap_ids_sublist {B} (f : string → option B) (g : B → string)
    (l : list string) :
  (∀ x y, f x = Some y → g y = x) → g <$> omap f l `sublist_of` l.
Proof.
  intros Hid. induction l as [|x l IH]; [done|].
  change (omap f (x :: l))
    with (match f x with Some y => y :: omap f l | None => omap f l end).
  destruct (f x) as [y|] eqn:Hy.
  - rewrite fmap_cons, (Hid _ _ Hy). by apply sublist_skip.
  - by apply sublist_cons.
Qed.

(** In every reachable world the identity a session resolves to is listed
    among the online users of its room: [getUsersInRoom] of the room of a
    joined user names that user. *)
Theorem joined_user_is_listed_online (capacity : nat) (w : Plain.World)
    (socketId : string) (user : Plain.User) :
  Plain.reachable capacity w →
  Plain.getUserBySocketId socketId (Plain.storage w) = Some user →
  user ∈ Plain.getUsersInRoom (Plain.u_room user) (Plain.storage w).
Proof.
  intros Hw (userId & Hs & Hne & Hu)%getUserBySocketId_Some.
  destruct (plain_reachable_registered_are_members capacity w Hw _ _ Hu)
    as (room & Hr & Hin).
  unfold Plain.getUsersInRoom. rewrite Hr. apply list_elem_of_omap. eauto.
Qed.

Lemma joined_user_is_listed_online_witness :
  J1 ∈ Plain.getUsersInRoom "general"
         (Plain.storage (Plain.run Plain.MAX_MESSAGES scenarioD Plain.initial)).
Proof.
  apply (joined_user_is_listed_online Plain.MAX_MESSAGES
           (Plain.run Plain.MAX_MESSAGES scenarioD Plain.initial) "s1" J1).
  - apply plain_run_reachable, Plain.reachable_initial.
  - by vm_compute.
Defined.

(** When every join draws a fresh id, [getUsersInRoom] drops no member:
    the ids of the list it returns are the member set of the room, in the
    order of joining and without duplicates, and every identity it returns
    is registered for that room. *)
Theorem online_list_is_the_member_set (capacity : nat) (w : Plain.World)
    (name : string) (room : Plain.Room) :
  Plain.reachable_fresh capacity w →
  Plain.rooms (Plain.storage w) !! name = Some room →
  Plain.u_id <$> Plain.getUsersInRoom name (Plain.storage w)
  = Plain.r_users room
  ∧ NoDup (Plain.getUsersInRoom name (Plain.storage w))
  ∧ Forall (λ user, Plain.u_room user = name)
      (Plain.getUsersInRoom name (Plain.storage w)).
Proof.
  intros Hw Hr.
  pose proof (reachable_fresh_reachable capacity w Hw) as Hreach.
  pose proof (plain_reachable_members_registered capacity w Hw) as Hmem.
  pose proof (plain_reachable_ids capacity w Hreach) as Hids.
  destruct (plain_reachable_sets_nodup capacity w Hreach) as [Hnodup _].
  unfold Plain.getUsersInRoom. rewrite Hr.
  assert (Plain.u_id <$>
            omap (λ userId, Plain.users (Plain.storage w) !! userId)
              (Plain.r_users room) = Plain.r_users room) as Hids_eq.
  { apply omap_resolved. intros userId Hin.
    destruct (Hmem _ _ _ Hr Hin) as (u & Hu & _).
    exists u. split; [done|]. by apply Hids. }
  split_and!; [done| |].
  - apply (NoDup_fmap_1 Plain.u_id). rewrite Hids_eq. by eapply Hnodup.
  - apply Forall_forall. intros u (userId & Hin & Hu)%list_elem_of_omap.
    destruct (Hmem _ _ _ Hr Hin) as (u' & Hu' & Hroom). congruence.
Qed.

Lemma online_list_is_the_member_set_witness :
  Plain.u_id <$>
    Plain.getUsersInRoom "general"
      (Plain.storage
         (Plain.run Plain.MAX_MESSAGES scenario_rejoin Plain.initial))
  = ["u1"; "u2"].
Proof.
  apply (online_list_is_the_member_set Plain.MAX_MESSAGES
           (Plain.run Plain.MAX_MESSAGES scenario_rejoin Plain.initial)
           "general" {| Plain.r_users := ["u1"; "u2"];
                        Plain.r_messages := [] |}).
  - apply scenario_rejoin_reachable.
  - by vm_compute.
Defined.

(** When every join draws a fresh id, whoever is in the typing set of a
    room is a registered identity of that room and a member of it. *)
Theorem typing_identity_is_a_member (capacity : nat) (w : Plain.World)
    (userId name : string) :
  Plain.reachable_fresh capacity w →
  Plain.isTypingIn userId name (Plain.storage w) →
  ∃ user room,
    Plain.users (Plain.storage w) !! userId = Some user
    ∧ Plain.u_room user = name
    ∧ Plain.rooms (Plain.storage w) !! name = Some room
    ∧ userId ∈ Plain.r_users room.
Proof.
  intros Hw Hin.
  pose proof (reachable_fresh_reachable capacity w Hw) as Hreach.
  destruct (plain_reachable_typing_registered capacity w Hw _ _ Hin)
    as (user & Hu & Hroom).
  destruct (plain_reachable_registered_are_members capacity w Hreach _ _ Hu)
    as (room & Hr & Hmem).
  exists user, room. by rewrite <- Hroom.
Qed.

Lemma scenarioC_reachable :
  Plain.reachable_fresh Plain.MAX_MESSAGES
    (Plain.run Plain.MAX_MESSAGES (map snd scenarioC) Plain.initial).
Proof.
  apply plain_run_reachable_fresh; [constructor|].
  vm_compute. by repeat split.
Qed.

Lemma typing_identity_is_a_member_witness :
  ∃ user room,
    Plain.users
      (Plain.storage
         (Plain.run Plain.MAX_MESSAGES (map snd scenarioC) Plain.initial))
      !! "u1" = Some user
    ∧ Plain.u_room user = "general"
    ∧ Plain.rooms
        (Plain.storage
           (Plain.run Plain.MAX_MESSAGES (map snd scenarioC) Plain.initial))
        !! "general" = Some room
    ∧ "u1" ∈ Plain.r_users room.
Proof.
  apply (typing_identity_is_a_member Plain.MAX_MESSAGES
           (Plain.run Plain.MAX_MESSAGES (map snd scenarioC) Plain.initial)
           "u1" "general" scenarioC_reachable).
  vm_compute. apply list_elem_of_here.
Defined.

(** ** Rooms are never deleted *)

(** No event deletes a room: a room that exists still exists after every
    event, the leave or disconnect of its last member included, and every
    run keeps it. *)
Theorem rooms_are_never_deleted (capacity : nat) (w : Plain.World)
    (name : string) :
  is_Some (Plain.rooms (Plain.storage w) !! name) →
  (∀ socketId e o,
     is_Some (Plain.rooms
                (Plain.storage (Plain.handle capacity socketId e o w).1)
                !! name))
  ∧ (∀ trace,
       is_Some (Plain.rooms (Plain.storage (Plain.run capacity trace w))
                  !! name)).
Proof.
  assert (∀ w socketId e o,
    is_Some (Plain.rooms (Plain.storage w) !! name) →
    is_Some (Plain.rooms
               (Plain.storage (Plain.handle capacity socketId e o w).1)
               !! name)) as Hstep.
  { clear w. intros w socketId e o [r Hr].
    destruct (plain_handle_storage capacity socketId e o w)
      as [->|[(username & room & _ & _ & _ & ->)
         |[(user & text & _ & _ & _ & ->)
         |[(user & isTyping & _ & _ & ->)|[_ ->]]]]]; [by eexists| | | |].
    - rewrite addUser_rooms_lookup. case_decide; by eexists.
    - destruct (addMessage_rooms_after capacity (Plain.u_room user)
        {| m_id := uuidv4 o 0; m_username := Plain.u_username user;
           m_message := trim text; m_timestamp := now o 0;
           m_type := user_msg |} _ _ _ Hr) as (r' & Hr' & _).
      by eexists.
    - by eexists.
    - unfold Plain.removeUser.
      destruct (Plain.sockets (Plain.storage w) !! socketId) as [userId|];
        [|by eexists].
      destruct (String.eqb userId ""); [by eexists|].
      destruct (Plain.users (Plain.storage w) !! userId) as [user|];
        [|by eexists].
      destruct (Plain.rooms (Plain.storage w) !! Plain.u_room user);
        simpl; [|by eexists].
      rewrite lookup_insert. case_decide; by eexists. }
  intros Hr. split; [intros; by apply Hstep|].
  intros trace. revert w Hr.
  induction trace as [|[[socketId e] o] trace IH]; intros w Hr; [done|].
  simpl. apply IH. by apply Hstep.
Qed.

Lemma rooms_are_never_deleted_witness :
  is_Some (Plain.rooms
             (Plain.storage
                (Plain.handle Plain.MAX_MESSAGES "s1" Plain.LeaveRoom
                   (oracle ["m9"] "t9")
                   (Plain.run Plain.MAX_MESSAGES scenarioD Plain.initial)).1)
             !! "general").
Proof.
  apply (proj1 (rooms_are_never_deleted Plain.MAX_MESSAGES
                  (Plain.run Plain.MAX_MESSAGES scenarioD Plain.initial)
                  "general" ltac:(vm_compute; by eexists))).
Defined.

(** ** The health statistics *)

(** When every join draws a fresh id, the health endpoint never reports
    more connected sockets than users: every session of [sockets] resolves
    to an identity of its own. *)
Theorem health_sockets_at_most_users (capacity : nat) (w : Plain.World) :
  Plain.reachable_fresh capacity w →
  let '(totalUsers, _, connectedSockets) :=
    PlainInvariants.health (Plain.storage w) in
  connectedSockets ≤ totalUsers.
Proof.
  unfold PlainInvariants.health.
  induction 1 as [|w socketId e o Hw IH Hfresh].
  - simpl. by rewrite !map_size_empty.
  - pose proof (plain_reachable_registry capacity w Hw) as Hreg.
    destruct (plain_handle_registry_change capacity socketId e o w)
      as [-> ->|username room ? ? -> -> ->|userId user Hs Hu -> ->].
    + done.
    + destruct Hfresh as [_ Hnone].
      rewrite (map_size_insert_None _ _ _ Hnone), map_size_insert.
      destruct (Plain.sockets (Plain.storage w) !! socketId);
        simpl; lia.
    + rewrite map_size_delete_Some, map_size_delete_Some by by eexists.
      lia.
Qed.

Lemma health_sockets_at_most_users_witness :
  let '(totalUsers, _, connectedSockets) :=
    PlainInvariants.health
      (Plain.storage
         (Plain.run Plain.MAX_MESSAGES scenario_rejoin Plain.initial)) in
  connectedSockets ≤ totalUsers.
Proof.
  apply (health_sockets_at_most_users Plain.MAX_MESSAGES
           (Plain.run Plain.MAX_MESSAGES scenario_rejoin Plain.initial)
           scenario_rejoin_reachable).
Defined.

(** ** Leaving *)




(** ** Who is typing *)




Lemma onTyping_joined socketId isTyping w user :
  Plain.getUserBySocketId socketId (Plain.storage w) = Some user →
  Plain.onTyping socketId isTyping w
  = let result := Plain.setTyping (Plain.u_id user) (Plain.u_room user)
                    (truthy isTyping) (Plain.storage w) in
    ({| Plain.storage := result.2; Plain.adapter := Plain.adapter w |},
     [ Emit (ToRoomExcept (Plain.u_room user) socketId)
         (Plain.EvTyping
            (filter (λ u, Plain.u_id u ≠ Plain.u_id user) result.1)) ]).
Proof. intros Hget. unfold Plain.onTyping. by rewrite Hget. Qed.

Lemma setTyping_idempotent userId roomName isTyping st :
  Plain.setTyping userId roomName isTyping
    (Plain.setTyping userId roomName isTyping st).2
  = Plain.setTyping userId roomName isTyping st.
Proof.
  set (f := if isTyping then set_add userId else set_delete userId).
  assert (∀ t, f (f t) = f t) as Hf.
  { intros t. subst f. destruct isTyping.
    - apply set_add_idempotent.
    - apply set_delete_absent_id, set_delete_absent. }
  unfold Plain.setTyping. cbn [fst snd Plain.typingUsers Plain.users
    Plain.rooms Plain.sockets]. fold f.
  set (typing1 := match Plain.typingUsers st !! roomName with
                  | Some _ => Plain.typingUsers st
                  | None => <[roomName := []]> (Plain.typingUsers st)
                  end).
  assert (is_Some (typing1 !! roomName)) as [t Ht].
  { subst typing1.
    destruct (Plain.typingUsers st !! roomName) eqn:Hl; [by rewrite Hl|].
    rewrite lookup_insert_eq. by eexists. }
  assert (alter f roomName typing1 !! roomName = Some (f t)) as Hl.
  { rewrite lookup_alter, decide_True by done. by rewrite Ht. }
  rewrite Hl.
  assert (alter f roomName (alter f roomName typing1)
          = alter f roomName typing1) as ->; [|by rewrite ?Hl].
  apply alter_id. intros x. rewrite Hl. intros [= <-]. apply Hf.
Qed.

(** A repeated typing signal changes nothing: a second ['typing'] of the
    same truth value leaves the world of the first and emits the same
    list. *)
Theorem repeated_typing_signal_changes_nothing (capacity : nat)
    (w : Plain.World) (socketId : string) (isTyping isTyping' : jsval)
    (o o' : Oracle) (user : Plain.User) :
  Plain.getUserBySocketId socketId (Plain.storage w) = Some user →
  truthy isTyping' = truthy isTyping →
  let first := Plain.handle capacity socketId (Plain.Typing isTyping) o w in
  Plain.handle capacity socketId (Plain.Typing isTyping') o' first.1
  = first.
Proof.
  intros Hget Htruth first. subst first. simpl.
  rewrite (onTyping_joined _ _ _ _ Hget). cbn zeta.
  rewrite (onTyping_joined _ _ _ user) by done.
  cbn zeta. cbn [fst Plain.storage Plain.adapter].
  by rewrite Htruth, setTyping_idempotent.
Qed.

Lemma repeated_typing_signal_changes_nothing_witness :
  Plain.handle Plain.MAX_MESSAGES "s1" (Plain.Typing (JNum 1))
    (oracle [] "t9")
    (Plain.handle Plain.MAX_MESSAGES "s1" (Plain.Typing (JBool true))
       (oracle [] "t8")
       (Plain.run Plain.MAX_MESSAGES scenarioD Plain.initial)).1
  = Plain.handle Plain.MAX_MESSAGES "s1" (Plain.Typing (JBool true))
      (oracle [] "t8") (Plain.run Plain.MAX_MESSAGES scenarioD Plain.initial).
Proof.
  apply (repeated_typing_signal_changes_nothing Plain.MAX_MESSAGES
           (Plain.run Plain.MAX_MESSAGES scenarioD Plain.initial)
           "s1" (JBool true) (JNum 1) (oracle [] "t8") (oracle [] "t9") J1).
  - by vm_compute.
  - reflexivity.
Defined.

(** ** Sending a message *)

Lemma last_kept {A} (capacity : nat) (log : list A) (x : A) :
  1 ≤ capacity →
  last (if capacity <? length (log ++ [x])
        then slice_last capacity (log ++ [x]) else log ++ [x]) = Some x.
Proof.
  intros Hcap. rewrite kept_is_suffix by done.
  rewrite length_app. simpl.
  rewrite drop_app_le by lia. apply last_snoc.
Qed.

(** A message of a joined session whose text is not blank is stored and
    broadcast: the one emit goes to the whole room of the sender and carries
    the trimmed text under the registered name of the sender, and the same
    message is then the newest of the history of that room; nothing else of
    the world changes. *)
Theorem accepted_message_is_logged_and_broadcast (w : Plain.World)
    (socketId text : string) (o : Oracle) (user : Plain.User) :
  Plain.reachable Plain.MAX_MESSAGES w →
  Plain.getUserBySocketId socketId (Plain.storage w) = Some user →
  trim text ≠ "" →
  let result := Plain.handle Plain.MAX_MESSAGES socketId
                  (Plain.SendMessage (JStr text)) o w in
  let messageObj := {| m_id := uuidv4 o 0;
                       m_username := Plain.u_username user;
                       m_message := trim text; m_timestamp := now o 0;
                       m_type := user_msg |} in
  result.2 = [Emit (ToRoom (Plain.u_room user)) (Plain.EvMessage messageObj)]
  ∧ last (Plain.getRoomMessages (Plain.u_room user) (Plain.storage result.1))
    = Some messageObj
  ∧ Plain.adapter result.1 = Plain.adapter w
  ∧ Plain.users (Plain.storage result.1) = Plain.users (Plain.storage w)
  ∧ Plain.sockets (Plain.storage result.1) = Plain.sockets (Plain.storage w)
  ∧ Plain.typingUsers (Plain.storage result.1)
    = Plain.typingUsers (Plain.storage w).
Proof.
  intros Hw Hget Htext result messageObj.
  pose proof Hget as (userId & Hs & Hne & Hu)%getUserBySocketId_Some.
  destruct (plain_reachable_rooms_exist _ w Hw _ _ Hu) as [room Hr].
  subst result. simpl. unfold Plain.onSendMessage. rewrite Hget.
  assert (truthy (JStr text) = true) as ->.
  { apply truthy_JStr. by intros ->. }
  destruct (String.eqb_spec (trim text) ""); [done|].
  cbn [negb fst snd Plain.storage Plain.adapter].
  destruct (plain_addMessage_registry Plain.MAX_MESSAGES (Plain.u_room user)
              messageObj (Plain.storage w)) as (H1 & H2 & H3).
  split_and!; [done| |done|apply H1|apply H2|apply H3].
  unfold Plain.getRoomMessages, Plain.addMessage. rewrite Hr.
  cbn [Plain.rooms]. rewrite lookup_insert_eq. cbn [Plain.r_messages].
  apply last_kept. unfold Plain.MAX_MESSAGES. lia.
Qed.

Lemma accepted_message_is_logged_and_broadcast_witness :
  (Plain.handle Plain.MAX_MESSAGES "s1" (Plain.SendMessage (JStr " hello "))
     (oracle ["m9"] "t9")
     (Plain.run Plain.MAX_MESSAGES scenarioD Plain.initial)).2
  = [Emit (ToRoom "general")
       (Plain.EvMessage {| m_id := "m9"; m_username := "J1";
                           m_message := "hello"; m_timestamp := "t9";
                           m_type := user_msg |})].
Proof.
  apply (accepted_message_is_logged_and_broadcast
           (Plain.run Plain.MAX_MESSAGES scenarioD Plain.initial)
           "s1" " hello " (oracle ["m9"] "t9") J1).
  - apply plain_run_reachable, Plain.reachable_initial.
  - by vm_compute.
  - by vm_compute.
Defined.

(** A message of a joined session that is missing, empty or blank is
    answered by the ['error'] "Message cannot be empty" to the sender alone,
    and a truthy value that is not a string by "Failed to send message"; in
    both cases the world stays as it is. *)
Theorem blank_message_is_refused (capacity : nat) (w : Plain.World)
    (socketId : string) (message : jsval) (o : Oracle) (user : Plain.User) :
  Plain.getUserBySocketId socketId (Plain.storage w) = Some user →
  ((truthy message = false ∨ ∃ text, message = JStr text ∧ trim text = "") →
   Plain.handle capacity socketId (Plain.SendMessage message) o w
   = (w, [Emit (ToSocket socketId)
            (Plain.EvError "Message cannot be empty")]))
  ∧ (truthy message = true → isString message = false →
     Plain.handle capacity socketId (Plain.SendMessage message) o w
     = (w, [Emit (ToSocket socketId)
              (Plain.EvError "Failed to send message")])).
Proof.
  intros Hget. simpl. unfold Plain.onSendMessage. rewrite Hget. split.
  - intros [->|(text & -> & Htrim)]; [done|].
    destruct (negb (truthy (JStr text))); [done|]. by rewrite Htrim.
  - intros -> Hstr. by destruct message.
Qed.

Lemma blank_message_is_refused_witness :
  Plain.handle Plain.MAX_MESSAGES "s1" (Plain.SendMessage (JStr "   "))
    (oracle ["m9"] "t9") (Plain.run Plain.MAX_MESSAGES scenarioD Plain.initial)
  = (Plain.run Plain.MAX_MESSAGES scenarioD Plain.initial,
     [Emit (ToSocket "s1") (Plain.EvError "Message cannot be empty")]).
Proof.
  apply (proj1 (blank_message_is_refused Plain.MAX_MESSAGES
                  (Plain.run Plain.MAX_MESSAGES scenarioD Plain.initial)
                  "s1" (JStr "   ") (oracle ["m9"] "t9") J1
                  ltac:(by vm_compute))).
  right. by exists "   ".
Defined.

(** ** Room names *)

Section PlainNames.
Import Plain PlainInvariants.
Variable capacity : nat.

Lemma plain_handle_names_trimmed socketId e o w :
  names_trimmed (storage w) →
  names_trimmed (storage (handle capacity socketId e o w).1).
Proof.
  intros [Hrooms Husers].
  destruct (plain_handle_storage capacity socketId e o w)
    as [->|[(username & room & _ & _ & _ & ->)
       |[(user & text & _ & _ & _ & ->)
       |[(user & isTyping & _ & _ & ->)|[_ ->]]]]]; [done| | |done|].
  - split.
    + intros name. rewrite addUser_rooms_lookup.
      case_decide as Heq; [subst name|apply Hrooms].
      intros _. apply trim_idempotent.
    + intros userId u. simpl. rewrite lookup_insert. case_decide.
      * intros [= <-]. simpl. by rewrite !trim_idempotent.
      * apply Husers.
  - split.
    + intros name [r' Hr'].
      destruct (addMessage_rooms_before capacity _ _ _ _ _ Hr')
        as (r & Hr & _).
      apply Hrooms. by eexists.
    + intros userId u.
      destruct (plain_addMessage_registry capacity (u_room user)
        {| m_id := uuidv4 o 0; m_username := u_username user;
           m_message := trim text; m_timestamp := now o 0;
           m_type := user_msg |} (storage w)) as (-> & _ & _).
      apply Husers.
  - unfold removeUser.
    destruct (sockets (storage w) !! socketId) as [userId0|]; [|done].
    destruct (String.eqb userId0 ""); [done|].
    destruct (users (storage w) !! userId0) as [user0|] eqn:Hu0; [|done].
    destruct (rooms (storage w) !! u_room user0) as [room0|] eqn:Hr0; simpl.
    + split; simpl.
      * intros name. rewrite lookup_insert. case_decide as Heq.
        -- subst name. intros _. apply Hrooms. by eexists.
        -- apply Hrooms.
      * intros userId u. rewrite lookup_delete. case_decide; [done|].
        apply Husers.
    + split; [done|]. simpl. intros userId u. rewrite lookup_delete.
      case_decide; [done|]. apply Husers.
Qed.

Lemma plain_reachable_names_trimmed w :
  reachable capacity w → names_trimmed (storage w).
Proof.
  induction 1 as [|w socketId e o Hw IH].
  - split.
    + intros name. simpl. rewrite lookup_empty. by intros [? ?].
    + intros userId user. simpl. by rewrite lookup_empty.
  - by apply plain_handle_names_trimmed.
Qed.

End PlainNames.

(** In every reachable world rooms are stored, and identities registered,
    under trimmed names: no room name and no registered user or room name
    starts or ends with white space. *)
Theorem stored_names_are_trimmed (capacity : nat) (w : Plain.World) :
  Plain.reachable capacity w →
  (∀ name, is_Some (Plain.rooms (Plain.storage w) !! name) →
     trim name = name)
  ∧ (∀ socketId user,
       Plain.getUserBySocketId socketId (Plain.storage w) = Some user →
       trim (Plain.u_room user) = Plain.u_room user
       ∧ trim (Plain.u_username user) = Plain.u_username user).
Proof.
  intros Hw.
  destruct (plain_reachable_names_trimmed capacity w Hw) as [Hrooms Husers].
  split; [done|].
  intros socketId user (userId & _ & _ & Hu)%getUserBySocketId_Some.
  by eapply Husers.
Qed.

Lemma stored_names_are_trimmed_witness :
  is_Some (Plain.rooms
             (Plain.storage
                (Plain.world_at Plain.MAX_MESSAGES 2 scenario_untrimmed))
             !! "general")
  ∧ trim "general" = "general".
Proof.
  split; [vm_compute; by eexists|].
  apply (proj1 (stored_names_are_trimmed Plain.MAX_MESSAGES
                  (Plain.world_at Plain.MAX_MESSAGES 2 scenario_untrimmed)
                  (plain_run_reachable _ _ _ (Plain.reachable_initial _)))).
  vm_compute. by eexists.
Defined.

(** A join under a room name that [trim] changes is, in every reachable
    world, sent an empty history and an empty list of online users, whatever
    the room it is registered in holds: the identity is registered in the
    trimmed room, the history and the online users are read from the
    untrimmed name, and no room is stored under such a name. *)
Theorem untrimmed_join_is_sent_empty_lists (capacity : nat) (w : Plain.World)
    (socketId username room : string) (o : Oracle) :
  Plain.reachable capacity w →
  username ≠ "" → room ≠ "" → trim room ≠ room →
  let result := Plain.handle capacity socketId
                  (Plain.JoinRoom (JStr username) (JStr room)) o w in
  result.2
  = [ Emit (ToSocket socketId)
        (Plain.EvMessage (Plain.systemMessage (uuidv4 o 1)
           ("Welcome to " +:+ room +:+ ", " +:+ username +:+ "!")
           (now o 0)));
      Emit (ToRoomExcept room socketId)
        (Plain.EvMessage (Plain.systemMessage (uuidv4 o 2)
           (username +:+ " has joined the chat") (now o 1)));
      Emit (ToSocket socketId) (Plain.EvRoomHistory []);
      Emit (ToRoom room) (Plain.EvOnlineUsers []) ]
  ∧ Plain.users (Plain.storage result.1) !! uuidv4 o 0
    = Some {| Plain.u_id := uuidv4 o 0; Plain.u_username := trim username;
              Plain.u_room := trim room; Plain.u_socketId := socketId |}
  ∧ {| Plain.u_id := uuidv4 o 0; Plain.u_username := trim username;
       Plain.u_room := trim room; Plain.u_socketId := socketId |}
    ∈ Plain.getUsersInRoom (trim room) (Plain.storage result.1).
Proof.
  intros Hw Hu Hr Htrim result.
  assert (Plain.reachable capacity result.1) as Hw' by by constructor.
  destruct (plain_reachable_names_trimmed capacity _ Hw') as [Hrooms _].
  subst result. revert Hrooms. unfold Plain.handle.
  rewrite plain_join_emits by done. cbn zeta.
  cbn [fst snd Plain.storage]. intros Hrooms.
  assert (Plain.rooms
            (Plain.addUser (uuidv4 o 0) (trim username) (trim room) socketId
               (Plain.storage w)).2 !! room = None) as Hnone.
  { apply eq_None_not_Some. intros Hsome. by apply Htrim, Hrooms. }
  split_and!.
  - unfold Plain.getRoomMessages, Plain.getUsersInRoom. by rewrite Hnone.
  - apply plain_addUser_registered.
  - apply plain_addUser_online.
Qed.

Lemma untrimmed_join_is_sent_empty_lists_witness :
  (Plain.handle Plain.MAX_MESSAGES "s2"
     (Plain.JoinRoom (JStr "J2") (JStr " general "))
     (oracle ["u2"; "m4"; "m5"] "t2")
     (Plain.run Plain.MAX_MESSAGES scenarioD Plain.initial)).2
  = [ Emit (ToSocket "s2")
        (Plain.EvMessage
           (Plain.systemMessage "m4" "Welcome to  general , J2!" "t2"));
      Emit (ToRoomExcept " general " "s2")
        (Plain.EvMessage
           (Plain.systemMessage "m5" "J2 has joined the chat" "t2"));
      Emit (ToSocket "s2") (Plain.EvRoomHistory []);
      Emit (ToRoom " general ") (Plain.EvOnlineUsers []) ].
Proof.
  apply (untrimmed_join_is_sent_empty_lists Plain.MAX_MESSAGES
           (Plain.run Plain.MAX_MESSAGES scenarioD Plain.initial)
           "s2" "J2" " general " (oracle ["u2"; "m4"; "m5"] "t2")).
  - apply plain_run_reachable, Plain.reachable_initial.
  - discriminate.
  - discriminate.
  - by vm_compute.
Defined.

(** ** Joining and leaving again *)

(** A session that joins an existing room and leaves it again leaves the
    storage as it found it, when the join drew a fresh id and the session
    was not joined before. *)
Theorem join_then_leave_restores_the_storage (capacity : nat)
    (w : Plain.World) (socketId username room : string) (o o' : Oracle) :
  Plain.reachable_fresh capacity w →
  username ≠ "" → room ≠ "" →
  Plain.fresh_userId (Plain.JoinRoom (JStr username) (JStr room)) o
    (Plain.storage w) →
  Plain.sockets (Plain.storage w) !! socketId = None →
  is_Some (Plain.rooms (Plain.storage w) !! trim room) →
  let joined := Plain.handle capacity socketId
                  (Plain.JoinRoom (JStr username) (JStr room)) o w in
  Plain.storage (Plain.handle capacity socketId Plain.LeaveRoom o' joined.1).1
  = Plain.storage w.
Proof.
  intros Hw Hu Hr [Hne Hfresh] Hsock [r Hroom] joined.
  pose proof (plain_reachable_members_registered capacity w Hw) as Hmem.
  pose proof (plain_reachable_typing_registered capacity w Hw) as Htyp.
  assert (uuidv4 o 0 ∉ Plain.r_users r) as Hnotmem.
  { intros Hin. destruct (Hmem _ _ _ Hroom Hin) as (u & Hlook & _).
    by rewrite Hfresh in Hlook. }
  assert (uuidv4 o 0 ∉ default []
            (Plain.typingUsers (Plain.storage w) !! trim room)) as Hnottyp.
  { intros Hin. destruct (Htyp _ _ Hin) as (u & Hlook & _).
    by rewrite Hfresh in Hlook. }
  subst joined. unfold Plain.handle. rewrite plain_join_emits by done.
  cbn zeta. unfold Plain.onLeaveRoom. cbn [fst Plain.storage].
  set (user := {| Plain.u_id := uuidv4 o 0; Plain.u_username := trim username;
                  Plain.u_room := trim room; Plain.u_socketId := socketId |}).
  set (st1 := (Plain.addUser (uuidv4 o 0) (trim username) (trim room)
                 socketId (Plain.storage w)).2).
  assert (Plain.sockets st1 !! socketId = Some (uuidv4 o 0)) as Hs1
    by (subst st1; simpl; apply lookup_insert_eq).
  assert (Plain.users st1 !! uuidv4 o 0 = Some user) as Hu1
    by (subst st1; simpl; apply lookup_insert_eq).
  assert (Plain.rooms st1 !! trim room
          = Some {| Plain.r_users := set_add (uuidv4 o 0) (Plain.r_users r);
                    Plain.r_messages := Plain.r_messages r |}) as Hr1.
  { subst st1. rewrite addUser_rooms_lookup, decide_True by done.
    by rewrite Hroom. }
  pose proof (removeUser_storage socketId st1 _ user _ Hs1 Hne Hu1 Hr1)
    as Hrm.
  destruct (Plain.removeUser socketId st1) as [[removed|] st2];
    simpl in Hrm |- *; subst st2.
  - destruct (Plain.storage w) as [users0 rooms0 sockets0 typing0] eqn:Hst.
    subst st1. simpl in *. f_equal.
    + by apply delete_insert_id.
    + rewrite set_delete_add by done.
      apply map_eq. intros name. rewrite lookup_insert.
      case_decide as Heq; [subst name|].
      * rewrite Hroom. by destruct r.
      * rewrite lookup_alter, decide_False by done. by rewrite Hroom.
    + by apply delete_insert_id.
    + destruct (typing0 !! trim room) as [t|] eqn:Ht; [|done].
      simpl in Hnottyp. rewrite set_delete_absent_id by done.
      by apply insert_id.
  - destruct (Plain.storage w) as [users0 rooms0 sockets0 typing0] eqn:Hst.
    subst st1. simpl in *. f_equal.
    + by apply delete_insert_id.
    + rewrite set_delete_add by done.
      apply map_eq. intros name. rewrite lookup_insert.
      case_decide as Heq; [subst name|].
      * rewrite Hroom. by destruct r.
      * rewrite lookup_alter, decide_False by done. by rewrite Hroom.
    + by apply delete_insert_id.
    + destruct (typing0 !! trim room) as [t|] eqn:Ht; [|done].
      simpl in Hnottyp. rewrite set_delete_absent_id by done.
      by apply insert_id.
Qed.

Lemma join_then_leave_restores_the_storage_witness :
  Plain.storage
    (Plain.handle Plain.MAX_MESSAGES "s2" Plain.LeaveRoom (oracle ["m9"] "t9")
       (Plain.handle Plain.MAX_MESSAGES "s2"
          (Plain.JoinRoom (JStr "J2") (JStr "general"))
          (oracle ["u2"; "m4"; "m5"] "t2")
          (Plain.run Plain.MAX_MESSAGES scenarioD Plain.initial)).1).1
  = Plain.storage (Plain.run Plain.MAX_MESSAGES scenarioD Plain.initial).
Proof.
  apply (join_then_leave_restores_the_storage Plain.MAX_MESSAGES
           (Plain.run Plain.MAX_MESSAGES scenarioD Plain.initial)
           "s2" "J2" "general" (oracle ["u2"; "m4"; "m5"] "t2")
           (oracle ["m9"] "t9")).
  - apply plain_run_reachable_fresh; [constructor|].
    vm_compute. by repeat split.
  - discriminate.
  - discriminate.
  - split; [discriminate|by vm_compute].
  - by vm_compute.
  - vm_compute. by eexists.
Defined.

(** ** Connections per address on the secure server *)

Section SecureConnections.
Import Secure SecureInvariants.
Variable xss : string → string.
Variable capacity : nat.

Lemma removeUser_ipConnections socketId st :
  ipConnections (removeUser socketId st).2 = ipConnections st.
Proof.
  unfold removeUser.
  destruct (sockets st !! socketId) as [userId|]; [|done].
  destruct (String.eqb userId ""); [done|].
  destruct (users st !! userId) as [user|]; [|done].
  by destruct (rooms st !! u_room user).
Qed.

Lemma untrackConnection_counts ip st :
  counts_ok st → counts_ok (untrackConnection ip st).
Proof.
  intros Hok ip' n. simpl.
  destruct (ipConnections st !! ip) as [[|k]|] eqn:Hip; simpl.
  - rewrite lookup_delete. case_decide; [done|apply Hok].
  - destruct k as [|k]; simpl.
    + rewrite lookup_delete. case_decide; [done|apply Hok].
    + rewrite lookup_insert. case_decide; [|apply Hok].
      intros [= <-]. specialize (Hok _ _ Hip). lia.
  - rewrite lookup_delete. case_decide; [done|apply Hok].
Qed.

(** An address at its limit is refused and the storage restored. *)
Lemma onConnection_refused socketId clientIP w n :
  ipConnections (storage w) !! clientIP = Some n →
  MAX_CONNECTIONS_PER_IP ≤ n →
  onConnection socketId clientIP w
  = (w, [ Emit (ToSocket socketId) (EvError "Connection limit exceeded");
          DisconnectSocket socketId ]).
Proof.
  intros Hip Hn.
  destruct n as [|n]; [unfold MAX_CONNECTIONS_PER_IP in Hn; lia|].
  assert ((MAX_CONNECTIONS_PER_IP <? S (S n)) = true) as Hlt
    by (apply Nat.ltb_lt; lia).
  unfold onConnection, trackConnection. rewrite Hip.
  cbn [default]. unfold id. rewrite !Nat.add_1_r, Hlt.
  f_equal. destruct w as [st a]. cbn [storage adapter] in *. f_equal.
  unfold untrackConnection. cbn [ipConnections users rooms sockets
    typingUsers]. rewrite lookup_insert_eq.
  change (S (S n) <=? 1) with false. cbv iota.
  destruct st as [u r s t i]. cbn [ipConnections users rooms sockets
    typingUsers] in *. f_equal.
  rewrite insert_insert_eq. by apply insert_id.
Qed.

(** An address below its limit is counted. *)
Lemma onConnection_accepted socketId clientIP w :
  default 0 (ipConnections (storage w) !! clientIP)
    < MAX_CONNECTIONS_PER_IP →
  onConnection socketId clientIP w
  = ({| storage := (trackConnection clientIP (storage w)).2;
        adapter := adapter w |}, []).
Proof.
  intros Hn. unfold onConnection, trackConnection.
  destruct (Nat.ltb_spec MAX_CONNECTIONS_PER_IP
              (default 0 (ipConnections (storage w) !! clientIP) + 1));
    [lia|done].
Qed.

Lemma secure_handle_counts socketId clientIP e o w :
  counts_ok (storage w) →
  counts_ok (storage (handle xss capacity socketId clientIP e o w).1).
Proof.
  intros Hok. destruct e as [|username room|message|isTyping| | |evName]; simpl.
  - destruct (ipConnections (storage w) !! clientIP) as [n|] eqn:Hip.
    + destruct (decide (MAX_CONNECTIONS_PER_IP ≤ n)).
      * by rewrite (onConnection_refused _ _ _ _ Hip).
      * rewrite onConnection_accepted by (rewrite Hip; simpl; lia).
        intros ip' n'. simpl. rewrite lookup_insert. case_decide; [|apply Hok].
        intros [= <-]. rewrite Hip. specialize (Hok _ _ Hip). simpl. lia.
    + rewrite onConnection_accepted
        by (rewrite Hip; unfold MAX_CONNECTIONS_PER_IP; simpl; lia).
      intros ip' n'. simpl. rewrite lookup_insert. case_decide; [|apply Hok].
      intros [= <-]. rewrite Hip. unfold MAX_CONNECTIONS_PER_IP. simpl. lia.
  - unfold onJoinRoom.
    by destruct (negb (isValidUsername xss username)
                 || negb (isValidRoomName xss room)).
  - unfold onSendMessage.
    destruct (getUserBySocketId socketId (storage w)) as [user|]; [|done].
    destruct (negb (truthy message) || negb (isString message)); [done|].
    destruct (_ || _); [done|].
    simpl. unfold addMessage.
    by destruct (rooms (storage w) !! u_room user).
  - unfold onTyping.
    by destruct (getUserBySocketId socketId (storage w)).
  - unfold onDisconnect.
    pose proof (removeUser_ipConnections socketId (storage w)) as Hrm.
    destruct (removeUser socketId (storage w)) as [[user|] st1];
      simpl in *; apply untrackConnection_counts; intros ip n;
      rewrite Hrm; apply Hok.
  - unfold onLeaveRoom.
    pose proof (removeUser_ipConnections socketId (storage w)) as Hrm.
    destruct (removeUser socketId (storage w)) as [[user|] st1];
      simpl in *; intros ip n; rewrite Hrm; apply Hok.
  - done.
Qed.

Lemma secure_reachable_counts w :
  reachable xss capacity w → counts_ok (storage w).
Proof.
  induction 1 as [|w socketId clientIP e o _ IH].
  - intros ip n. simpl. by rewrite lookup_empty.
  - by apply secure_handle_counts.
Qed.

End SecureConnections.

(** In every world the secure server can reach, an address that is tracked
    is tracked with at least one and at most five connections. *)
Theorem tracked_connections_stay_within_the_limit (xss : string → string)
    (capacity : nat) (w : Secure.World) (ip : string) (n : nat) :
  Secure.reachable xss capacity w →
  Secure.ipConnections (Secure.storage w) !! ip = Some n →
  1 ≤ n ≤ 5.
Proof.
  intros Hw Hip. by apply (secure_reachable_counts xss capacity w Hw ip n).
Qed.

Lemma tracked_connections_stay_within_the_limit_witness :
  Secure.ipConnections
    (Secure.storage
       (Secure.run (λ s, s) Secure.MAX_MESSAGES scenario_six_connections
          Secure.initial)) !! "10.0.0.1" = Some 5
  ∧ 1 ≤ 5 ≤ 5.
Proof.
  split; [by vm_compute|].
  apply (tracked_connections_stay_within_the_limit (λ s, s)
           Secure.MAX_MESSAGES
           (Secure.run (λ s, s) Secure.MAX_MESSAGES scenario_six_connections
              Secure.initial) "10.0.0.1" 5).
  - apply secure_run_reachable, Secure.reachable_initial.
  - by vm_compute.
Defined.

(** A connection from an address that already has five is refused: the
    socket is sent an ['error'] and disconnected and the storage is left as
    it was.  A connection from an address with fewer is counted, and
    nothing is emitted. *)
Theorem sixth_connection_is_refused (socketId clientIP : string)
    (w : Secure.World) :
  let count :=
    default 0 (Secure.ipConnections (Secure.storage w) !! clientIP) in
  (5 ≤ count →
   Secure.onConnection socketId clientIP w
   = (w, [ Emit (ToSocket socketId)
             (Secure.EvError "Connection limit exceeded");
           DisconnectSocket socketId ]))
  ∧ (count < 5 →
     (Secure.onConnection socketId clientIP w).2 = []
     ∧ Secure.ipConnections
         (Secure.storage (Secure.onConnection socketId clientIP w).1)
       = <[clientIP := count + 1]>
           (Secure.ipConnections (Secure.storage w))).
Proof.
  intros count. subst count. split.
  - intros Hn.
    destruct (Secure.ipConnections (Secure.storage w) !! clientIP)
      as [n|] eqn:Hip; simpl in Hn; [|lia].
    by apply (onConnection_refused _ _ _ n).
  - intros Hn. by rewrite onConnection_accepted.
Qed.

Lemma sixth_connection_is_refused_witness :
  Secure.onConnection "s6" "10.0.0.1"
    (Secure.run (λ s, s) Secure.MAX_MESSAGES
       (take 5 scenario_six_connections) Secure.initial)
  = (Secure.run (λ s, s) Secure.MAX_MESSAGES
       (take 5 scenario_six_connections) Secure.initial,
     [ Emit (ToSocket "s6") (Secure.EvError "Connection limit exceeded");
       DisconnectSocket "s6" ]).
Proof.
  apply (proj1 (sixth_connection_is_refused "s6" "10.0.0.1"
                  (Secure.run (λ s, s) Secure.MAX_MESSAGES
                     (take 5 scenario_six_connections) Secure.initial))).
  by vm_compute.
Defined.

(** A socket whose connection is accepted and that disconnects without
    joining leaves the storage of a reachable world as it was: its address
    is counted and uncounted again. *)
Theorem connect_then_disconnect_restores_the_storage
    (xss : string → string) (capacity : nat) (w : Secure.World)
    (socketId clientIP : string) (o o' : Oracle) :
  Secure.reachable xss capacity w →
  Secure.getUserBySocketId socketId (Secure.storage w) = None →
  default 0 (Secure.ipConnections (Secure.storage w) !! clientIP) < 5 →
  Secure.storage
    (Secure.handle xss capacity socketId clientIP Secure.Disconnect o'
       (Secure.handle xss capacity socketId clientIP Secure.Connect o w).1).1
  = Secure.storage w.
Proof.
  intros Hw Hget Hlimit.
  pose proof (secure_reachable_counts xss capacity w Hw) as Hcounts.
  assert (∀ st, Secure.getUserBySocketId socketId st = None →
                Secure.removeUser socketId st = (None, st)) as Hrm.
  { intros st. unfold Secure.getUserBySocketId, Secure.removeUser.
    destruct (Secure.sockets st !! socketId) as [userId|]; [|done].
    destruct (String.eqb userId ""); [done|]. by intros ->. }
  simpl. rewrite onConnection_accepted by done.
  unfold Secure.onDisconnect. cbn [fst Secure.storage Secure.adapter].
  rewrite (Hrm (Secure.trackConnection clientIP (Secure.storage w)).2 Hget).
  cbn [fst Secure.storage].
  destruct (Secure.storage w) as [u r s t i] eqn:Hst.
  unfold Secure.untrackConnection, Secure.trackConnection.
  cbn [snd Secure.ipConnections Secure.users Secure.rooms Secure.sockets
       Secure.typingUsers] in *.
  rewrite lookup_insert_eq. f_equal.
  destruct (i !! clientIP) as [n|] eqn:Hip; cbn [default]; unfold id.
  - assert (1 ≤ n ≤ Secure.MAX_CONNECTIONS_PER_IP) as [Hn1 _].
    { by apply (Hcounts clientIP n). }
    destruct n as [|n]; [lia|]. rewrite !Nat.add_1_r.
    change (S (S n) <=? 1) with false. cbv iota.
    rewrite insert_insert_eq. by apply insert_id.
  - simpl. by apply delete_insert_id.
Qed.

Lemma connect_then_disconnect_restores_the_storage_witness :
  Secure.storage
    (Secure.handle (λ s, s) Secure.MAX_MESSAGES "s9" "10.0.0.1"
       Secure.Disconnect (oracle ["m9"] "t9")
       (Secure.handle (λ s, s) Secure.MAX_MESSAGES "s9" "10.0.0.1"
          Secure.Connect (oracle [] "t8")
          (Secure.run (λ s, s) Secure.MAX_MESSAGES scenarioD_secure
             Secure.initial)).1).1
  = Secure.storage
      (Secure.run (λ s, s) Secure.MAX_MESSAGES scenarioD_secure
         Secure.initial).
Proof.
  apply connect_then_disconnect_restores_the_storage.
  - apply secure_run_reachable, Secure.reachable_initial.
  - by vm_compute.
  - vm_compute. lia.
Defined.

(** ** Joining and sending on the secure server *)

Lemma secure_join_emits xss socketId username room o w :
  Secure.isValidUsername xss username = true →
  Secure.isValidRoomName xss room = true →
  Secure.onJoinRoom xss socketId username room o w
  = let sanitizedUsername := Secure.sanitizeInput xss username in
    let sanitizedRoom := Secure.sanitizeInput xss room in
    let st1 := (Secure.addUser xss (uuidv4 o 0) sanitizedUsername
                  sanitizedRoom socketId (now o 0) (now o 1)
                  (Secure.storage w)).2 in
    ({| Secure.storage := st1;
        Secure.adapter := sio_join socketId sanitizedRoom (Secure.adapter w) |},
     [ Emit (ToSocket socketId)
         (Secure.EvMessage (Secure.systemMessage (uuidv4 o 1)
            ("Welcome to " +:+ sanitizedRoom +:+ ", " +:+ sanitizedUsername
             +:+ "!") (now o 2)));
       Emit (ToRoomExcept sanitizedRoom socketId)
         (Secure.EvMessage (Secure.systemMessage (uuidv4 o 2)
            (sanitizedUsername +:+ " has joined the chat") (now o 3)));
       Emit (ToSocket socketId)
         (Secure.EvRoomHistory (Secure.getRoomMessages sanitizedRoom st1));
       Emit (ToRoom sanitizedRoom)
         (Secure.EvOnlineUsers (Secure.getUsersInRoom sanitizedRoom st1)) ]).
Proof. intros Hu Hr. unfold Secure.onJoinRoom. by rewrite Hu, Hr. Qed.

(** A join that the secure server accepts registers the identity under the
    sanitized room name and reads the history and the online users from that
    same name: the sender is sent the history the room had, and the whole
    room, the sender included, is sent online users that name the new
    identity. *)
Theorem secure_join_reports_the_joiner (xss : string → string)
    (capacity : nat) (socketId clientIP : string) (username room : jsval)
    (o : Oracle) (w : Secure.World) :
  Secure.isValidUsername xss username = true →
  Secure.isValidRoomName xss room = true →
  let sanitizedUsername := Secure.sanitizeInput xss username in
  let sanitizedRoom := Secure.sanitizeInput xss room in
  let user :=
    {| Secure.u_id := uuidv4 o 0;
       Secure.u_username := Secure.sanitizeInput xss (JStr sanitizedUsername);
       Secure.u_room := Secure.sanitizeInput xss (JStr sanitizedRoom);
       Secure.u_socketId := socketId;
       Secure.u_joinTime := now o 0 |} in
  let result := Secure.handle xss capacity socketId clientIP
                  (Secure.JoinRoom username room) o w in
  ∃ onlineUsers,
    result.2
    = [ Emit (ToSocket socketId)
          (Secure.EvMessage (Secure.systemMessage (uuidv4 o 1)
             ("Welcome to " +:+ sanitizedRoom +:+ ", " +:+ sanitizedUsername
              +:+ "!") (now o 2)));
        Emit (ToRoomExcept sanitizedRoom socketId)
          (Secure.EvMessage (Secure.systemMessage (uuidv4 o 2)
             (sanitizedUsername +:+ " has joined the chat") (now o 3)));
        Emit (ToSocket socketId)
          (Secure.EvRoomHistory
             (Secure.getRoomMessages sanitizedRoom (Secure.storage w)));
        Emit (ToRoom sanitizedRoom) (Secure.EvOnlineUsers onlineUsers) ]
    ∧ user ∈ onlineUsers
    ∧ delivered (Secure.adapter result.1) (ToRoom sanitizedRoom) socketId
      = true
    ∧ Secure.users (Secure.storage result.1) !! uuidv4 o 0 = Some user.
Proof.
  intros Hu Hr sanitizedUsername sanitizedRoom user result.
  subst result. unfold Secure.handle. rewrite secure_join_emits by done.
  cbn zeta. cbn [fst snd Secure.storage Secure.adapter].
  fold sanitizedUsername sanitizedRoom.
  eexists. split_and!.
  - by rewrite (secure_addUser_messages xss (uuidv4 o 0) sanitizedUsername
                  sanitizedRoom socketId (now o 0) (now o 1)
                  (Secure.storage w) sanitizedRoom).
  - unfold Secure.getUsersInRoom, Secure.addUser.
    cbn [snd Secure.rooms Secure.users].
    rewrite lookup_alter, decide_True by done.
    destruct (Secure.rooms (Secure.storage w) !! sanitizedRoom) as [r|] eqn:Hl.
    + rewrite Hl. cbn [fmap option_fmap option_map Secure.r_users].
      apply list_elem_of_omap. exists (uuidv4 o 0).
      split; [apply elem_of_set_add; by left|]. by rewrite lookup_insert_eq.
    + rewrite lookup_insert_eq.
      cbn [fmap option_fmap option_map Secure.r_users].
      apply list_elem_of_omap. exists (uuidv4 o 0).
      split; [apply elem_of_set_add; by left|]. by rewrite lookup_insert_eq.
  - apply bool_decide_eq_true. unfold sio_join. set_solver.
  - unfold Secure.addUser. cbn [snd Secure.users].
    by rewrite lookup_insert_eq.
Qed.

Lemma secure_join_reports_the_joiner_witness :
  ∃ onlineUsers,
    (Secure.handle (λ s, s) Secure.MAX_MESSAGES "s2" "10.0.0.2"
       (Secure.JoinRoom (JStr " J2 ") (JStr " general "))
       (oracle ["u2"; "m8"; "m9"] "t9")
       (Secure.run (λ s, s) Secure.MAX_MESSAGES scenarioD_secure
          Secure.initial)).2
    = [ Emit (ToSocket "s2")
          (Secure.EvMessage
             (Secure.systemMessage "m8" "Welcome to general, J2!" "t9"));
        Emit (ToRoomExcept "general" "s2")
          (Secure.EvMessage
             (Secure.systemMessage "m9" "J2 has joined the chat" "t9"));
        Emit (ToSocket "s2")
          (Secure.EvRoomHistory
             (Secure.getRoomMessages "general"
                (Secure.storage
                   (Secure.run (λ s, s) Secure.MAX_MESSAGES scenarioD_secure
                      Secure.initial))));
        Emit (ToRoom "general") (Secure.EvOnlineUsers onlineUsers) ].
Proof.
  destruct (secure_join_reports_the_joiner (λ s, s) Secure.MAX_MESSAGES
              "s2" "10.0.0.2" (JStr " J2 ") (JStr " general ")
              (oracle ["u2"; "m8"; "m9"] "t9")
              (Secure.run (λ s, s) Secure.MAX_MESSAGES scenarioD_secure
                 Secure.initial)) as (onlineUsers & H & _).
  - by vm_compute.
  - by vm_compute.
  - by exists onlineUsers.
Defined.

(** What the secure server does with a message of a joined session: it
    refuses a value that is not a non-empty string and a text whose
    sanitized form is empty or longer than 500, each with an ['error'] to the
    sender and no change; otherwise it broadcasts the sanitized text, which
    then has 1 to 500 code units, to the room of the sender under the
    registered name, and stores that message sanitized once more as the
    newest of the history when the room exists. *)
Theorem secure_message_is_refused_or_bounded (xss : string → string)
    (socketId clientIP : string) (message : jsval) (o : Oracle)
    (w : Secure.World) (user : Secure.User) :
  Secure.getUserBySocketId socketId (Secure.storage w) = Some user →
  let result := Secure.handle xss Secure.MAX_MESSAGES socketId clientIP
                  (Secure.SendMessage message) o w in
  let sanitizedMessage := Secure.sanitizeInput xss message in
  ((truthy message = false ∨ isString message = false)
   ∧ result = (w, [Emit (ToSocket socketId)
                     (Secure.EvError "Invalid message")]))
  ∨ ((String.length sanitizedMessage = 0
      ∨ 500 < String.length sanitizedMessage)
     ∧ result = (w, [Emit (ToSocket socketId)
                       (Secure.EvError "Message length invalid")]))
  ∨ (1 ≤ String.length sanitizedMessage ≤ 500
     ∧ result.2
       = [Emit (ToRoom (Secure.u_room user))
            (Secure.EvMessage
               {| m_id := uuidv4 o 0; m_username := Secure.u_username user;
                  m_message := sanitizedMessage; m_timestamp := now o 0;
                  m_type := user_msg |})]
     ∧ (is_Some (Secure.rooms (Secure.storage w) !! Secure.u_room user) →
        last (Secure.getRoomMessages (Secure.u_room user)
                (Secure.storage result.1))
        = Some {| m_id := uuidv4 o 0;
                  m_username :=
                    Secure.sanitizeInput xss (JStr (Secure.u_username user));
                  m_message :=
                    Secure.sanitizeInput xss (JStr sanitizedMessage);
                  m_timestamp := now o 0; m_type := user_msg |})).
Proof.
  intros Hget result sanitizedMessage. subst result. simpl.
  unfold Secure.onSendMessage. rewrite Hget.
  destruct (truthy message) eqn:Ht; cbn [negb orb]; [|left; by split; [left|]].
  destruct (isString message) eqn:Hs; cbn [negb];
    [|left; by split; [right|]].
  fold sanitizedMessage.
  destruct (Nat.eqb_spec (String.length sanitizedMessage) 0) as [H0|H0];
    cbn [orb]; [right; left; by split; [left|]|].
  destruct (Nat.ltb_spec 500 (String.length sanitizedMessage)) as [H5|H5];
    [right; left; by split; [right|]|].
  right. right. split; [lia|]. split; [done|].
  intros [room Hr]. cbn [fst Secure.storage].
  unfold Secure.getRoomMessages, Secure.addMessage. rewrite Hr.
  cbn [Secure.rooms]. rewrite lookup_insert_eq. cbn [Secure.r_messages].
  apply last_kept. unfold Secure.MAX_MESSAGES. lia.
Qed.

Lemma secure_message_is_refused_or_bounded_witness :
  (Secure.handle (λ s, s) Secure.MAX_MESSAGES "s1" "10.0.0.1"
     (Secure.SendMessage (JStr " hi ")) (oracle ["m9"] "t9")
     (Secure.run (λ s, s) Secure.MAX_MESSAGES scenarioD_secure
        Secure.initial)).2
  = [Emit (ToRoom "general")
       (Secure.EvMessage {| m_id := "m9"; m_username := "J1";
                            m_message := "hi"; m_timestamp := "t9";
                            m_type := user_msg |})].
Proof.
  destruct (secure_message_is_refused_or_bounded (λ s, s) "s1" "10.0.0.1"
              (JStr " hi ") (oracle ["m9"] "t9")
              (Secure.run (λ s, s) Secure.MAX_MESSAGES scenarioD_secure
                 Secure.initial)
              {| Secure.u_id := "u1"; Secure.u_username := "J1";
                 Secure.u_room := "general"; Secure.u_socketId := "s1";
                 Secure.u_joinTime := "t0" |})
    as [[_ H]|[[_ H]|(_ & H & _)]].
  - by vm_compute.
  - by vm_compute in H.
  - by vm_compute in H.
  - exact H.
Defined.

(** * The client: the message input, the socket service and the login form *)

Lemma substring0_short n s : String.length s ≤ n → substring0 n s = s.
Proof.
  revert n. induction s as [|c s IH]; intros [|n] Hn; simpl in *; try done.
  - lia.
  - f_equal. apply IH. lia.
Qed.

Lemma trim_nonempty_length s : trim s ≠ "" ↔ 0 < String.length (trim s).
Proof. destruct (trim s); simpl; split; (done || lia). Qed.

Section MessageInputSteps.
Import MessageInput.

Lemma signals_app c1 c2 : signals (c1 ++ c2) = signals c1 ++ signals c2.
Proof. apply omap_app. Qed.

Lemma sent_app c1 c2 : sent (c1 ++ c2) = sent c1 ++ sent c2.
Proof. apply omap_app. Qed.

Lemma last_default_app (b : bool) l1 l2 :
  default b (last (l1 ++ l2)) = default (default b (last l1)) (last l2).
Proof.
  destruct l2 as [|x l2 _] using rev_ind.
  - by rewrite app_nil_r.
  - by rewrite app_assoc, !last_snoc.
Qed.

(** One handler: the flag it leaves is the last signal it sent, or the flag
    it found when it sent none; and a set flag comes with a pending timer
    when it did before. *)
Lemma step_typing disabled t e s :
  isTyping (step disabled t e s).1
  = default (isTyping s) (last (signals (step disabled t e s).2))
  ∧ ((isTyping s = true → is_Some (typingTimeout s)) →
     isTyping (step disabled t e s).1 = true →
     is_Some (typingTimeout (step disabled t e s).1)).
Proof.
  destruct e as [value|key shiftKey| |]; cbn [step].
  - unfold handleInputChange, handleTypingIndicator.
    destruct disabled; [by destruct (0 <? _)|].
    destruct (0 <? _), (isTyping s) eqn:Hs; cbn; rewrite ?Hs; eauto.
    all: split; [done|]; intros; done.
  - unfold handleKeyPress, sendMessage, handleTypingIndicator.
    destruct disabled; [done|].
    destruct (String.eqb key "Enter" && negb shiftKey); [|done].
    destruct (String.length (trim (message s)) =? 0); [done|].
    cbn. split; [done|]. intros; done.
  - unfold sendMessage, handleTypingIndicator.
    destruct disabled; [done|].
    destruct (String.length (trim (message s)) =? 0); [done|].
    cbn. split; [done|]. intros; done.
  - unfold timeoutFires.
    destruct (typingTimeout s) as [deadline|] eqn:Ht; cbn; [|by rewrite Ht].
    destruct (deadline <=? t)%Z; cbn; rewrite ?Ht; [|done].
    split; [done|]. intros; done.
Qed.

Lemma run_cons disabled t e rest s :
  run ((disabled, t, e) :: rest) s
  = ((run rest (step disabled t e s).1).1,
     (step disabled t e s).2 ++ (run rest (step disabled t e s).1).2).
Proof.
  unfold run at 1; fold run.
  destruct (step disabled t e s) as [s1 c1]. cbn [fst snd].
  by destruct (run rest s1).
Qed.

Lemma run_app trace1 trace2 s :
  run (trace1 ++ trace2) s
  = ((run trace2 (run trace1 s).1).1,
     (run trace1 s).2 ++ (run trace2 (run trace1 s).1).2).
Proof.
  revert s. induction trace1 as [|[[d t] e] trace1 IH]; intros s.
  - simpl. by destruct (run trace2 s).
  - rewrite <-app_comm_cons, !run_cons, IH. cbn [fst snd].
    by rewrite app_assoc.
Qed.

Lemma run_typing trace s :
  isTyping (run trace s).1
  = default (isTyping s) (last (signals (run trace s).2))
  ∧ ((isTyping s = true → is_Some (typingTimeout s)) →
     isTyping (run trace s).1 = true →
     is_Some (typingTimeout (run trace s).1)).
Proof.
  revert s. induction trace as [|[[d t] e] trace IH]; intros s; [done|].
  rewrite run_cons. cbn [fst snd].
  destruct (step_typing d t e s) as [H1 H2].
  destruct (IH (step d t e s).1) as [H3 H4].
  split.
  - by rewrite H3, signals_app, last_default_app, H1.
  - intros Hs. apply H4, H2, Hs.
Qed.

(** What a handler passes to [onSendMessage] is trimmed and not empty. *)
Lemma step_sent disabled t e s text :
  text ∈ sent (step disabled t e s).2 → text = trim (message s) ∧ text ≠ "".
Proof.
  assert (∀ d, text ∈ sent (sendMessage d t s).2 →
               text = trim (message s) ∧ text ≠ "") as Hsend.
  { intros d. unfold sendMessage, handleTypingIndicator.
    destruct d; [by intros ?%elem_of_nil|].
    destruct (Nat.eqb_spec (String.length (trim (message s))) 0) as [|Hlen];
      [by intros ?%elem_of_nil|].
    cbn. intros ->%list_elem_of_singleton. split; [done|].
    intros Heq. by rewrite Heq in Hlen. }
  destruct e as [value|key shiftKey| |]; cbn [step].
  - unfold handleInputChange, handleTypingIndicator.
    destruct disabled, (0 <? _), (isTyping s); cbn; by intros ?%elem_of_nil.
  - unfold handleKeyPress.
    destruct disabled; [by intros ?%elem_of_nil|].
    destruct (String.eqb key "Enter" && negb shiftKey);
      [apply Hsend|by intros ?%elem_of_nil].
  - apply Hsend.
  - unfold timeoutFires. destruct (typingTimeout s); [|by intros ?%elem_of_nil].
    destruct (_ <=? t)%Z; cbn; by intros ?%elem_of_nil.
Qed.

End MessageInputSteps.

(** ** The typing signals of the message input *)

(** Whatever the user does and whenever the timer runs, the flag [isTyping]
    of the message input equals the last value it passed to [onTyping]
    ([false] before the first call), and while the flag is set a timer that
    will send the stop signal is pending. *)
Theorem typing_flag_is_the_last_signal_sent
    (trace : list (bool * Z * MessageInput.Event)) :
  let result := MessageInput.run trace MessageInput.initial in
  MessageInput.isTyping result.1 = MessageInput.lastTyping result.2
  ∧ (MessageInput.isTyping result.1 = true →
     is_Some (MessageInput.typingTimeout result.1)).
Proof.
  intros result. subst result.
  destruct (run_typing trace MessageInput.initial) as [H1 H2].
  split; [exact H1|]. apply H2. done.
Qed.

Lemma step_start disabled t e s :
  MessageInput.OnTyping true ∈ (MessageInput.step disabled t e s).2 →
  MessageInput.isTyping s = false
  ∧ ∃ value, e = MessageInput.Change value ∧ trim value ≠ ""
    ∧ MessageInput.step disabled t e s
      = ({| MessageInput.message := value; MessageInput.isTyping := true;
            MessageInput.typingTimeout := Some (t + 2000)%Z |},
         [MessageInput.OnTyping true]).
Proof.
  assert (∀ d, MessageInput.OnTyping true
               ∉ (MessageInput.sendMessage d t s).2) as Hsend.
  { intros d. unfold MessageInput.sendMessage, MessageInput.handleTypingIndicator.
    destruct d; [by intros ?%elem_of_nil|].
    destruct (String.length (trim (MessageInput.message s)) =? 0);
      [by intros ?%elem_of_nil|].
    cbn. rewrite !elem_of_cons. intros [?|[?|?%elem_of_nil]]; done. }
  destruct e as [value|key shiftKey| |]; cbn [MessageInput.step].
  - unfold MessageInput.handleInputChange, MessageInput.handleTypingIndicator.
    destruct disabled; [destruct (0 <? _); by intros ?%elem_of_nil|].
    destruct (Nat.ltb_spec 0 (String.length (trim value))) as [Hlen|Hlen],
      (MessageInput.isTyping s) eqn:Hs; cbn; rewrite ?Hs; cbn.
    + by intros ?%elem_of_nil.
    + intros _. split; [done|]. exists value. split_and!; [done| |done].
      by apply trim_nonempty_length.
    + rewrite elem_of_cons. intros [?|?%elem_of_nil]; done.
    + rewrite elem_of_cons. intros [?|?%elem_of_nil]; done.
  - unfold MessageInput.handleKeyPress.
    destruct disabled; [by intros ?%elem_of_nil|].
    destruct (String.eqb key "Enter" && negb shiftKey);
      [by intros ?%Hsend|by intros ?%elem_of_nil].
  - by intros ?%Hsend.
  - unfold MessageInput.timeoutFires.
    destruct (MessageInput.typingTimeout s); [|by intros ?%elem_of_nil].
    destruct (_ <=? t)%Z; cbn; [|by intros ?%elem_of_nil].
    rewrite elem_of_cons. intros [?|?%elem_of_nil]; done.
Qed.

(** The message input sends the start signal only when the last signal it
    sent was the stop signal, or it sent none: the handler that sends it is
    a change of the text to one that is not blank, it sends nothing else,
    and it arms the timer for 2000 ms later. *)
Theorem start_signal_is_not_repeated
    (trace : list (bool * Z * MessageInput.Event)) (disabled : bool) (t : Z)
    (e : MessageInput.Event) :
  let before := MessageInput.run trace MessageInput.initial in
  let after := MessageInput.step disabled t e before.1 in
  MessageInput.OnTyping true ∈ after.2 →
  MessageInput.lastTyping before.2 = false
  ∧ after.2 = [MessageInput.OnTyping true]
  ∧ MessageInput.isTyping after.1 = true
  ∧ MessageInput.typingTimeout after.1 = Some (t + 2000)%Z.
Proof.
  intros before after Hin. subst before after.
  apply step_start in Hin as (Hs & value & -> & _ & Hstep).
  destruct (run_typing trace MessageInput.initial) as [H1 _].
  split; [by rewrite <-Hs, H1|]. by rewrite Hstep.
Qed.

Lemma start_signal_is_not_repeated_witness :
  MessageInput.lastTyping
    (MessageInput.run [(false, 0%Z, MessageInput.Change "h");
                       (false, 2000%Z, MessageInput.Timeout)]
       MessageInput.initial).2 = false
  ∧ (MessageInput.step false 2500%Z (MessageInput.Change "hi")
       (MessageInput.run [(false, 0%Z, MessageInput.Change "h");
                          (false, 2000%Z, MessageInput.Timeout)]
          MessageInput.initial).1).2 = [MessageInput.OnTyping true]
  ∧ MessageInput.isTyping
      (MessageInput.step false 2500%Z (MessageInput.Change "hi")
         (MessageInput.run [(false, 0%Z, MessageInput.Change "h");
                            (false, 2000%Z, MessageInput.Timeout)]
            MessageInput.initial).1).1 = true
  ∧ MessageInput.typingTimeout
      (MessageInput.step false 2500%Z (MessageInput.Change "hi")
         (MessageInput.run [(false, 0%Z, MessageInput.Change "h");
                            (false, 2000%Z, MessageInput.Timeout)]
            MessageInput.initial).1).1 = Some (2500 + 2000)%Z.
Proof.
  apply (start_signal_is_not_repeated
           [(false, 0%Z, MessageInput.Change "h");
            (false, 2000%Z, MessageInput.Timeout)]
           false 2500%Z (MessageInput.Change "hi")).
  vm_compute. apply list_elem_of_here.
Defined.

(** Every change of the text to one that is not blank, in an input that is
    not disabled, arms the timer anew: it sets the flag, a timer callback
    that runs less than 2000 ms later belongs to a cleared timer and does
    nothing, and the callback that runs 2000 ms later or after sends the
    stop signal, once, and clears the flag. *)
Theorem stop_timer_is_rearmed_by_every_keystroke (s : MessageInput.State)
    (value : string) (t t' : Z) :
  trim value ≠ "" →
  let s1 := (MessageInput.handleInputChange false value t s).1 in
  MessageInput.isTyping s1 = true
  ∧ MessageInput.message s1 = value
  ∧ ((t' < t + 2000)%Z → MessageInput.timeoutFires t' s1 = (s1, []))
  ∧ ((t + 2000 ≤ t')%Z →
     MessageInput.timeoutFires t' s1
     = ({| MessageInput.message := value; MessageInput.isTyping := false;
           MessageInput.typingTimeout := None |},
        [MessageInput.OnTyping false])
     ∧ MessageInput.timeoutFires t' (MessageInput.timeoutFires t' s1).1
       = ((MessageInput.timeoutFires t' s1).1, [])).
Proof.
  intros Hne%trim_nonempty_length s1. subst s1.
  unfold MessageInput.handleInputChange, MessageInput.handleTypingIndicator.
  apply Nat.ltb_lt in Hne. rewrite Hne.
  cbn [negb andb MessageInput.isTyping MessageInput.message fst snd].
  split_and!.
  - by destruct (MessageInput.isTyping s).
  - done.
  - intros Hlt. unfold MessageInput.timeoutFires.
    cbn [MessageInput.typingTimeout fst].
    by destruct (Z.leb_spec (t + 2000) t'); [lia|].
  - intros Hle. unfold MessageInput.timeoutFires.
    cbn [MessageInput.typingTimeout fst].
    destruct (Z.leb_spec (t + 2000) t'); [done|lia].
Qed.

Lemma stop_timer_is_rearmed_by_every_keystroke_witness :
  MessageInput.timeoutFires 2100
    (MessageInput.handleInputChange false "hi" 100
       (MessageInput.handleInputChange false "h" 0 MessageInput.initial).1).1
  = ({| MessageInput.message := "hi"; MessageInput.isTyping := false;
        MessageInput.typingTimeout := None |},
     [MessageInput.OnTyping false]).
Proof.
  refine (proj1 (proj2 (proj2 (proj2
    (stop_timer_is_rearmed_by_every_keystroke
       (MessageInput.handleInputChange false "h" 0 MessageInput.initial).1
       "hi" 100%Z 2100%Z _))) _)).
  - vm_compute. discriminate.
  - lia.
Defined.

(** ** From the message input to the room *)

(** The message input never passes a blank text on: every text it hands to
    [onSendMessage], in any run from any state, is not empty and is left
    alone by [trim], and the socket service, when it has a socket, emits it
    unchanged. *)
Theorem client_sends_no_blank_message
    (trace : list (bool * Z * MessageInput.Event)) (s : MessageInput.State)
    (text : string) :
  text ∈ MessageInput.sent (MessageInput.run trace s).2 →
  text ≠ "" ∧ trim text = text
  ∧ SocketService.sendMessage true text = Some (JStr text).
Proof.
  assert (∀ text, text ≠ "" → trim text = text →
            text ≠ "" ∧ trim text = text
            ∧ SocketService.sendMessage true text = Some (JStr text)) as Hok.
  { intros x Hne Htrim. split_and!; [done..|].
    unfold SocketService.sendMessage. rewrite Htrim.
    by destruct (String.eqb_spec x ""). }
  revert s. induction trace as [|[[d t] e] trace IH]; intros s.
  - by intros ?%elem_of_nil.
  - rewrite run_cons. cbn [snd]. rewrite sent_app, elem_of_app.
    intros [[-> Hne]%step_sent|Hin].
    + apply Hok; [done|apply trim_idempotent].
    + by apply (IH _ Hin).
Qed.

Lemma client_sends_no_blank_message_witness :
  "hi" ≠ "" ∧ trim "hi" = "hi"
  ∧ SocketService.sendMessage true "hi" = Some (JStr "hi").
Proof.
  apply (client_sends_no_blank_message
           [(false, 0%Z, MessageInput.Change " hi ");
            (false, 10%Z, MessageInput.KeyPress "Enter" false)]
           MessageInput.initial "hi").
  vm_compute. apply list_elem_of_here.
Defined.

(** A text that is not blank, submitted in an input that is not disabled by
    a session that has joined, reaches the room: the input hands the trimmed
    text to [onSendMessage], then sends the stop signal and is left empty
    with no timer; the socket service emits that text; and the plain server
    answers the event with one message to the whole room of the sender,
    carrying that text under the registered name. *)
Theorem submitted_text_reaches_the_room (w : Plain.World) (socketId : string)
    (o : Oracle) (user : Plain.User) (s : MessageInput.State) (t : Z) :
  Plain.getUserBySocketId socketId (Plain.storage w) = Some user →
  trim (MessageInput.message s) ≠ "" →
  let text := trim (MessageInput.message s) in
  MessageInput.sendMessage false t s
  = ({| MessageInput.message := ""; MessageInput.isTyping := false;
        MessageInput.typingTimeout := None |},
     [MessageInput.OnSendMessage text; MessageInput.OnTyping false])
  ∧ SocketService.sendMessage true text = Some (JStr text)
  ∧ (Plain.handle Plain.MAX_MESSAGES socketId
       (Plain.SendMessage (JStr text)) o w).2
    = [Emit (ToRoom (Plain.u_room user))
         (Plain.EvMessage {| m_id := uuidv4 o 0;
                             m_username := Plain.u_username user;
                             m_message := text; m_timestamp := now o 0;
                             m_type := user_msg |})].
Proof.
  intros Hget Hne text. subst text.
  set (text := trim (MessageInput.message s)) in *.
  assert (trim text = text) as Htrim by apply trim_idempotent.
  split_and!.
  - unfold MessageInput.sendMessage, MessageInput.handleTypingIndicator.
    fold text.
    destruct (Nat.eqb_spec (String.length text) 0) as [Hlen|Hlen]; [|done].
    by destruct text.
  - unfold SocketService.sendMessage. rewrite Htrim.
    by destruct (String.eqb_spec text "").
  - cbn [Plain.handle]. unfold Plain.onSendMessage. rewrite Hget.
    rewrite (truthy_JStr text) by done. rewrite Htrim.
    by destruct (String.eqb_spec text "").
Qed.

Lemma submitted_text_reaches_the_room_witness :
  (Plain.handle Plain.MAX_MESSAGES "s1" (Plain.SendMessage (JStr "hello"))
     (oracle ["m9"] "t9")
     (Plain.run Plain.MAX_MESSAGES scenarioD Plain.initial)).2
  = [Emit (ToRoom "general")
       (Plain.EvMessage {| m_id := "m9"; m_username := "J1";
                           m_message := "hello"; m_timestamp := "t9";
                           m_type := user_msg |})].
Proof.
  refine (proj2 (proj2
    (submitted_text_reaches_the_room
       (Plain.run Plain.MAX_MESSAGES scenarioD Plain.initial) "s1"
       (oracle ["m9"] "t9")
       {| Plain.u_id := "u1"; Plain.u_username := "J1";
          Plain.u_room := "general"; Plain.u_socketId := "s1" |}
       {| MessageInput.message := " hello "; MessageInput.isTyping := true;
          MessageInput.typingTimeout := Some 2000%Z |} 0%Z _ _))).
  - vm_compute. reflexivity.
  - vm_compute. discriminate.
Defined.

(** ** From the login form to the servers *)

Lemma fieldError_empty label most lengthText charsText value :
  Login.fieldError label most lengthText charsText value = "" →
  label ≠ "" → lengthText ≠ "" → charsText ≠ "" →
  trim value ≠ "" ∧ 2 ≤ String.length (trim value) ≤ most
  ∧ matchesName (trim value) = true.
Proof.
  unfold Login.fieldError. intros H Hl Hlen Hchars.
  destruct (String.eqb_spec (trim value) "") as [|Hne].
  { by destruct label. }
  destruct (Nat.ltb_spec (String.length (trim value)) 2).
  { by destruct label. }
  destruct (Nat.ltb_spec most (String.length (trim value))); [done|].
  destruct (matchesName (trim value)); [|done].
  split_and!; (done || lia).
Qed.

Lemma login_accepted isLoading formData username room :
  Login.handleSubmit isLoading formData = Some (username, room) →
  (username ≠ "" ∧ trim username = username
   ∧ 2 ≤ String.length username ≤ 20 ∧ matchesName username = true)
  ∧ (room ≠ "" ∧ trim room = room
     ∧ 2 ≤ String.length room ≤ 30 ∧ matchesName room = true).
Proof.
  unfold Login.handleSubmit, Login.validateForm.
  destruct isLoading; [done|].
  destruct (String.eqb_spec (Login.usernameError (Login.username formData)) "")
    as [Hu|]; [|done].
  destruct (String.eqb_spec (Login.roomError (Login.room formData)) "")
    as [Hr|]; [|done].
  cbn [andb]. intros [= <- <-].
  apply fieldError_empty in Hu as (? & ? & ?); [|done..].
  apply fieldError_empty in Hr as (? & ? & ?); [|done..].
  by rewrite !trim_idempotent.
Qed.

(** Whatever the login form submits is accepted by both servers.  The two
    names it passes to [onLogin] are trimmed, of 2 to 20 (30 for the room)
    characters of the name pattern; the socket service emits them as they
    are; the secure server, whose filter leaves such names alone, finds
    both valid; and the plain server, for which the room name needs no
    trimming, sends the online users of that room to the whole room, the
    joiner among them and reached by it. *)
Theorem submitted_login_is_accepted_by_both_servers (isLoading : bool)
    (formData : Login.FormData) (username room : string)
    (xss : string → string) (socketId : string) (o : Oracle)
    (w : Plain.World) :
  Login.handleSubmit isLoading formData = Some (username, room) →
  xss username = username → xss room = room →
  SocketService.joinRoom true username room = Some (JStr username, JStr room)
  ∧ trim username = username ∧ trim room = room
  ∧ Secure.isValidUsername xss (JStr username) = true
  ∧ Secure.isValidRoomName xss (JStr room) = true
  ∧ Secure.sanitizeInput xss (JStr username) = username
  ∧ Secure.sanitizeInput xss (JStr room) = room
  ∧ let result := Plain.handle Plain.MAX_MESSAGES socketId
                    (Plain.JoinRoom (JStr username) (JStr room)) o w in
    ∃ onlineUsers,
      last result.2 = Some (Emit (ToRoom room) (Plain.EvOnlineUsers onlineUsers))
      ∧ {| Plain.u_id := uuidv4 o 0; Plain.u_username := username;
           Plain.u_room := room; Plain.u_socketId := socketId |} ∈ onlineUsers
      ∧ delivered (Plain.adapter result.1) (ToRoom room) socketId = true.
Proof.
  intros [(Hu & Htu & Hlu & Hmu) (Hr & Htr & Hlr & Hmr)]%login_accepted Hxu Hxr.
  assert (Secure.sanitizeInput xss (JStr username) = username) as Hsu.
  { unfold Secure.sanitizeInput. rewrite Htu, substring0_short by lia. done. }
  assert (Secure.sanitizeInput xss (JStr room) = room) as Hsr.
  { unfold Secure.sanitizeInput. rewrite Htr, substring0_short by lia. done. }
  split_and!; [done..| | |done|done|].
  - unfold Secure.isValidUsername. rewrite Hsu, (truthy_JStr _ Hu).
    cbn [isString negb orb]. rewrite Hmu.
    destruct (Nat.leb_spec 2 (String.length username)); [|lia].
    destruct (Nat.leb_spec (String.length username) 20); [done|lia].
  - unfold Secure.isValidRoomName. rewrite Hsr, (truthy_JStr _ Hr).
    cbn [isString negb orb]. rewrite Hmr.
    destruct (Nat.leb_spec 2 (String.length room)); [|lia].
    destruct (Nat.leb_spec (String.length room) 30); [done|lia].
  - intros result. subst result.
    destruct (plain_join_trimmed_room Plain.MAX_MESSAGES socketId username
                room o w Hu Hr Htr) as (onlineUsers & Hemits & Hin & Hd & _).
    exists onlineUsers. rewrite Htu in Hin. by rewrite Hemits.
Qed.

Lemma submitted_login_is_accepted_by_both_servers_witness :
  Secure.isValidUsername id (JStr "J1") = true
  ∧ Secure.isValidRoomName id (JStr "general") = true.
Proof.
  pose proof (submitted_login_is_accepted_by_both_servers false
                {| Login.username := " J1 "; Login.room := "general " |}
                "J1" "general" id "s1" (oracle ["u1"] "t1") Plain.initial
                ltac:(vm_compute; reflexivity) eq_refl eq_refl)
    as (_ & _ & _ & H1 & H2 & _).
  exact (conj H1 H2).
Defined.

(** The login form submits nothing that a server would have to refuse for
    its form: when a trimmed name is empty, shorter than 2, longer than 20
    (30 for the room) or has a character outside the name pattern,
    [onLogin] is not called; neither is it while a login is in progress. *)
Theorem malformed_login_is_not_submitted (isLoading : bool)
    (formData : Login.FormData) :
  isLoading = true
  ∨ String.length (trim (Login.username formData)) < 2
  ∨ 20 < String.length (trim (Login.username formData))
  ∨ matchesName (trim (Login.username formData)) = false
  ∨ String.length (trim (Login.room formData)) < 2
  ∨ 30 < String.length (trim (Login.room formData))
  ∨ matchesName (trim (Login.room formData)) = false →
  Login.handleSubmit isLoading formData = None.
Proof.
  intros H.
  destruct (Login.handleSubmit isLoading formData) as [[username room]|] eqn:Hs;
    [|done].
  pose proof Hs as [(_ & _ & ? & ?) (_ & _ & ? & ?)]%login_accepted.
  unfold Login.handleSubmit in Hs.
  destruct isLoading; [done|].
  destruct (Login.validateForm formData); [|done].
  injection Hs as <- <-.
  destruct H as [?|[?|[?|[?|[?|[?|?]]]]]]; try done; try lia; congruence.
Qed.

Lemma malformed_login_is_not_submitted_witness :
  Login.handleSubmit false {| Login.username := "<b>"; Login.room := "general" |}
  = None.
Proof.
  apply malformed_login_is_not_submitted.
  right. right. right. left. vm_compute. reflexivity.
Defined.

(** ** From the plain server to the application *)

Lemma plain_error_emit capacity socketId e o w to text :
  Emit to (Plain.EvError text) ∈ (Plain.handle capacity socketId e o w).2 →
  to = ToSocket socketId ∧ text ≠ ""
  ∧ Plain.handle capacity socketId e o w
    = (w, [Emit (ToSocket socketId) (Plain.EvError text)]).
Proof.
  assert (∀ msg, msg ≠ "" →
            Emit to (Plain.EvError text)
              ∈ [Emit (ToSocket socketId) (Plain.EvError msg)] →
            to = ToSocket socketId ∧ text ≠ ""
            ∧ (w, [Emit (ToSocket socketId) (Plain.EvError msg)])
              = (w, [Emit (ToSocket socketId) (Plain.EvError text)]))
    as Hone.
  { by intros msg Hmsg [= -> ->]%list_elem_of_singleton. }
  destruct e as [username room|message|isTyping| | |evName]; cbn [Plain.handle].
  - unfold Plain.onJoinRoom.
    destruct (negb (truthy username) || negb (truthy room)); [by apply Hone|].
    destruct username as [| | | |username|]; try by apply Hone.
    destruct room as [| | | |room|]; try by apply Hone.
    cbn. rewrite !elem_of_cons.
    intros [?|[?|[?|[?|?%elem_of_nil]]]]; done.
  - unfold Plain.onSendMessage.
    destruct (Plain.getUserBySocketId socketId (Plain.storage w));
      [|by apply Hone].
    destruct (negb (truthy message)); [by apply Hone|].
    destruct message as [| | | |message|]; try by apply Hone.
    destruct (String.eqb (trim message) ""); [by apply Hone|].
    cbn. by intros [=]%list_elem_of_singleton.
  - unfold Plain.onTyping.
    destruct (Plain.getUserBySocketId socketId (Plain.storage w));
      [|by intros ?%elem_of_nil].
    destruct (Plain.setTyping _ _ _ _). cbn.
    by intros [=]%list_elem_of_singleton.
  - unfold Plain.onDisconnect.
    destruct (Plain.removeUser socketId (Plain.storage w)) as [[user|] st1];
      [|by intros ?%elem_of_nil].
    cbn. rewrite !elem_of_cons. intros [?|[?|?%elem_of_nil]]; done.
  - unfold Plain.onLeaveRoom.
    destruct (Plain.removeUser socketId (Plain.storage w)) as [[user|] st1];
      [|by intros ?%elem_of_nil].
    cbn. rewrite !elem_of_cons. intros [?|[?|[?|?%elem_of_nil]]]; done.
  - unfold Plain.onWithoutPayload. cbn.
    by intros [=]%list_elem_of_singleton.
Qed.

(** ** The listeners of the application *)

(** However the component is mounted, unmounted, logged in and out, the
    service has no socket while the component is unmounted, and a socket it
    has carries no listener of the application. *)
Lemma lifecycle_no_listener ev c :
  (App.mounted c = false → App.service c = None) →
  (∀ socket, App.service c = Some socket →
     SocketService.listeners socket = []) →
  (App.mounted (App.lifecycle ev c) = false →
   App.service (App.lifecycle ev c) = None)
  ∧ (∀ socket, App.service (App.lifecycle ev c) = Some socket →
       SocketService.listeners socket = []).
Proof.
  intros Hnone Hempty.
  destruct c as [mounted [socket|]]; cbn in *.
  - specialize (Hempty socket eq_refl).
    destruct ev as [| |connects| |up], mounted; cbn;
      try (by specialize (Hnone eq_refl));
      try (split; [done|by intros ? [= <-]]).
    destruct (SocketService.connected socket); cbn;
      (split; [done|by intros ? [= <-]]).
  - destruct ev as [| |connects| |up], mounted; cbn;
      split; (done || by intros ? [= <-]).
Qed.

Lemma lifecycles_no_listener trace c :
  (App.mounted c = false → App.service c = None) →
  (∀ socket, App.service c = Some socket →
     SocketService.listeners socket = []) →
  ∀ socket, App.service (App.lifecycles trace c) = Some socket →
    SocketService.listeners socket = [].
Proof.
  revert c. induction trace as [|ev trace IH]; intros c Hnone Hempty.
  - done.
  - cbn. destruct (lifecycle_no_listener ev c Hnone Hempty) as [H1 H2].
    by apply IH.
Qed.

Lemma dispatch_no_listener svc p s :
  (∀ socket, svc = Some socket → SocketService.listeners socket = []) →
  App.dispatch svc p s = s.
Proof.
  intros Hempty. destruct svc as [socket|]; [|done].
  unfold App.dispatch. by rewrite (Hempty socket eq_refl).
Qed.

Lemma dispatchAll_no_listener svc ps s :
  (∀ socket, svc = Some socket → SocketService.listeners socket = []) →
  App.dispatchAll svc ps s = s.
Proof.
  intros Hempty. unfold App.dispatchAll.
  induction ps as [|p ps IH]; [done|].
  cbn. by rewrite dispatch_no_listener.
Qed.

(** The joiner is delivered the answer of the server and shown none of it.
    For a join under a room name that needs no trimming, the socket of the
    joiner is delivered the welcome, the history of the room and the online
    users, the joiner among them, in this order, and not the join notice.
    But [setupSocketListeners] runs when the component is mounted, when the
    service has no socket, and [socketService.onX] attaches a listener only
    to a socket that exists; the socket that [connect] makes later carries
    none.  So, however the component was mounted, unmounted and logged in
    before, the state [handleLogin] leaves stays as it is: the message list
    and the list of online users stay empty. *)
Theorem joiner_is_delivered_the_answer_and_shown_nothing (w : Plain.World)
    (socketId username room : string) (o : Oracle) (s0 : App.AppState)
    (trace : list App.Lifecycle) :
  username ≠ "" → room ≠ "" → trim room = room →
  let result := Plain.handle Plain.MAX_MESSAGES socketId
                  (Plain.JoinRoom (JStr username) (JStr room)) o w in
  let received := App.deliveries (Plain.adapter result.1) socketId result.2 in
  let svc := App.service (App.lifecycles trace App.unmounted) in
  let loggedIn := App.handleLogin username room socketId s0 in
  let welcome := Plain.systemMessage (uuidv4 o 1)
                   ("Welcome to " +:+ room +:+ ", " +:+ username +:+ "!")
                   (now o 0) in
  (∃ onlineUsers,
     received = [ Plain.EvMessage welcome;
                  Plain.EvRoomHistory
                    (Plain.getRoomMessages room (Plain.storage w));
                  Plain.EvOnlineUsers onlineUsers ]
     ∧ {| Plain.u_id := uuidv4 o 0; Plain.u_username := trim username;
          Plain.u_room := room; Plain.u_socketId := socketId |}
       ∈ onlineUsers)
  ∧ (∀ socket, svc = Some socket → SocketService.listeners socket = [])
  ∧ App.dispatchAll svc received loggedIn = loggedIn
  ∧ App.messages (App.dispatchAll svc received loggedIn) = []
  ∧ App.onlineUsers (App.dispatchAll svc received loggedIn) = [].
Proof.
  intros Hu Hr Htrim result received svc loggedIn welcome.
  destruct (plain_join_trimmed_room Plain.MAX_MESSAGES socketId username
              room o w Hu Hr Htrim) as (onlineUsers & Hemits & Hin & Hd & _).
  fold result in Hemits, Hd.
  assert (∀ socket, svc = Some socket → SocketService.listeners socket = [])
    as Hempty.
  { subst svc. by apply lifecycles_no_listener. }
  split_and!; [|done|by apply dispatchAll_no_listener|..].
  - exists onlineUsers. split; [|done].
    subst received. rewrite Hemits. unfold App.deliveries.
    cbn [omap list_omap]. rewrite Hd. cbn [delivered].
    rewrite bool_decide_true by done.
    rewrite (bool_decide_false (socketId ≠ socketId)) by (by intros ?).
    by rewrite andb_false_r.
  - by rewrite dispatchAll_no_listener.
  - by rewrite dispatchAll_no_listener.
Qed.

Lemma joiner_is_delivered_the_answer_and_shown_nothing_witness :
  App.messages
    (App.dispatchAll
       (App.service
          (App.lifecycles [App.Mount; App.Unmount; App.Mount; App.LogIn true]
             App.unmounted))
       (App.deliveries
          (Plain.adapter
             (Plain.handle Plain.MAX_MESSAGES "s9"
                (Plain.JoinRoom (JStr "J9") (JStr "general"))
                (oracle ["u9"; "m1"; "m2"] "t9")
                (Plain.run Plain.MAX_MESSAGES scenarioD Plain.initial)).1)
          "s9"
          (Plain.handle Plain.MAX_MESSAGES "s9"
             (Plain.JoinRoom (JStr "J9") (JStr "general"))
             (oracle ["u9"; "m1"; "m2"] "t9")
             (Plain.run Plain.MAX_MESSAGES scenarioD Plain.initial)).2)
       (App.handleLogin "J9" "general" "s9" App.initial))
  = [].
Proof.
  refine (proj1 (proj2 (proj2 (proj2
    (joiner_is_delivered_the_answer_and_shown_nothing
       (Plain.run Plain.MAX_MESSAGES scenarioD Plain.initial)
       "s9" "J9" "general" (oracle ["u9"; "m1"; "m2"] "t9") App.initial
       [App.Mount; App.Unmount; App.Mount; App.LogIn true] _ _ _))))).
  - discriminate.
  - discriminate.
  - vm_compute. reflexivity.
Defined.

(** An error of the plain server does not reach the state of the
    application.  Every ['error'] a handler emits goes to the sender alone,
    has a text that is not empty and comes with no other emit and no change
    of the world; the client that is delivered it has no listener for it,
    however the component was mounted, unmounted and logged in before, so
    the state stays as it is and a message input that was enabled stays
    enabled. *)
Theorem server_error_leaves_the_application_as_it_is (capacity : nat)
    (socketId : string) (e : Plain.Event) (o : Oracle) (w : Plain.World)
    (to : Audience) (text : string) (s : App.AppState)
    (trace : list App.Lifecycle) :
  Emit to (Plain.EvError text) ∈ (Plain.handle capacity socketId e o w).2 →
  Plain.handle capacity socketId e o w
  = (w, [Emit (ToSocket socketId) (Plain.EvError text)])
  ∧ text ≠ ""
  ∧ let svc := App.service (App.lifecycles trace App.unmounted) in
    App.dispatch svc (Plain.EvError text) s = s
    ∧ App.error (App.dispatch svc (Plain.EvError text) s) = App.error s
    ∧ App.inputDisabled (App.dispatch svc (Plain.EvError text) s)
      = App.inputDisabled s.
Proof.
  intros (-> & Hne & Heq)%plain_error_emit. split_and!; [done|done|].
  intros svc.
  assert (App.dispatch svc (Plain.EvError text) s = s) as ->; [|done].
  apply dispatch_no_listener. subst svc. by apply lifecycles_no_listener.
Qed.

Lemma server_error_leaves_the_application_as_it_is_witness :
  App.inputDisabled
    (App.dispatch
       (App.service (App.lifecycles [App.Mount; App.LogIn true] App.unmounted))
       (Plain.EvError "User not found")
       (App.handleLogin "J1" "general" "s1" App.initial))
  = App.inputDisabled (App.handleLogin "J1" "general" "s1" App.initial).
Proof.
  refine (proj2 (proj2 (proj2 (proj2
    (server_error_leaves_the_application_as_it_is Plain.MAX_MESSAGES "s1"
       (Plain.SendMessage (JStr "hello")) (oracle [] "t") Plain.initial
       (ToSocket "s1") "User not found"
       (App.handleLogin "J1" "general" "s1" App.initial)
       [App.Mount; App.LogIn true] _))))).
  vm_compute. apply list_elem_of_here.
Defined.

(** ** The disabled message input *)

(** A message input that is disabled passes no text to [onSendMessage] and
    never sends the start signal, whatever the user does: every handler
    returns at its first line, and only a timer that was armed before may
    still send the stop signal. *)
Theorem disabled_input_sends_nothing (t : Z) (e : MessageInput.Event)
    (s : MessageInput.State) :
  MessageInput.sent (MessageInput.step true t e s).2 = []
  ∧ (MessageInput.OnTyping true ∉ (MessageInput.step true t e s).2)
  ∧ ((MessageInput.step true t e s).2 = []
     ∨ (e = MessageInput.Timeout
        ∧ (MessageInput.step true t e s).2 = [MessageInput.OnTyping false])).
Proof.
  destruct e as [value|key shiftKey| |]; cbn [MessageInput.step].
  - unfold MessageInput.handleInputChange, MessageInput.handleTypingIndicator.
    destruct (0 <? _); cbn; split_and!;
      (done || by left || by intros ?%elem_of_nil).
  - cbn. split_and!; (done || by left || by intros ?%elem_of_nil).
  - cbn. split_and!; (done || by left || by intros ?%elem_of_nil).
  - unfold MessageInput.timeoutFires.
    destruct (MessageInput.typingTimeout s);
      [|split_and!; (done || by left || by intros ?%elem_of_nil)].
    destruct (_ <=? t)%Z; cbn; split_and!;
      try done; try (by left); try (by right);
      try (by intros ?%elem_of_nil);
      by intros [=]%list_elem_of_singleton.
Qed.
